(** * DHT22 driver (components/dht22/dht22.c): model and properties

    The driver reads a DHT22 temperature / humidity sensor over one GPIO
    line.  This file embeds the four functions of [dht22.c] and proves
    properties about them:

    - [dhtProcessRawData]: the frame decoder, a pure function of the 40
      stored pulse counts, over C's [uint32_t] arithmetic;
    - [dhtReadRawData]: the busy-wait protocol engine, over a stream of
      sampled line levels;
    - [dhtRead]: rate gate, acquisition and decoding;
    - [dhtInitialize] / [dhtCleanup]: the handle life cycle, over a heap of
      allocated blocks.

    Integers are [Z] with the wrap-around of the C types written out.  The
    [ESP_LOGx] calls are left out: they change nothing of the state
    modelled here. *)

From Stdlib Require Import ZArith Lia Bool.
From stdpp Require Import base option list gmap strings.

Local Open Scope Z_scope.

(** ** C integer types *)

Definition uint8 (z : Z) : Z := z mod 2 ^ 8.
Definition uint16 (z : Z) : Z := z mod 2 ^ 16.
Definition uint32 (z : Z) : Z := z mod 2 ^ 32.

(** ** dht22.h *)

Definition DHT_MAX_SENSOR_NAME : Z := 32.

Inductive dht_result_t : Set :=
| DHT_OK
| DHT_INVALID_INPUT
| DHT_MALLOC_FAILED
| DHT_FAILED_TO_SET_PIN_MODE
| DHT_READ_QUERY_TOO_FREQUENT
| DHT_FAILED_TO_SET_PIN_DIRECTION
| DHT_FAILED_TO_SET_PIN_LEVEL
| DHT_SENSOR_DID_NOT_SWITCH_TO_HIGH
| DHT_SENSOR_DID_NOT_SWITCH_TO_LOW
| DHT_INVALID_CHECKSUM.

#[global] Instance dht_result_eq_dec : EqDecision dht_result_t.
Proof. solve_decision. Defined.

(** [struct _dht_data_t]: six [uint16_t] fields. *)
Record dht_data_t : Set := mk_dht_data {
  faTempWhole : Z;
  faTempFraction : Z;
  csTempWhole : Z;
  csTempFraction : Z;
  rhWhole : Z;
  rhFraction : Z
}.

(** ** The frame decoder, [dhtProcessRawData]

    [b] is the caller's array of 40 counts and [outdata] the object the
    caller's pointer refers to; the function returns it as it leaves it. *)

(** [b[x] > 19 ? (uint8_t)0x1 : (uint8_t)0x0] *)
Definition resolve_bit (d : Z) : Z := if 19 <? d then 1 else 0.

(** The three accumulation loops have one shape,
    [for (int x = hi; x > hi - n; x--) { v |= bit(b[x]); v <<= x > last ? 1 : 0; }]
    with [v] a [uint32_t]; [n] counts the iterations that remain. *)
Fixpoint accumulate (b : list Z) (last : Z) (n : nat) (x : Z) (v : Z) : Z :=
  match n with
  | O => v
  | S n' =>
      let v1 := Z.lor v (resolve_bit (b !!! Z.to_nat x)) in
      let v2 := uint32 (Z.shiftl v1 (if last <? x then 1 else 0)) in
      accumulate b last n' (x - 1) v2
  end.

Definition dhtProcessRawData (b : list Z) (outdata : dht_data_t)
  : dht_result_t * dht_data_t :=
  let rh := accumulate b 24 16 39 0 in
  let isNegative := 19 <? b !!! 23%nat in
  let temp := accumulate b 8 15 22 0 in
  let temp := if isNegative then uint32 (temp * uint32 (-1)) else temp in
  let checksum := accumulate b 0 8 7 0 in
  let calculated_checksum :=
    uint32 (Z.shiftr (Z.land rh 0xff00) 8 + Z.land rh 0xff
            + Z.shiftr (Z.land temp 0xff00) 8 + Z.land temp 0xff) in
  let calculated_checksum := Z.land calculated_checksum 0xff in
  if negb (checksum =? calculated_checksum) then (DHT_INVALID_CHECKSUM, outdata)
  else
    let cs_whole := uint16 (Z.quot temp 10) in
    let cs_fraction := uint16 (Z.rem (uint32 (temp * 10)) 100) in
    let rh_whole := uint16 (Z.quot rh 10) in
    let rh_fraction := uint16 (Z.rem rh 10) in
    let temp := uint32 (temp * 100) in
    let temp := Z.quot temp 50 in
    let temp := uint32 (temp * 9) in
    (DHT_OK,
     {| faTempWhole := uint16 (uint32 (Z.quot temp 100 + 32));
        faTempFraction := uint16 (Z.rem temp 100);
        csTempWhole := cs_whole;
        csTempFraction := cs_fraction;
        rhWhole := rh_whole;
        rhFraction := rh_fraction |}).

(** *** Frames written from field values

    The sensor sends humidity (16 bits), temperature (16 bits, the top one
    the sign) and checksum (8 bits), most significant bit first; the engine
    stores the first bit at index 39.  So index [i] of the frame holds bit
    [i] of [checksum] for [i < 8], bit [i - 8] of [temperature] for
    [8 <= i < 24] and bit [i - 24] of [humidity] above. *)
Definition field_bit (humidity temperature checksum : Z) (i : nat) : bool :=
  if (i <? 8)%nat then Z.testbit checksum (Z.of_nat i)
  else if (i <? 24)%nat then Z.testbit temperature (Z.of_nat (i - 8))
  else Z.testbit humidity (Z.of_nat (i - 24)).

(** The threshold rule: a stored duration above 19 stands for a 1. *)
Definition threshold_rule (b : list Z) (humidity temperature checksum : Z) : bool :=
  (length b =? 40)%nat
  && forallb (fun i => Bool.eqb (19 <? b !!! i) (field_bit humidity temperature checksum i))
       (seq 0 40).

(** A frame for the triple, with [short] for a 0 and [long] for a 1. *)
Definition frame_of (short long : Z) (humidity temperature checksum : Z) : list Z :=
  map (fun i => if field_bit humidity temperature checksum i then long else short)
      (seq 0 40).

(** The checksum the sensor sends: the low byte of the sum of the four
    bytes of the humidity and temperature fields. *)
Definition transmitted_checksum (humidity temperature : Z) : Z :=
  (humidity / 256 + humidity mod 256 + temperature / 256 + temperature mod 256) mod 256.

Definition zero_data : dht_data_t := mk_dht_data 0 0 0 0 0 0.

(** ** Memory and the platform

    Pointers are addresses in [Z], [NULL] is 0.  The heap maps the address
    of every live object to its contents; an access through an address that
    holds no object of the expected type has no defined behaviour. *)

Definition NULL : Z := 0.

(** [struct _dht_t] *)
Record dht_t : Set := mk_dht {
  name : list Z;      (* char name[DHT_MAX_SENSOR_NAME] *)
  pin : Z;            (* uint8_t *)
  opaque : Z;         (* void *, the private context *)
  pc : Z              (* TickType_t *)
}.

(** [struct _dhtpvt], the private context *)
Record dhtpvt_t : Set := mk_dhtpvt {
  pDhtAddress : Z;    (* void *, address of the dht_t *)
  successCount : Z;
  errorCount : Z
}.

(** [d->pin = v], [d->opaque = v], [d->pc = v] *)
Definition set_pin (v : Z) (d : dht_t) : dht_t := mk_dht (name d) v (opaque d) (pc d).
Definition set_opaque (v : Z) (d : dht_t) : dht_t := mk_dht (name d) (pin d) v (pc d).
Definition set_pc (v : Z) (d : dht_t) : dht_t := mk_dht (name d) (pin d) (opaque d) v.
Definition set_pDhtAddress (v : Z) (p : dhtpvt_t) : dhtpvt_t :=
  mk_dhtpvt v (successCount p) (errorCount p).

Inductive block : Set :=
| BDht (d : dht_t)
| BPvt (p : dhtpvt_t)
| BData (o : dht_data_t)
| BChars (s : list Z)       (* a char buffer *)
| BPtr (p : Z).             (* a [dht_t *] variable *)

(** What the driver sees of the platform: the heap, the allocator, the
    tick counter, the return codes of the GPIO driver in call order and the
    levels [gpio_get_level] reports in call order. *)
Record world : Type := mk_world {
  mem : gmap Z block;
  next_block : Z;              (* where malloc puts its next block *)
  malloc_ok : list bool;       (* whether the successive mallocs succeed *)
  junk_dht : dht_t;            (* contents of fresh, uninitialised memory *)
  junk_pvt : dhtpvt_t;
  tick : Z;                    (* xTaskGetTickCount *)
  gpio_ret : nat -> Z;         (* esp_err_t of the k-th driver call *)
  gpio_calls : nat;
  line : nat -> Z;             (* level of the k-th sample *)
  samples : nat
}.

Definition set_mem (f : gmap Z block -> gmap Z block) (w : world) : world :=
  mk_world (f (mem w)) (next_block w) (malloc_ok w) (junk_dht w) (junk_pvt w)
           (tick w) (gpio_ret w) (gpio_calls w) (line w) (samples w).

Definition set_tick (t : Z) (w : world) : world :=
  mk_world (mem w) (next_block w) (malloc_ok w) (junk_dht w) (junk_pvt w)
           t (gpio_ret w) (gpio_calls w) (line w) (samples w).

(** Computations of the driver: a state monad over [world]; [None] is
    undefined behaviour. *)
Definition M (A : Type) : Type := world -> option (A * world).

#[global] Instance M_ret : MRet M := fun A a w => Some (a, w).
#[global] Instance M_bind : MBind M := fun A B f m w =>
  match m w with
  | Some (a, w') => f a w'
  | None => None
  end.

Definition undefined {A} : M A := fun _ => None.

Definition load (a : Z) : M block := fun w =>
  match mem w !! a with
  | Some blk => Some (blk, w)
  | None => None
  end.

Definition store (a : Z) (blk : block) : M unit := fun w =>
  Some (tt, set_mem (insert a blk) w).

Definition load_dht (a : Z) : M dht_t :=
  blk ← load a; match blk with BDht d => mret d | _ => undefined end.
Definition load_pvt (a : Z) : M dhtpvt_t :=
  blk ← load a; match blk with BPvt p => mret p | _ => undefined end.
Definition load_data (a : Z) : M dht_data_t :=
  blk ← load a; match blk with BData o => mret o | _ => undefined end.
Definition load_ptr (a : Z) : M Z :=
  blk ← load a; match blk with BPtr p => mret p | _ => undefined end.
Definition load_chars (a : Z) : M (list Z) :=
  blk ← load a; match blk with BChars s => mret s | _ => undefined end.

(** [s[x]] and [s[x] = c] on a char buffer; outside the buffer undefined. *)
Definition load_char (s : Z) (x : Z) : M Z :=
  buf ← load_chars s;
  match buf !! Z.to_nat x with
  | Some c => if 0 <=? x then mret c else undefined
  | None => undefined
  end.

Definition store_char (s : Z) (x : Z) (c : Z) : M unit :=
  buf ← load_chars s;
  if (0 <=? x) && (x <? Z.of_nat (length buf))
  then store s (BChars (<[Z.to_nat x := c]> buf))
  else undefined.

(** [b[i] = v] on a local array; outside the array undefined. *)
Definition array_store (b : list Z) (i : Z) (v : Z) : M (list Z) :=
  if (0 <=? i) && (i <? Z.of_nat (length b))
  then mret (<[Z.to_nat i := v]> b)
  else undefined.

(** [malloc]: NULL, or a block nobody holds, with the contents [junk]. *)
Definition malloc (junk : world -> block) : M Z := fun w =>
  match malloc_ok w with
  | true :: rest =>
      let a := next_block w in
      Some (a, mk_world (<[a := junk w]> (mem w)) (a + 1) rest (junk_dht w) (junk_pvt w)
                        (tick w) (gpio_ret w) (gpio_calls w) (line w) (samples w))
  | false :: rest =>
      Some (NULL, mk_world (mem w) (next_block w) rest (junk_dht w) (junk_pvt w)
                           (tick w) (gpio_ret w) (gpio_calls w) (line w) (samples w))
  | [] => Some (NULL, w)
  end.

(** [free] of a live block; of anything else undefined. *)
Definition release (a : Z) : M unit := fun w => Some (tt, set_mem (delete a) w).
Definition free (a : Z) : M unit := _ ← load a; release a.

(** The GPIO driver and the RTOS. *)
Definition ESP_OK : Z := 0.
Definition DHT_LOW : Z := 0.
Definition DHT_HIGH : Z := 1.

Definition gpio_driver_call : M Z := fun w =>
  Some (gpio_ret w (gpio_calls w),
        mk_world (mem w) (next_block w) (malloc_ok w) (junk_dht w) (junk_pvt w)
                 (tick w) (gpio_ret w) (S (gpio_calls w)) (line w) (samples w)).

Inductive gpio_mode_t : Set := GPIO_MODE_INPUT | GPIO_MODE_OUTPUT.
Inductive gpio_pull_mode_t : Set := GPIO_PULLUP_ONLY.

Definition gpio_set_pull_mode (gpio_num : Z) (pull : gpio_pull_mode_t) : M Z :=
  gpio_driver_call.
Definition gpio_set_direction (gpio_num : Z) (mode : gpio_mode_t) : M Z :=
  gpio_driver_call.
Definition gpio_set_level (gpio_num level : Z) : M Z := gpio_driver_call.

Definition gpio_get_level (gpio_num : Z) : M Z := fun w =>
  Some (line w (samples w),
        mk_world (mem w) (next_block w) (malloc_ok w) (junk_dht w) (junk_pvt w)
                 (tick w) (gpio_ret w) (gpio_calls w) (line w) (S (samples w))).

Definition xTaskGetTickCount : M Z := fun w => Some (tick w, w).
Definition vTaskDelay (ticks : Z) : M unit := fun w =>
  Some (tt, set_tick (uint32 (tick w + ticks)) w).
Definition ets_delay_us (us : Z) : M unit := mret tt.

(** ** The driver, [dht22.c] *)

Definition BEGIN_READ_CYCLE_LOW : Z := 10.
Definition BEGIN_READ_CYCLE_HIGH : Z := 40.
Definition BEGIN_READ_CYCLE_DHT_LOW : Z := 80.
Definition BEGIN_READ_CYCLE_DHT_HIGH : Z := 80.
Definition BEGIN_DATA_READ_DHT_ATTENTION : Z := 50.
Definition BEGIN_DATA_RECEIVE_DHT_DATA : Z := 70.

Section Driver.

(** Two constants of the platform headers, which are not part of the
    driver: the tick rate of the RTOS and the pin-number check of the GPIO
    driver.  [TickType_t] is 32 bits wide. *)
Variable configTICK_RATE_HZ : Z.
Variable GPIO_IS_VALID_GPIO : Z -> bool.

(** FreeRTOS: [(TickType_t)(((TickType_t)(ms) * (TickType_t)configTICK_RATE_HZ) / (TickType_t)1000)] *)
Definition pdMS_TO_TICKS (ms : Z) : Z :=
  uint32 (Z.quot (uint32 (uint32 ms * uint32 configTICK_RATE_HZ)) 1000).

(** [while (counter++ < LIMIT && (prevState = gpio_get_level(pDht->pin)) == level) ets_delay_us(1);]
    [budget] is [LIMIT - counter], the number of times the first test can
    still succeed.  Returns [counter] and [prevState] after the loop. *)
Fixpoint poll (pDht : Z) (level : Z) (budget : nat) (counter prevState : Z)
  : M (Z * Z) :=
  match budget with
  | O => mret (counter + 1, prevState)
  | S budget' =>
      d ← load_dht pDht;
      s ← gpio_get_level (pin d);
      if s =? level
      then _ ← ets_delay_us 1; poll pDht level budget' (counter + 1) s
      else mret (counter + 1, s)
  end.

(** [counter = 0; while (counter++ < LIMIT && ...)] *)
Definition wait_while (pDht : Z) (level : Z) (LIMIT : Z) (prevState : Z) : M (Z * Z) :=
  poll pDht level (Z.to_nat LIMIT) 0 prevState.

(** The body of [for (int x=0;x<40;x++)]; [n] is [40 - x]. *)
Fixpoint read_bits (pDht : Z) (n : nat) (x : Z) (prevState : Z) (b : list Z)
  : M (dht_result_t * list Z) :=
  match n with
  | O => mret (DHT_OK, b)
  | S n' =>
      '(counter, prevState) ← wait_while pDht DHT_LOW BEGIN_DATA_READ_DHT_ATTENTION prevState;
      if prevState =? DHT_LOW then mret (DHT_SENSOR_DID_NOT_SWITCH_TO_HIGH, b)
      else
        '(counter, prevState) ← wait_while pDht DHT_HIGH BEGIN_DATA_RECEIVE_DHT_DATA prevState;
        if prevState =? DHT_HIGH then mret (DHT_SENSOR_DID_NOT_SWITCH_TO_LOW, b)
        else
          b ← array_store b (40 - (x + 1)) (uint8 counter);
          read_bits pDht n' (x + 1) prevState b
  end.

(** [b] is the caller's local array: it is passed in and handed back.
    [int prevState;] starts indeterminate; the first loop assigns it before
    it is read (its budget is not 0), so the model starts it at 0. *)
Definition dhtReadRawData (pDht : Z) (b : list Z) : M (dht_result_t * list Z) :=
  d ← load_dht pDht;
  e ← gpio_set_direction (pin d) GPIO_MODE_OUTPUT;
  if negb (e =? ESP_OK) then mret (DHT_FAILED_TO_SET_PIN_DIRECTION, b) else
  d ← load_dht pDht;
  e ← gpio_set_level (pin d) DHT_LOW;
  if negb (e =? ESP_OK) then mret (DHT_FAILED_TO_SET_PIN_LEVEL, b) else
  _ ← vTaskDelay (pdMS_TO_TICKS BEGIN_READ_CYCLE_LOW);
  d ← load_dht pDht;
  e ← gpio_set_level (pin d) DHT_HIGH;
  if negb (e =? ESP_OK) then mret (DHT_FAILED_TO_SET_PIN_LEVEL, b) else
  _ ← ets_delay_us BEGIN_READ_CYCLE_HIGH;
  d ← load_dht pDht;
  e ← gpio_set_direction (pin d) GPIO_MODE_INPUT;
  if negb (e =? ESP_OK) then mret (DHT_FAILED_TO_SET_PIN_DIRECTION, b) else
  '(counter, prevState) ← wait_while pDht DHT_LOW BEGIN_READ_CYCLE_DHT_LOW 0;
  if prevState =? DHT_LOW then mret (DHT_SENSOR_DID_NOT_SWITCH_TO_HIGH, b) else
  '(counter, prevState) ← wait_while pDht DHT_HIGH BEGIN_READ_CYCLE_DHT_HIGH prevState;
  if prevState =? DHT_HIGH then mret (DHT_SENSOR_DID_NOT_SWITCH_TO_LOW, b) else
  read_bits pDht 40 0 prevState b.

(** [outdata] points to the caller's [dht_data_t]; the decoder works on
    the object it points to. *)
Definition dhtRead (pDht outdata : Z) : M dht_result_t :=
  if pDht =? NULL then mret DHT_INVALID_INPUT else
  if outdata =? NULL then mret DHT_INVALID_INPUT else
  ticks ← xTaskGetTickCount;
  d ← load_dht pDht;
  if uint32 (ticks - pc d) <? pdMS_TO_TICKS 2000 then mret DHT_READ_QUERY_TOO_FREQUENT else
  let b := replicate 40 0 in
  '(result, b) ← dhtReadRawData pDht b;
  if decide (result = DHT_OK) then
    o ← load_data outdata;
    let '(result, o) := dhtProcessRawData b o in
    _ ← store outdata (BData o);
    mret result
  else mret result.

(** [for (int x=0; x<DHT_MAX_SENSOR_NAME; x++) if (name[x] == 0) { nullTerminated = true; break; }]
    [n] is [DHT_MAX_SENSOR_NAME - x]; returns [nullTerminated]. *)
Fixpoint scan_name (name : Z) (n : nat) (x : Z) : M bool :=
  match n with
  | O => mret false
  | S n' =>
      c ← load_char name x;
      if c =? 0 then mret true else scan_name name n' (x + 1)
  end.

Definition dhtInitialize (pinId : Z) (name : Z) (ppDht : Z) : M dht_result_t :=
  if negb (GPIO_IS_VALID_GPIO pinId) then mret DHT_INVALID_INPUT else
  if name =? NULL then mret DHT_INVALID_INPUT else
  c ← load_char name 0;
  if c =? 0 then mret DHT_INVALID_INPUT else
  nullTerminated ← scan_name name (Z.to_nat DHT_MAX_SENSOR_NAME) 0;
  _ ← (if negb nullTerminated
       then store_char name (DHT_MAX_SENSOR_NAME - 1) 0
       else mret tt);
  if ppDht =? NULL then mret DHT_INVALID_INPUT else
  pDhtpvt ← malloc (fun w => BPvt (junk_pvt w));
  if pDhtpvt =? NULL then mret DHT_MALLOC_FAILED else
  pDht ← malloc (fun w => BDht (junk_dht w));
  if pDht =? NULL then _ ← free pDhtpvt; mret DHT_MALLOC_FAILED else
  e ← gpio_set_pull_mode pinId GPIO_PULLUP_ONLY;
  if negb (e =? ESP_OK) then
    _ ← free pDhtpvt; _ ← free pDht; mret DHT_FAILED_TO_SET_PIN_MODE
  else
    v ← load_pvt pDhtpvt;
    _ ← store pDhtpvt (BPvt (set_pDhtAddress pDht v));
    d ← load_dht pDht;
    _ ← store pDht (BDht (set_pin pinId d));
    d ← load_dht pDht;
    _ ← store pDht (BDht (set_pc 0 d));
    d ← load_dht pDht;
    _ ← store pDht (BDht (set_opaque pDhtpvt d));
    _ ← load_ptr ppDht;
    _ ← store ppDht (BPtr pDht);
    mret DHT_OK.

Definition dhtCleanup (ppDht : Z) : M dht_result_t :=
  if ppDht =? NULL then mret DHT_INVALID_INPUT else
  p ← load_ptr ppDht;
  if p =? NULL then mret DHT_INVALID_INPUT else
  d ← load_dht p;
  let pvt := opaque d in
  v ← load_pvt pvt;
  if negb (pDhtAddress v =? p) then mret DHT_INVALID_INPUT else
  _ ← free p;
  _ ← load_ptr ppDht;
  _ ← store ppDht (BPtr NULL);
  mret DHT_OK.

End Driver.

(** ** Specification-side definitions *)

(** §4.4's conversions, on mathematical integers with truncating
    division. *)
Definition measurement_of (humidity temperature : Z) : dht_data_t :=
  let f := Z.quot (temperature * 100) 50 * 9 in
  {| faTempWhole := Z.quot f 100 + 32;
     faTempFraction := Z.rem f 100;
     csTempWhole := Z.quot temperature 10;
     csTempFraction := Z.rem (temperature * 10) 100;
     rhWhole := Z.quot humidity 10;
     rhFraction := Z.rem humidity 10 |}.

(** The value of the [n] resolved bits at indices [lo .. lo + n - 1],
    index [lo] the least significant. *)
Fixpoint field_value (b : list Z) (lo n : nat) : Z :=
  match n with
  | O => 0
  | S n' => field_value b lo n' + resolve_bit (b !!! (lo + n')%nat) * 2 ^ Z.of_nat n'
  end.

(** The world after [n] more samples of the line have been taken. *)
Definition advance (n : nat) (w : world) : world :=
  mk_world (mem w) (next_block w) (malloc_ok w) (junk_dht w) (junk_pvt w)
           (tick w) (gpio_ret w) (gpio_calls w) (line w) (n + samples w).

(** The line shows [level] at the [n] samples from [pos] on. *)
Definition stays (l : nat -> Z) (level : Z) (pos n : nat) : Prop :=
  forall k, (k < n)%nat -> l (pos + k)%nat = level.

(** The line shows [level] at [k] samples from [pos] on and another level
    at the next one. *)
Definition leaves_at (l : nat -> Z) (level : Z) (pos k : nat) : Prop :=
  stays l level pos k /\ l (pos + k)%nat <> level.

(** The bit periods [i .. 39] of an acquisition that starts at sample [pos]
    with the frame [b]: the result and the frame it ends with.

    In a bit period the line has to leave low within 50 samples and then
    to leave high within 70; the number of samples the high phase took, the
    one that ended it included, goes to index [39 - i]. *)
Inductive acquisition (l : nat -> Z)
  : nat -> nat -> list Z -> dht_result_t -> list Z -> Prop :=
| acq_done pos b :
    acquisition l 40 pos b DHT_OK b
| acq_stuck_low i pos b :
    (i < 40)%nat ->
    stays l DHT_LOW pos 50 ->
    acquisition l i pos b DHT_SENSOR_DID_NOT_SWITCH_TO_HIGH b
| acq_stuck_high i pos b k :
    (i < 40)%nat ->
    (k < 50)%nat -> leaves_at l DHT_LOW pos k ->
    stays l DHT_HIGH (pos + k + 1) 70 ->
    acquisition l i pos b DHT_SENSOR_DID_NOT_SWITCH_TO_LOW b
| acq_bit i pos b k j r b' :
    (i < 40)%nat ->
    (k < 50)%nat -> leaves_at l DHT_LOW pos k ->
    (j < 70)%nat -> leaves_at l DHT_HIGH (pos + k + 1) j ->
    acquisition l (S i) (pos + k + 1 + j + 1) (<[(39 - i)%nat := Z.of_nat (j + 1)]> b) r b' ->
    acquisition l i pos b r b'.

(** A computation that, while the handle at [pDht] is live and holds [d],
    returns, leaves the heap as it found it and returns a value in [P]. *)
Definition steady (pDht : Z) (d : dht_t) {A} (P : A -> Prop) (m : M A) : Prop :=
  forall w, mem w !! pDht = Some (BDht d) ->
    exists a w', m w = Some (a, w') /\ mem w' = mem w /\ P a.

(** The results of a raw read. *)
Definition raw_read_result (r : dht_result_t) : Prop :=
  r = DHT_OK \/ r = DHT_FAILED_TO_SET_PIN_DIRECTION \/ r = DHT_FAILED_TO_SET_PIN_LEVEL \/
  r = DHT_SENSOR_DID_NOT_SWITCH_TO_HIGH \/ r = DHT_SENSOR_DID_NOT_SWITCH_TO_LOW.

(** The low byte of the sum of the two bytes of [rh] and the two low bytes
    of [temp]. *)
Definition byte_sum (rh temp : Z) : Z :=
  ((rh / 256) mod 256 + rh mod 256 + (temp / 256) mod 256 + temp mod 256) mod 256.

(** [temp] as the decoder holds it when it tests the checksum: the 15-bit
    magnitude, negated in 32 bits when the sign flag is set. *)
Definition decoded_temperature (b : list Z) : Z :=
  if 19 <? b !!! 23%nat
  then uint32 (field_value b 8 15 * uint32 (-1))
  else field_value b 8 15.

(** For a magnitude [m]: the bytes of the negated value and the bytes of
    the field as sent, sign bit set, have different sums modulo 256. *)
Definition sums_differ (m : Z) : bool :=
  negb (byte_sum 0 (uint32 (m * uint32 (-1))) =? byte_sum 0 (m + 2 ^ 15)).

(** A name buffer with no terminator in its first 32 bytes. *)
Definition unterminated (buf : list Z) : bool :=
  (32 <=? length buf)%nat && forallb (fun c => negb (c =? 0)) (take 32 buf).

(** ** A bench: the objects and calls of [user_main.c]

    [ReadSensorTask] holds a [dht_t *pDht] and a [dht_queue_entry_t], and
    passes [GPIO_NUM_5] and [DHT_SENSOR_NAME] to [dhtInitialize]. *)

Definition c_string (s : String.string) : list Z :=
  map (fun a => Z.of_N (Ascii.N_of_ascii a)) (String.list_ascii_of_string s) ++ [0].

Definition DHT_SENSOR_NAME : list Z := c_string "Daniel's Greenhouse    fffdsa jkl; abc"%string.
Definition GPIO_NUM_5 : Z := 5.

(** The ESP8266 has the pins 0 to 16, and its tick rate is 100 Hz. *)
Definition esp8266_valid_gpio (gpio_num : Z) : bool := gpio_num <? 17.
Definition esp8266_tick_rate : Z := 100.

(** Addresses of the caller's objects. *)
Definition name_at : Z := 100.
Definition pDht_at : Z := 200.
Definition dhtData_at : Z := 300.

Definition stale_dht : dht_t := mk_dht (replicate 32 0xA5) 0xA5 0xA5A5A5A5 0xA5A5A5A5.
Definition stale_pvt : dhtpvt_t := mk_dhtpvt 0xA5A5A5A5 0xA5A5A5A5 0xA5A5A5A5.

(** The line as a list of samples; it idles high afterwards. *)
Definition line_of (l : list Z) : nat -> Z := fun k => nth k l DHT_HIGH.

(** Before [dhtInitialize]: a name buffer, a NULL [pDht], a measurement. *)
Definition bench (buf : list Z) (l : list Z) (t : Z) : world :=
  mk_world (<[name_at := BChars buf]>
              (<[pDht_at := BPtr NULL]> (<[dhtData_at := BData zero_data]> ∅)))
           1000 [true; true] stale_dht stale_pvt t (fun _ => ESP_OK) 0 (line_of l) 0.

(** What the sensor puts on the line for a frame of counts: the response
    (low, then high), then per bit, first received first, a low phase and a
    high phase of as many samples as the count, then low again. *)
Definition sensor_wave (frame : list Z) : list Z :=
  [0; 0; 0; 1; 1; 1]
  ++ flat_map (fun c => [0; 0; 0] ++ replicate (Z.to_nat c) 1) (rev frame)
  ++ [0].

(** [ReadSensorTask], cut down to the driver calls: create the handle, try
    a read at once, wait 2000 ms as the task does, then read twice in a
    row.  Reports the results, and the tick at each of the last two reads. *)
Definition read_twice
  : M (dht_result_t * dht_result_t * (Z * dht_result_t) * (Z * dht_result_t)) :=
  r0 ← dhtInitialize esp8266_valid_gpio GPIO_NUM_5 name_at pDht_at;
  p ← load_ptr pDht_at;
  early ← dhtRead esp8266_tick_rate p dhtData_at;
  _ ← vTaskDelay (pdMS_TO_TICKS esp8266_tick_rate 2000);
  t1 ← xTaskGetTickCount;
  r1 ← dhtRead esp8266_tick_rate p dhtData_at;
  t2 ← xTaskGetTickCount;
  r2 ← dhtRead esp8266_tick_rate p dhtData_at;
  mret (r0, early, (t1, r1), (t2, r2)).

(** Create the handle and report the name it records. *)
Definition create_and_get_name : M (dht_result_t * list Z) :=
  r0 ← dhtInitialize esp8266_valid_gpio GPIO_NUM_5 name_at pDht_at;
  p ← load_ptr pDht_at;
  d ← load_dht p;
  mret (r0, name d).

(** Create the handle, destroy it, and look at what is left: the caller's
    pointer and the block of the private context. *)
Definition create_and_destroy : M (dht_result_t * dht_result_t * Z * block) :=
  r0 ← dhtInitialize esp8266_valid_gpio GPIO_NUM_5 name_at pDht_at;
  p ← load_ptr pDht_at;
  d ← load_dht p;
  r1 ← dhtCleanup pDht_at;
  q ← load_ptr pDht_at;
  left ← load (opaque d);
  mret (r0, r1, q, left).

(** The same, then a use of the destroyed handle. *)
Definition create_destroy_and_use : M dht_t :=
  r0 ← dhtInitialize esp8266_valid_gpio GPIO_NUM_5 name_at pDht_at;
  p ← load_ptr pDht_at;
  _ ← dhtCleanup pDht_at;
  load_dht p.

(** The result of a computation, without the world. *)
Definition result_of {A} (m : M A) (w : world) : option A := fst <$> m w.

(** After [dhtInitialize] on the bench: the private context at 1000, the
    handle at 1001, the name clipped in the caller's buffer. *)
Definition bench_handle : dht_t := mk_dht (replicate 32 0xA5) GPIO_NUM_5 1000 0.

Definition ready (l : list Z) (t : Z) : world :=
  mk_world (<[1001 := BDht bench_handle]>
              (<[1000 := BPvt (mk_dhtpvt 1001 0xA5A5A5A5 0xA5A5A5A5)]>
                 (<[name_at := BChars (<[31%nat := 0]> DHT_SENSOR_NAME)]>
                    (<[pDht_at := BPtr 1001]> (<[dhtData_at := BData zero_data]> ∅)))))
           1002 [] stale_dht stale_pvt t (fun _ => ESP_OK) 1 (line_of l) 0.

(** The frame of the scenario of §8: humidity 65.3 %, 23.1 °C. *)
Definition scenario_frame : list Z := frame_of 10 30 653 231 118.

(** ** Definitions for the further properties *)

(** The line shows [level] at the [n] samples from [pos] on, as a check. *)
Fixpoint staysb (l : nat -> Z) (level : Z) (pos n : nat) : bool :=
  match n with
  | O => true
  | S n' => (l pos =? level) && staysb l level (S pos) n'
  end.

(** A data wave from [pos] on, bit by bit as [(low, high)] phase lengths
    in samples: every low phase has 1 to 50 samples, every high phase 1 to
    70, and after the last bit the line is low again. *)
Fixpoint data_wave (l : nat -> Z) (pos : nat) (runs : list (nat * nat)) : bool :=
  match runs with
  | [] => l pos =? DHT_LOW
  | (lo, hi) :: rest =>
      (1 <=? lo)%nat && (lo <=? 50)%nat && (1 <=? hi)%nat && (hi <=? 70)%nat
      && staysb l DHT_LOW pos lo && staysb l DHT_HIGH (pos + lo) hi
      && data_wave l (pos + lo + hi) rest
  end.

(** A whole answer of the sensor from [pos] on: the response, [rl] samples
    low (fewer than 80) and [rh] samples high (1 to 80), then the data. *)
Definition sensor_answer (l : nat -> Z) (pos rl rh : nat) (runs : list (nat * nat)) : bool :=
  (rl <? 80)%nat && (1 <=? rh)%nat && (rh <=? 80)%nat
  && staysb l DHT_LOW pos rl && staysb l DHT_HIGH (pos + rl) rh
  && data_wave l (pos + rl + rh) runs.

(** The frame a data wave leaves in the buffer: the high-phase lengths,
    last bit first. *)
Definition counts_of (runs : list (nat * nat)) : list Z :=
  rev (map (fun r => Z.of_nat (snd r)) runs).

(** The world the engine samples in, after its four driver calls and
    its 10 ms delay. *)
Definition after_start (hz : Z) (w : world) : world :=
  mk_world (mem w) (next_block w) (malloc_ok w) (junk_dht w) (junk_pvt w)
           (uint32 (tick w + pdMS_TO_TICKS hz BEGIN_READ_CYCLE_LOW))
           (gpio_ret w) (4 + gpio_calls w) (line w) (samples w).

(** The sampling part of [dhtReadRawData], from [int prevState;] on. *)
Definition sample_line (pDht : Z) (b : list Z) : M (dht_result_t * list Z) :=
  '(counter, prevState) ← wait_while pDht DHT_LOW BEGIN_READ_CYCLE_DHT_LOW 0;
  if prevState =? DHT_LOW then mret (DHT_SENSOR_DID_NOT_SWITCH_TO_HIGH, b) else
  '(counter, prevState) ← wait_while pDht DHT_HIGH BEGIN_READ_CYCLE_DHT_HIGH prevState;
  if prevState =? DHT_HIGH then mret (DHT_SENSOR_DID_NOT_SWITCH_TO_LOW, b) else
  read_bits pDht 40 0 prevState b.

(** The bench with an allocator and a GPIO driver of one's choice. *)
Definition bench_with (mallocs : list bool) (gpio : nat -> Z)
    (buf : list Z) (l : list Z) (t : Z) : world :=
  mk_world (<[name_at := BChars buf]>
              (<[pDht_at := BPtr NULL]> (<[dhtData_at := BData zero_data]> ∅)))
           1000 mallocs stale_dht stale_pvt t gpio 0 (line_of l) 0.

(** The bench's handle, the GPIO driver failing at its [k]-th call. *)
Definition ready_with (gpio : nat -> Z) (l : list Z) (t : Z) : world :=
  mk_world (mem (ready l t)) 1002 [] stale_dht stale_pvt t gpio 1 (line_of l) 0.

(** The phase lengths of [sensor_wave]: 3 samples low, the count high. *)
Definition runs_of (frame : list Z) : list (nat * nat) :=
  map (fun c => (3%nat, Z.to_nat c)) (rev frame).

(** The buffer after the bit loop has stored the high-phase lengths of
    [runs], the first at index [39 - i]. *)
Fixpoint store_counts (b : list Z) (i : nat) (runs : list (nat * nat)) : list Z :=
  match runs with
  | [] => b
  | (_, hi) :: rest => store_counts (<[(39 - i)%nat := Z.of_nat hi]> b) (S i) rest
  end.

(** The outcomes of the sampling part on a line: stuck low in the
    response, stuck high in the response, or the bit loop's. *)
Definition sampling (l : nat -> Z) (pos : nat) (b : list Z)
    (r : dht_result_t) (b' : list Z) : Prop :=
  (stays l DHT_LOW pos 80 /\ r = DHT_SENSOR_DID_NOT_SWITCH_TO_HIGH /\ b' = b)
  \/ (exists k, (k < 80)%nat /\ leaves_at l DHT_LOW pos k /\
        stays l DHT_HIGH (pos + k + 1) 80 /\
        r = DHT_SENSOR_DID_NOT_SWITCH_TO_LOW /\ b' = b)
  \/ (exists k j, (k < 80)%nat /\ leaves_at l DHT_LOW pos k /\
        (j < 80)%nat /\ leaves_at l DHT_HIGH (pos + k + 1) j /\
        acquisition l 0 (pos + k + 1 + j + 1) b r b').

(** The result of the engine when its [k]-th driver call is the first to
    fail. *)
Definition gpio_failure_result (k : nat) : dht_result_t :=
  match k with
  | 0%nat | 3%nat => DHT_FAILED_TO_SET_PIN_DIRECTION
  | _ => DHT_FAILED_TO_SET_PIN_LEVEL
  end.

(** The next [n] calls of the GPIO driver return [ESP_OK]. *)
Definition driver_ok (w : world) (n : nat) : bool :=
  forallb (fun k => gpio_ret w (k + gpio_calls w)%nat =? ESP_OK) (seq 0 n).

(** A GPIO driver whose [n]-th call fails (with [ESP_FAIL], -1). *)
Definition gpio_failing_at (n : nat) : nat -> Z :=
  fun k => if (k =? n)%nat then -1 else ESP_OK.

(** [dhtInitialize] from [if (ppDht == NULL)] on, the arguments checked
    and the name clipped. *)
Definition allocate_handle (pinId ppDht : Z) : M dht_result_t :=
  if ppDht =? NULL then mret DHT_INVALID_INPUT else
  pDhtpvt ← malloc (fun w => BPvt (junk_pvt w));
  if pDhtpvt =? NULL then mret DHT_MALLOC_FAILED else
  pDht ← malloc (fun w => BDht (junk_dht w));
  if pDht =? NULL then _ ← free pDhtpvt; mret DHT_MALLOC_FAILED else
  e ← gpio_set_pull_mode pinId GPIO_PULLUP_ONLY;
  if negb (e =? ESP_OK) then
    _ ← free pDhtpvt; _ ← free pDht; mret DHT_FAILED_TO_SET_PIN_MODE
  else
    v ← load_pvt pDhtpvt;
    _ ← store pDhtpvt (BPvt (set_pDhtAddress pDht v));
    d ← load_dht pDht;
    _ ← store pDht (BDht (set_pin pinId d));
    d ← load_dht pDht;
    _ ← store pDht (BDht (set_pc 0 d));
    d ← load_dht pDht;
    _ ← store pDht (BDht (set_opaque pDhtpvt d));
    _ ← load_ptr ppDht;
    _ ← store ppDht (BPtr pDht);
    mret DHT_OK.

(** What the allocator and the GPIO driver make of a create whose
    arguments are in order. *)
Definition create_outcome (w : world) : dht_result_t :=
  match malloc_ok w with
  | true :: true :: _ =>
      if gpio_ret w (gpio_calls w) =? ESP_OK then DHT_OK else DHT_FAILED_TO_SET_PIN_MODE
  | _ => DHT_MALLOC_FAILED
  end.

(** The caller's name buffer after the clip at index 31. *)
Definition clip_name (s : Z) (buf : list Z) (w : world) : world :=
  set_mem (insert s (BChars (<[31%nat := 0]> buf))) w.

(** A computation that, while the handle at [pDht] is live and holds [d],
    returns a value in [P] after at most [n] samples of the line and has
    done nothing else: no driver call, no delay, no write. *)
Definition samples_within (pDht : Z) (d : dht_t) (n : nat) {A} (P : A -> Prop) (m : M A)
  : Prop :=
  forall w, mem w !! pDht = Some (BDht d) ->
    exists a k, m w = Some (a, advance k w) /\ (k <= n)%nat /\ P a.


(** ** Properties of the decoder *)

Lemma resolve_bit_cases d : resolve_bit d = 0 \/ resolve_bit d = 1.
Proof. unfold resolve_bit. destruct (19 <? d); auto. Qed.

Lemma lor_double_bit p c : 0 <= p -> c = 0 \/ c = 1 -> Z.lor (2 * p) c = 2 * p + c.
Proof.
  intros Hp [-> | ->].
  - rewrite Z.lor_0_r. lia.
  - destruct p as [|q|q]; try lia; reflexivity.
Qed.

Lemma field_value_bounds b lo n : 0 <= field_value b lo n < 2 ^ Z.of_nat n.
Proof.
  induction n as [|n IH]; simpl field_value.
  - simpl. lia.
  - rewrite Nat2Z.inj_succ, Z.pow_succ_r by lia.
    destruct (resolve_bit_cases (b !!! (lo + n)%nat)) as [-> | ->]; lia.
Qed.

(** An accumulation loop computes the value of its field. *)
Lemma accumulate_field b lo n : forall p,
  0 <= p -> (p + 1) * 2 ^ Z.of_nat (S n) <= 2 ^ 32 ->
  accumulate b (Z.of_nat lo) (S n) (Z.of_nat lo + Z.of_nat n) (2 * p)
  = p * 2 ^ Z.of_nat (S n) + field_value b lo (S n).
Proof.
  induction n as [|n IH]; intros p Hp Hb.
  - cbn [accumulate field_value].
    replace (Z.to_nat (Z.of_nat lo + Z.of_nat 0)) with (lo + 0)%nat by lia.
    replace (Z.of_nat lo <? Z.of_nat lo + Z.of_nat 0) with false
      by (symmetry; apply Z.ltb_ge; lia).
    rewrite Z.shiftl_0_r.
    pose proof (resolve_bit_cases (b !!! (lo + 0)%nat)) as Hc.
    rewrite lor_double_bit by assumption.
    change (2 ^ Z.of_nat 1) with 2 in *. change (2 ^ Z.of_nat 0) with 1.
    unfold uint32. rewrite Z.mod_small by (destruct Hc as [-> | ->]; lia). lia.
  - remember (S n) as m eqn:Hm.
    cbn [accumulate].
    replace (Z.to_nat (Z.of_nat lo + Z.of_nat m)) with (lo + m)%nat by lia.
    replace (Z.of_nat lo <? Z.of_nat lo + Z.of_nat m) with true
      by (symmetry; apply Z.ltb_lt; lia).
    pose proof (resolve_bit_cases (b !!! (lo + m)%nat)) as Hc.
    rewrite lor_double_bit by assumption.
    rewrite Z.shiftl_mul_pow2 by lia. change (2 ^ 1) with 2.
    assert (Hpow : 2 ^ Z.of_nat (S m) = 2 * 2 ^ Z.of_nat m)
      by (rewrite Nat2Z.inj_succ, Z.pow_succ_r; lia).
    assert (Hpos : 0 < 2 ^ Z.of_nat m) by (apply Z.pow_pos_nonneg; lia).
    assert (Hge : 2 <= 2 ^ Z.of_nat m).
    { subst m. rewrite Nat2Z.inj_succ, Z.pow_succ_r by lia.
      assert (0 < 2 ^ Z.of_nat n) by (apply Z.pow_pos_nonneg; lia). lia. }
    set (c := resolve_bit (b !!! (lo + m)%nat)) in *.
    unfold uint32. rewrite Z.mod_small by (destruct Hc as [-> | ->]; nia).
    replace ((2 * p + c) * 2) with (2 * (2 * p + c)) by lia.
    replace (Z.of_nat lo + Z.of_nat m - 1) with (Z.of_nat lo + Z.of_nat n) by lia.
    subst m. rewrite IH by (destruct Hc as [-> | ->]; nia).
    cbn [field_value]. fold c. rewrite Hpow. lia.
Qed.

(** A field whose resolved bits are the bits of [h] has the value
    [h mod 2^n]. *)
Lemma field_value_testbit b lo n h :
  (forall k, (k < n)%nat ->
     resolve_bit (b !!! (lo + k)%nat) = Z.b2z (Z.testbit h (Z.of_nat k))) ->
  field_value b lo n = h mod 2 ^ Z.of_nat n.
Proof.
  induction n as [|n IH]; intros Hbits.
  - simpl. now rewrite Z.mod_1_r.
  - cbn [field_value]. rewrite IH by (intros k Hk; apply Hbits; lia).
    rewrite Hbits by lia.
    rewrite Z.testbit_spec' by lia.
    rewrite Nat2Z.inj_succ, Z.pow_succ_r by lia.
    assert (Hpos : 0 < 2 ^ Z.of_nat n) by (apply Z.pow_pos_nonneg; lia).
    rewrite (Z.mul_comm 2), Z.rem_mul_r by lia. lia.
Qed.

Lemma threshold_rule_length b h t c :
  threshold_rule b h t c = true -> length b = 40%nat.
Proof.
  unfold threshold_rule. intros H. apply andb_prop in H as [H _].
  now apply Nat.eqb_eq in H.
Qed.

Lemma threshold_rule_bit b h t c i :
  threshold_rule b h t c = true -> (i < 40)%nat ->
  (19 <? b !!! i) = field_bit h t c i.
Proof.
  unfold threshold_rule. intros H Hi. apply andb_prop in H as [_ H].
  rewrite forallb_forall in H.
  specialize (H i). rewrite in_seq in H.
  apply Bool.eqb_prop, H. lia.
Qed.

Lemma threshold_rule_resolve b h t c i :
  threshold_rule b h t c = true -> (i < 40)%nat ->
  resolve_bit (b !!! i) = Z.b2z (field_bit h t c i).
Proof.
  intros H Hi. unfold resolve_bit. rewrite (threshold_rule_bit b h t c i H Hi).
  now destruct (field_bit h t c i).
Qed.

Lemma frame_of_threshold_rule short long h t c :
  short <= 19 < long -> threshold_rule (frame_of short long h t c) h t c = true.
Proof.
  intros Hsl. unfold threshold_rule, frame_of.
  rewrite length_map, length_seq. cbn [Nat.eqb andb].
  apply forallb_forall. intros i Hi. apply in_seq in Hi.
  rewrite list_lookup_total_alt.
  rewrite list_lookup_fmap, lookup_seq_lt by lia. cbn.
  destruct (field_bit h t c i); cbn.
  - replace (19 <? long) with true by (symmetry; apply Z.ltb_lt; lia). reflexivity.
  - replace (19 <? short) with false by (symmetry; apply Z.ltb_ge; lia). reflexivity.
Qed.

(** The three fields and the sign flag of a frame written by the threshold
    rule, as the loops of the decoder compute them. *)
Lemma accumulate_humidity b h t c :
  threshold_rule b h t c = true -> accumulate b 24 16 39 0 = h mod 2 ^ 16.
Proof.
  intros H.
  change (accumulate b 24 16 39 0)
    with (accumulate b (Z.of_nat 24) 16 (Z.of_nat 24 + Z.of_nat 15) (2 * 0)).
  rewrite accumulate_field by (cbn; lia).
  rewrite (field_value_testbit b 24 16 h); [reflexivity|].
  intros k Hk. rewrite (threshold_rule_resolve b h t c) by (assumption || lia).
  unfold field_bit.
  replace (24 + k <? 8)%nat with false by (symmetry; apply Nat.ltb_ge; lia).
  replace (24 + k <? 24)%nat with false by (symmetry; apply Nat.ltb_ge; lia).
  now replace (24 + k - 24)%nat with k by lia.
Qed.

Lemma accumulate_magnitude b h t c :
  threshold_rule b h t c = true -> accumulate b 8 15 22 0 = t mod 2 ^ 15.
Proof.
  intros H.
  change (accumulate b 8 15 22 0)
    with (accumulate b (Z.of_nat 8) 15 (Z.of_nat 8 + Z.of_nat 14) (2 * 0)).
  rewrite accumulate_field by (cbn; lia).
  rewrite (field_value_testbit b 8 15 t); [reflexivity|].
  intros k Hk. rewrite (threshold_rule_resolve b h t c) by (assumption || lia).
  unfold field_bit.
  replace (8 + k <? 8)%nat with false by (symmetry; apply Nat.ltb_ge; lia).
  replace (8 + k <? 24)%nat with true by (symmetry; apply Nat.ltb_lt; lia).
  now replace (8 + k - 8)%nat with k by lia.
Qed.

Lemma accumulate_checksum b h t c :
  threshold_rule b h t c = true -> accumulate b 0 8 7 0 = c mod 2 ^ 8.
Proof.
  intros H.
  change (accumulate b 0 8 7 0)
    with (accumulate b (Z.of_nat 0) 8 (Z.of_nat 0 + Z.of_nat 7) (2 * 0)).
  rewrite accumulate_field by (cbn; lia).
  rewrite (field_value_testbit b 0 8 c); [reflexivity|].
  intros k Hk. rewrite (threshold_rule_resolve b h t c) by (assumption || lia).
  unfold field_bit.
  replace (0 + k <? 8)%nat with true by (symmetry; apply Nat.ltb_lt; lia).
  reflexivity.
Qed.

Lemma sign_flag b h t c :
  threshold_rule b h t c = true -> (19 <? b !!! 23%nat) = Z.testbit t 15.
Proof. intros H. now rewrite (threshold_rule_bit b h t c 23) by (assumption || lia). Qed.

(** The byte sum of the decoder, in arithmetic. *)
Lemma byte_sum_arith rh temp :
  Z.land (uint32 (Z.shiftr (Z.land rh 0xff00) 8 + Z.land rh 0xff
                  + Z.shiftr (Z.land temp 0xff00) 8 + Z.land temp 0xff)) 0xff
  = ((rh / 256) mod 256 + rh mod 256 + (temp / 256) mod 256 + temp mod 256) mod 256.
Proof.
  assert (Hhi : forall v, Z.shiftr (Z.land v 0xff00) 8 = (v / 256) mod 256).
  { intros v. rewrite Z.shiftr_land. change (Z.shiftr 0xff00 8) with (Z.ones 8).
    rewrite Z.land_ones, Z.shiftr_div_pow2 by lia. reflexivity. }
  assert (Hlo : forall v, Z.land v 0xff = v mod 256).
  { intros v. change 0xff with (Z.ones 8). now rewrite Z.land_ones by lia. }
  rewrite !Hhi, !Hlo. unfold uint32.
  apply Z.mod_mod_divide. exists 16777216. reflexivity.
Qed.

Lemma testbit_15_small t : 0 <= t < 2 ^ 15 -> Z.testbit t 15 = false.
Proof.
  intros Ht. apply Z.testbit_false; [lia|].
  now rewrite Z.div_small by lia.
Qed.

(** The decoder on a frame written by the threshold rule from fields whose
    sign bit is clear: the checksum test is the sensor's, and the
    measurement is §4.4's.  No step of the 32-bit arithmetic wraps. *)
Lemma decode_nonneg b h t c o :
  threshold_rule b h t c = true ->
  0 <= h < 2 ^ 16 -> 0 <= t < 2 ^ 15 -> 0 <= c < 2 ^ 8 ->
  dhtProcessRawData b o =
    if c =? transmitted_checksum h t then (DHT_OK, measurement_of h t)
    else (DHT_INVALID_CHECKSUM, o).
Proof.
  intros Hb Hh Ht Hc. unfold dhtProcessRawData.
  rewrite (accumulate_humidity b h t c Hb), (accumulate_magnitude b h t c Hb),
    (accumulate_checksum b h t c Hb), (sign_flag b h t c Hb).
  rewrite (testbit_15_small t Ht). cbv zeta.
  rewrite byte_sum_arith.
  rewrite (Z.mod_small h), (Z.mod_small t), (Z.mod_small c) by lia.
  rewrite (Z.mod_small (h / 256)), (Z.mod_small (t / 256))
    by (split; [apply Z.div_pos; lia | apply Z.div_lt_upper_bound; lia]).
  fold (transmitted_checksum h t).
  destruct (c =? transmitted_checksum h t); cbn [negb]; [|reflexivity].
  unfold measurement_of, uint16, uint32.
  assert (H1 : (t * 10) mod 2 ^ 32 = t * 10) by (apply Z.mod_small; lia).
  assert (H2 : (t * 100) mod 2 ^ 32 = t * 100) by (apply Z.mod_small; lia).
  rewrite H1, H2.
  assert (Hq : 0 <= Z.quot (t * 100) 50 <= 65534).
  { rewrite Z.quot_div_nonneg by lia. split.
    - apply Z.div_pos; lia.
    - apply Z.lt_succ_r, Z.div_lt_upper_bound; lia. }
  assert (H3 : (Z.quot (t * 100) 50 * 9) mod 2 ^ 32 = Z.quot (t * 100) 50 * 9)
    by (apply Z.mod_small; lia).
  rewrite H3.
  set (f := Z.quot (t * 100) 50 * 9) in *.
  assert (Hf : 0 <= f <= 589806) by (unfold f; lia).
  assert (small16 : forall v, 0 <= v < 2 ^ 16 -> v mod 2 ^ 16 = v)
    by (intros v Hv; apply Z.mod_small; exact Hv).
  assert (Hfw : 0 <= Z.quot f 100 <= 5899).
  { rewrite Z.quot_div_nonneg by lia. split.
    - apply Z.div_pos; lia.
    - apply Z.lt_succ_r, Z.div_lt_upper_bound; lia. }
  rewrite (Z.mod_small (Z.quot f 100 + 32) (2 ^ 32)) by lia.
  rewrite (small16 (Z.quot f 100 + 32)) by lia.
  rewrite (small16 (Z.rem f 100))
    by (rewrite Z.rem_mod_nonneg by lia; pose proof (Z.mod_pos_bound f 100); lia).
  rewrite (small16 (Z.quot t 10)).
  2:{ rewrite Z.quot_div_nonneg by lia. split.
      - apply Z.div_pos; lia.
      - apply Z.div_lt_upper_bound; lia. }
  rewrite (small16 (Z.rem (t * 10) 100))
    by (rewrite Z.rem_mod_nonneg by lia; pose proof (Z.mod_pos_bound (t * 10) 100); lia).
  rewrite (small16 (Z.quot h 10)).
  2:{ rewrite Z.quot_div_nonneg by lia. split.
      - apply Z.div_pos; lia.
      - apply Z.div_lt_upper_bound; lia. }
  rewrite (small16 (Z.rem h 10))
    by (rewrite Z.rem_mod_nonneg by lia; pose proof (Z.mod_pos_bound h 10); lia).
  reflexivity.
Qed.

(** A rejected frame leaves the caller's measurement as it was. *)
Lemma decode_rejected_untouched b o r o' :
  dhtProcessRawData b o = (r, o') -> r <> DHT_OK -> o' = o.
Proof.
  unfold dhtProcessRawData.
  generalize (accumulate b 24 16 39 0), (accumulate b 8 15 22 0), (accumulate b 0 8 7 0).
  intros rh temp checksum. cbv zeta.
  match goal with |- context [negb ?t] => destruct (negb t) end.
  - intros Heq _. now injection Heq as _ <-.
  - intros Heq Hr. injection Heq as <- _. now contradiction Hr.
Qed.

Lemma decode_results b o :
  fst (dhtProcessRawData b o) = DHT_OK \/ fst (dhtProcessRawData b o) = DHT_INVALID_CHECKSUM.
Proof.
  unfold dhtProcessRawData.
  generalize (accumulate b 24 16 39 0), (accumulate b 8 15 22 0), (accumulate b 0 8 7 0).
  intros rh temp checksum. cbv zeta.
  match goal with |- context [negb ?t] => destruct (negb t) end.
  - right. reflexivity.
  - left. reflexivity.
Qed.

(** *** The checksum test on every frame *)

Lemma accumulate_value b lo n :
  (Z.of_nat (S n) <= 32) ->
  accumulate b (Z.of_nat lo) (S n) (Z.of_nat lo + Z.of_nat n) 0 = field_value b lo (S n).
Proof.
  intros Hn. change 0 with (2 * 0) at 1.
  rewrite accumulate_field; [lia | lia |].
  rewrite Z.add_0_l, Z.mul_1_l. apply Z.pow_le_mono_r; lia.
Qed.

(** The decoder rejects a frame exactly when its checksum field differs
    from the byte sum of the humidity field and of the temperature as the
    decoder holds it. *)
Lemma decode_checksum_test b o :
  fst (dhtProcessRawData b o) = DHT_INVALID_CHECKSUM <->
  field_value b 0 8 <> byte_sum (field_value b 24 16) (decoded_temperature b).
Proof.
  unfold dhtProcessRawData, decoded_temperature.
  change (accumulate b 24 16 39 0)
    with (accumulate b (Z.of_nat 24) 16 (Z.of_nat 24 + Z.of_nat 15) 0).
  change (accumulate b 8 15 22 0)
    with (accumulate b (Z.of_nat 8) 15 (Z.of_nat 8 + Z.of_nat 14) 0).
  change (accumulate b 0 8 7 0)
    with (accumulate b (Z.of_nat 0) 8 (Z.of_nat 0 + Z.of_nat 7) 0).
  rewrite !accumulate_value by lia.
  generalize (field_value b 24 16), (field_value b 8 15), (field_value b 0 8).
  intros rh mag checksum. cbv zeta. rewrite byte_sum_arith. fold (byte_sum rh
    (if 19 <? b !!! 23%nat then uint32 (mag * uint32 (-1)) else mag)).
  destruct (checksum =? byte_sum rh _) eqn:Hc; cbn [negb fst].
  - apply Z.eqb_eq in Hc. split; [discriminate | intros H; now contradiction H].
  - apply Z.eqb_neq in Hc. split; [intros _; exact Hc | reflexivity].
Qed.

(** The 16-bit temperature field, sign bit and magnitude. *)
Lemma field_value_S b lo n :
  field_value b lo (S n)
  = field_value b lo n + resolve_bit (b !!! (lo + n)%nat) * 2 ^ Z.of_nat n.
Proof. reflexivity. Qed.

Lemma temperature_field b :
  field_value b 8 16 = field_value b 8 15 + resolve_bit (b !!! 23%nat) * 2 ^ 15.
Proof. rewrite (field_value_S b 8 15). reflexivity. Qed.

(** Sign bit clear: the test is the one over the fields as sent. *)
Lemma decode_checksum_test_sign_clear b o :
  (19 <? b !!! 23%nat) = false ->
  (fst (dhtProcessRawData b o) = DHT_INVALID_CHECKSUM <->
   field_value b 0 8 <> byte_sum (field_value b 24 16) (field_value b 8 16)).
Proof.
  intros Hs. rewrite decode_checksum_test, temperature_field.
  unfold decoded_temperature, resolve_bit. rewrite Hs.
  now rewrite Z.mul_0_l, Z.add_0_r.
Qed.

Lemma sums_differ_all :
  forallb (fun hi =>
    forallb (fun lo =>
      let m := 256 * Z.of_nat hi + Z.of_nat lo in (m =? 16384) || sums_differ m)
      (seq 0 256))
    (seq 0 128) = true.
Proof. vm_compute. reflexivity. Qed.

Lemma sums_differ_spec m :
  0 <= m < 2 ^ 15 -> m <> 16384 ->
  byte_sum 0 (uint32 (m * uint32 (-1))) <> byte_sum 0 (m + 2 ^ 15).
Proof.
  intros Hm Hne. pose proof sums_differ_all as Hall.
  change (2 ^ 15) with 32768 in Hm.
  assert (Hhi : 0 <= m / 256 < 128)
    by (split; [apply Z.div_pos; lia | apply Z.div_lt_upper_bound; lia]).
  pose proof (Z.mod_pos_bound m 256 ltac:(lia)) as Hlo.
  rewrite forallb_forall in Hall.
  specialize (Hall (Z.to_nat (m / 256))). rewrite in_seq in Hall.
  specialize (Hall ltac:(lia)).
  rewrite forallb_forall in Hall.
  specialize (Hall (Z.to_nat (m mod 256))). rewrite in_seq in Hall.
  specialize (Hall ltac:(lia)). cbv zeta in Hall.
  rewrite !Z2Nat.id in Hall by lia.
  rewrite <- (Z.div_mod m 256) in Hall by lia.
  apply orb_prop in Hall as [Heq | Hd]; [apply Z.eqb_eq in Heq; lia|].
  unfold sums_differ in Hd. now apply negb_true_iff, Z.eqb_neq in Hd.
Qed.

Lemma byte_sum_shift rh x y :
  byte_sum rh x = byte_sum rh y -> byte_sum 0 x = byte_sum 0 y.
Proof.
  unfold byte_sum. change (0 / 256) with 0. change (0 mod 256) with 0.
  rewrite !Z.add_0_l.
  generalize ((rh / 256) mod 256 + rh mod 256).
  generalize ((x / 256) mod 256), (x mod 256), ((y / 256) mod 256), (y mod 256).
  intros x1 x0 y1 y0 a H.
  replace (a + x1 + x0) with (a + (x1 + x0)) in H by lia.
  replace (a + y1 + y0) with (a + (y1 + y0)) in H by lia.
  revert H. generalize (x1 + x0), (y1 + y0). intros gx gy H.
  pose proof (Z.div_mod (a + gx) 256 ltac:(lia)) as Hx.
  pose proof (Z.div_mod (a + gy) 256 ltac:(lia)) as Hy.
  pose proof (Z.div_mod gx 256 ltac:(lia)) as Hgx.
  pose proof (Z.div_mod gy 256 ltac:(lia)) as Hgy.
  pose proof (Z.mod_pos_bound gx 256 ltac:(lia)).
  pose proof (Z.mod_pos_bound gy 256 ltac:(lia)).
  lia.
Qed.

(** Sign bit set: whatever the humidity, a frame that carries the byte sum
    of its fields as sent is rejected, except for the magnitude 16384. *)
Lemma negative_frames_rejected b o :
  (19 <? b !!! 23%nat) = true ->
  field_value b 8 15 <> 16384 ->
  field_value b 0 8 = byte_sum (field_value b 24 16) (field_value b 8 16) ->
  fst (dhtProcessRawData b o) = DHT_INVALID_CHECKSUM.
Proof.
  intros Hs Hm Hsum. apply decode_checksum_test. rewrite Hsum, temperature_field.
  unfold decoded_temperature, resolve_bit. rewrite Hs, Z.mul_1_l.
  intros Heq. apply byte_sum_shift in Heq. symmetry in Heq. revert Heq.
  apply sums_differ_spec; [|exact Hm].
  pose proof (field_value_bounds b 8 15) as Hb. exact Hb.
Qed.

(** ** Properties of the protocol engine *)

Lemma bind_eq {A B} (m : M A) (f : A -> M B) w a w' :
  m w = Some (a, w') -> (m ≫= f) w = f a w'.
Proof. intros H. unfold mbind, M_bind. now rewrite H. Qed.

Lemma load_dht_eq w p d : mem w !! p = Some (BDht d) -> load_dht p w = Some (d, w).
Proof. intros H. unfold load_dht, load, mbind, M_bind. now rewrite H. Qed.

Lemma gpio_get_level_eq p w :
  gpio_get_level p w = Some (line w (samples w), advance 1 w).
Proof. reflexivity. Qed.

Lemma advance_0 w : advance 0 w = w.
Proof. now destruct w. Qed.

Lemma advance_advance n m w : advance n (advance m w) = advance (n + m) w.
Proof. unfold advance. cbn. f_equal. lia. Qed.

Lemma stays_0 l level pos : stays l level pos 0.
Proof. intros k Hk. lia. Qed.

Lemma stays_S l level pos n :
  l pos = level -> stays l level (S pos) n -> stays l level pos (S n).
Proof.
  intros H0 Hn k Hk. destruct k as [|k].
  - now rewrite Nat.add_0_r.
  - rewrite <- Nat.add_succ_comm. apply Hn. lia.
Qed.

(** A wait loop either uses up its budget, every sample at [level], or
    stops at the first sample that is not. *)
Lemma poll_spec pDht d level budget : forall counter prev w,
  mem w !! pDht = Some (BDht d) ->
  (stays (line w) level (samples w) budget /\
   poll pDht level budget counter prev w
   = Some ((counter + Z.of_nat budget + 1,
            match budget with O => prev | S _ => level end), advance budget w))
  \/
  (exists k, (k < budget)%nat /\ leaves_at (line w) level (samples w) k /\
   poll pDht level budget counter prev w
   = Some ((counter + Z.of_nat k + 1, line w (samples w + k)%nat), advance (S k) w)).
Proof.
  induction budget as [|budget IH]; intros counter prev w Hd.
  - left. split; [apply stays_0|]. cbn [poll]. rewrite advance_0.
    unfold mret, M_ret. do 3 f_equal. lia.
  - cbn [poll]. rewrite (bind_eq _ _ w d w (load_dht_eq w pDht d Hd)).
    rewrite (bind_eq _ _ w _ _ (gpio_get_level_eq (pin d) w)).
    destruct (line w (samples w) =? level) eqn:Hs.
    + apply Z.eqb_eq in Hs.
      rewrite (bind_eq _ _ (advance 1 w) tt (advance 1 w) eq_refl).
      destruct (IH (counter + 1) (line w (samples w)) (advance 1 w) Hd)
        as [[Hst Heq] | (k & Hk & [Hst Hne] & Heq)].
      * left. split; [now apply stays_S|].
        rewrite Heq, advance_advance. rewrite Nat.add_1_r.
        do 3 f_equal; [lia|]. now destruct budget.
      * right. exists (S k). split; [lia|]. split.
        { split; [now apply stays_S|].
          cbn in Hne. now rewrite <- Nat.add_succ_comm. }
        rewrite Heq, advance_advance. cbn [line advance samples].
        rewrite Nat.add_1_r. do 3 f_equal; [lia|].
        f_equal. lia.
    + apply Z.eqb_neq in Hs. right. exists O. split; [lia|]. split.
      { split; [apply stays_0|]. now rewrite Nat.add_0_r. }
      unfold mret, M_ret. rewrite Nat.add_0_r. do 3 f_equal. lia.
Qed.

(** A wait loop with a budget assigns [prevState] before anyone reads
    it: its value before the loop does not matter. *)
Lemma poll_assigns_prevState pDht level budget counter prev prev' :
  poll pDht level (S budget) counter prev = poll pDht level (S budget) counter prev'.
Proof. reflexivity. Qed.

Lemma stays_shift l level p q n : p = q -> stays l level p n -> stays l level q n.
Proof. now intros ->. Qed.

Lemma leaves_at_shift l level p q k : p = q -> leaves_at l level p k -> leaves_at l level q k.
Proof. now intros ->. Qed.

(** The bit loop, from any bit period on. *)
Lemma read_bits_spec pDht d : forall n prev b w,
  mem w !! pDht = Some (BDht d) -> (n <= 40)%nat -> length b = 40%nat ->
  exists r b' m,
    read_bits pDht n (Z.of_nat (40 - n)) prev b w = Some ((r, b'), advance m w) /\
    acquisition (line w) (40 - n) (samples w) b r b' /\
    length b' = 40%nat.
Proof.
  induction n as [|n IH]; intros prev b w Hd Hn Hlen.
  - exists DHT_OK, b, O. rewrite advance_0. split; [reflexivity|].
    split; [apply acq_done | exact Hlen].
  - cbn [read_bits]. unfold wait_while.
    change (Z.to_nat BEGIN_DATA_READ_DHT_ATTENTION) with 50%nat.
    change (Z.to_nat BEGIN_DATA_RECEIVE_DHT_DATA) with 70%nat.
    destruct (poll_spec pDht d DHT_LOW 50 0 prev w Hd)
      as [[Hst Heq] | (k & Hk & Hlv & Heq)];
      rewrite (bind_eq _ _ _ _ _ Heq); cbv beta iota.
    { (* the line never left low *)
      rewrite Z.eqb_refl.
      exists DHT_SENSOR_DID_NOT_SWITCH_TO_HIGH, b, 50%nat. split; [reflexivity|].
      split; [|exact Hlen]. apply acq_stuck_low; [lia | exact Hst]. }
    destruct Hlv as [Hst Hne].
    replace (line w (samples w + k)%nat =? DHT_LOW) with false
      by (symmetry; now apply Z.eqb_neq).
    set (w1 := advance (S k) w).
    assert (Hd1 : mem w1 !! pDht = Some (BDht d)) by exact Hd.
    destruct (poll_spec pDht d DHT_HIGH 70 0 (line w (samples w + k)%nat) w1 Hd1)
      as [[Hst2 Heq2] | (j & Hj & [Hst2 Hne2] & Heq2)];
      rewrite (bind_eq _ _ _ _ _ Heq2); cbv beta iota.
    { (* the line never left high *)
      rewrite Z.eqb_refl.
      exists DHT_SENSOR_DID_NOT_SWITCH_TO_LOW, b, (70 + S k)%nat.
      unfold w1. rewrite advance_advance. split; [reflexivity|].
      split; [|exact Hlen].
      apply (acq_stuck_high _ _ _ _ k); [lia | lia | now split |].
      apply (stays_shift _ _ (samples w1)); [cbn; lia | exact Hst2]. }
    replace (line w1 (samples w1 + j)%nat =? DHT_HIGH) with false
      by (symmetry; now apply Z.eqb_neq).
    set (w2 := advance (S j) w1).
    assert (Hd2 : mem w2 !! pDht = Some (BDht d)) by exact Hd.
    replace (Z.of_nat (40 - S n) + 1) with (Z.of_nat (40 - n)) by lia.
    replace (uint8 (0 + Z.of_nat j + 1)) with (Z.of_nat (j + 1))
      by (unfold uint8; rewrite Z.mod_small; lia).
    assert (Hst3 : array_store b (40 - Z.of_nat (40 - n)) (Z.of_nat (j + 1)) w2
                   = Some (<[(39 - (40 - S n))%nat := Z.of_nat (j + 1)]> b, w2)).
    { unfold array_store. rewrite Hlen.
      replace (0 <=? 40 - Z.of_nat (40 - n)) with true
        by (symmetry; apply Z.leb_le; lia).
      replace (40 - Z.of_nat (40 - n) <? Z.of_nat 40) with true
        by (symmetry; apply Z.ltb_lt; lia).
      replace (Z.to_nat (40 - Z.of_nat (40 - n))) with (39 - (40 - S n))%nat by lia.
      reflexivity. }
    rewrite (bind_eq _ _ _ _ _ Hst3).
    destruct (IH (line w1 (samples w1 + j)%nat)
                (<[(39 - (40 - S n))%nat := Z.of_nat (j + 1)]> b) w2 Hd2 ltac:(lia)
                ltac:(now rewrite length_insert))
      as (r & b' & m & Hrun & Hacq & Hlen').
    exists r, b', (m + S j + S k)%nat. split; [|split; [|exact Hlen']].
    + rewrite Hrun. unfold w2, w1. now rewrite !advance_advance.
    + apply (acq_bit _ _ _ _ k j); [lia | lia | now split | lia | |].
      * apply (leaves_at_shift _ _ (samples w1)); [cbn; lia | now split].
      * replace (S (40 - S n)) with (40 - n)%nat by lia.
        replace (samples w + k + 1 + j + 1)%nat with (samples w2) by (cbn; lia).
        exact Hacq.
Qed.

Lemma leaves_at_unique l level pos k k' :
  leaves_at l level pos k -> leaves_at l level pos k' -> k = k'.
Proof.
  intros [Hs Hn] [Hs' Hn'].
  destruct (Nat.lt_trichotomy k k') as [H | [H | H]]; [|assumption|].
  - contradiction Hn. now apply Hs'.
  - contradiction Hn'. now apply Hs.
Qed.

Lemma leaves_at_not_stays l level pos k n :
  leaves_at l level pos k -> (k < n)%nat -> stays l level pos n -> False.
Proof. intros [_ Hn] Hk Hs. apply Hn. now apply Hs. Qed.

(** The line decides the result and the frame. *)
Lemma acquisition_functional l i pos b r1 b1 :
  acquisition l i pos b r1 b1 ->
  forall r2 b2, acquisition l i pos b r2 b2 -> r2 = r1 /\ b2 = b1.
Proof.
  induction 1 as [pos b | i pos b Hi Hst | i pos b k Hi Hk Hlv Hst
                  | i pos b k j r b' Hi Hk Hlv Hj Hlv2 Hrest IH];
    intros r2 b2 H2; inversion H2; subst; try lia; try (split; reflexivity).
  all: repeat match goal with
       | H1 : leaves_at ?f ?lv ?p ?k1, H2 : leaves_at ?f ?lv ?p ?k2 |- _ =>
           tryif constr_eq k1 k2 then fail
           else (pose proof (leaves_at_unique _ _ _ _ _ H1 H2); subst k2)
       end.
  all: try match goal with
       | H1 : leaves_at ?f ?lv ?p ?k, Hk : (?k < ?n)%nat, Hs : stays ?f ?lv ?p ?n |- _ =>
           exfalso; exact (leaves_at_not_stays _ _ _ _ _ H1 Hk Hs)
       end.
  now apply IH.
Qed.

(** ** Properties of [dhtRead] *)

Section Steady.

Variable pDht : Z.
Variable d : dht_t.

Lemma steady_ret {A} (P : A -> Prop) a : P a -> steady pDht d P (mret a).
Proof. intros HP w _. exists a, w. now repeat split. Qed.

Lemma steady_bind {A B} (Q : A -> Prop) (P : B -> Prop) (m : M A) (f : A -> M B) :
  steady pDht d Q m -> (forall a, Q a -> steady pDht d P (f a)) ->
  steady pDht d P (m ≫= f).
Proof.
  intros Hm Hf w Hw. destruct (Hm w Hw) as (a & w1 & Heq & Hmem & HQ).
  assert (Hw1 : mem w1 !! pDht = Some (BDht d)) by now rewrite Hmem.
  destruct (Hf a HQ w1 Hw1) as (c & w2 & Heq2 & Hmem2 & HP).
  exists c, w2. rewrite (bind_eq _ _ _ _ _ Heq). repeat split; congruence.
Qed.

Lemma steady_load_dht : steady pDht d (fun x => x = d) (load_dht pDht).
Proof. intros w Hw. exists d, w. rewrite (load_dht_eq _ _ _ Hw). auto. Qed.

Lemma steady_gpio_driver_call : steady pDht d (fun _ => True) gpio_driver_call.
Proof. intros w Hw. eexists _, _. split; [reflexivity|]. auto. Qed.

Lemma steady_gpio_get_level p : steady pDht d (fun _ => True) (gpio_get_level p).
Proof. intros w Hw. eexists _, _. split; [reflexivity|]. auto. Qed.

Lemma steady_vTaskDelay n : steady pDht d (fun _ => True) (vTaskDelay n).
Proof. intros w Hw. eexists _, _. split; [reflexivity|]. auto. Qed.

Lemma steady_ets_delay_us n : steady pDht d (fun _ => True) (ets_delay_us n).
Proof. now apply steady_ret. Qed.

Lemma steady_poll level budget : forall counter prev,
  steady pDht d (fun _ => True) (poll pDht level budget counter prev).
Proof.
  induction budget as [|budget IH]; intros counter prev; cbn [poll].
  - now apply steady_ret.
  - eapply steady_bind; [apply steady_load_dht|]. intros ? _.
    eapply steady_bind; [apply steady_gpio_get_level|]. intros s _.
    destruct (s =? level).
    + eapply steady_bind; [apply steady_ets_delay_us|]. intros _ _. apply IH.
    + now apply steady_ret.
Qed.

Lemma steady_array_store b i v :
  0 <= i < Z.of_nat (length b) ->
  steady pDht d (fun b' => length b' = length b) (array_store b i v).
Proof.
  intros Hi. unfold array_store.
  replace (0 <=? i) with true by (symmetry; apply Z.leb_le; lia).
  replace (i <? Z.of_nat (length b)) with true by (symmetry; apply Z.ltb_lt; lia).
  apply steady_ret. apply length_insert.
Qed.

Lemma steady_read_bits n : forall prev b,
  (n <= 40)%nat -> length b = 40%nat ->
  steady pDht d (fun rb => raw_read_result (fst rb))
         (read_bits pDht n (Z.of_nat (40 - n)) prev b).
Proof.
  unfold raw_read_result.
  induction n as [|n IH]; intros prev b Hn Hlen; cbn [read_bits].
  - apply steady_ret. cbn. auto.
  - eapply steady_bind; [apply steady_poll|]. intros [counter p1] _.
    destruct (p1 =? DHT_LOW); [apply steady_ret; cbn; auto 6|].
    eapply steady_bind; [apply steady_poll|]. intros [counter2 p2] _.
    destruct (p2 =? DHT_HIGH); [apply steady_ret; cbn; auto 6|].
    eapply steady_bind; [apply steady_array_store; rewrite Hlen; lia|].
    intros b' Hb'. cbv beta in Hb'.
    replace (Z.of_nat (40 - S n) + 1) with (Z.of_nat (40 - n)) by lia.
    apply IH; [lia | congruence].
Qed.

Lemma steady_dhtReadRawData hz b :
  length b = 40%nat ->
  steady pDht d (fun rb => raw_read_result (fst rb)) (dhtReadRawData hz pDht b).
Proof.
  intros Hlen.
  unfold dhtReadRawData, gpio_set_direction, gpio_set_level, raw_read_result.
  eapply steady_bind; [apply steady_load_dht|]. intros ? _.
  eapply steady_bind; [apply steady_gpio_driver_call|]. intros e1 _.
  destruct (negb (e1 =? ESP_OK)); [apply steady_ret; cbn; auto 6|].
  eapply steady_bind; [apply steady_load_dht|]. intros ? _.
  eapply steady_bind; [apply steady_gpio_driver_call|]. intros e2 _.
  destruct (negb (e2 =? ESP_OK)); [apply steady_ret; cbn; auto 6|].
  eapply steady_bind; [apply steady_vTaskDelay|]. intros _ _.
  eapply steady_bind; [apply steady_load_dht|]. intros ? _.
  eapply steady_bind; [apply steady_gpio_driver_call|]. intros e3 _.
  destruct (negb (e3 =? ESP_OK)); [apply steady_ret; cbn; auto 6|].
  eapply steady_bind; [apply steady_ets_delay_us|]. intros _ _.
  eapply steady_bind; [apply steady_load_dht|]. intros ? _.
  eapply steady_bind; [apply steady_gpio_driver_call|]. intros e4 _.
  destruct (negb (e4 =? ESP_OK)); [apply steady_ret; cbn; auto 6|].
  eapply steady_bind; [apply steady_poll|]. intros [counter p1] _.
  destruct (p1 =? DHT_LOW); [apply steady_ret; cbn; auto 6|].
  eapply steady_bind; [apply steady_poll|]. intros [counter2 p2] _.
  destruct (p2 =? DHT_HIGH); [apply steady_ret; cbn; auto 6|].
  apply (steady_read_bits 40); [lia | exact Hlen].
Qed.

End Steady.

(** [dhtRead] on a live handle and a live measurement object: it returns;
    it is the rate check that decides between the result "too frequent" and
    the others;
    the heap changes at [outdata] at most, and only when the result is
    [DHT_OK]. *)
Lemma dhtRead_spec hz pDht outdata d o w :
  pDht <> NULL -> outdata <> NULL ->
  mem w !! pDht = Some (BDht d) ->
  mem w !! outdata = Some (BData o) ->
  exists r w',
    dhtRead hz pDht outdata w = Some (r, w') /\
    (r = DHT_READ_QUERY_TOO_FREQUENT <->
       uint32 (tick w - pc d) < pdMS_TO_TICKS hz 2000) /\
    (r <> DHT_OK -> mem w' = mem w) /\
    (exists o', mem w' = <[outdata := BData o']> (mem w)).
Proof.
  intros Hp Ho Hd Hout. unfold dhtRead.
  replace (pDht =? NULL) with false by (symmetry; now apply Z.eqb_neq).
  replace (outdata =? NULL) with false by (symmetry; now apply Z.eqb_neq).
  rewrite (bind_eq _ _ w (tick w) w eq_refl).
  rewrite (bind_eq _ _ w d w (load_dht_eq _ _ _ Hd)).
  assert (Hid : mem w = <[outdata := BData o]> (mem w))
    by (symmetry; now apply insert_id).
  destruct (uint32 (tick w - pc d) <? pdMS_TO_TICKS hz 2000) eqn:Hgate.
  { apply Z.ltb_lt in Hgate. exists DHT_READ_QUERY_TOO_FREQUENT, w.
    repeat split; eauto. }
  apply Z.ltb_ge in Hgate.
  destruct (steady_dhtReadRawData pDht d hz (replicate 40 0) eq_refl w Hd)
    as ([r b] & w1 & Hraw & Hmem & Hr).
  rewrite (bind_eq _ _ _ _ _ Hraw). cbn [fst] in Hr.
  destruct (decide (r = DHT_OK)) as [-> | Hne].
  - assert (Hl : load_data outdata w1 = Some (o, w1)).
    { unfold load_data, load, mbind, M_bind. now rewrite Hmem, Hout. }
    rewrite (bind_eq _ _ _ _ _ Hl).
    destruct (dhtProcessRawData b o) as [r2 o2] eqn:Hdec.
    rewrite (bind_eq _ _ w1 tt _ eq_refl).
    exists r2, (set_mem (insert outdata (BData o2)) w1).
    split; [reflexivity|]. cbn [mem set_mem]. rewrite Hmem.
    pose proof (decode_results b o) as Hres. rewrite Hdec in Hres. cbn in Hres.
    split; [|split].
    + split; [intros ->; destruct Hres; discriminate | lia].
    + intros Hr2. rewrite (decode_rejected_untouched _ _ _ _ Hdec Hr2).
      now apply insert_id.
    + now exists o2.
  - exists r, w1. split; [reflexivity|]. rewrite Hmem.
    split; [|split]; eauto.
    split; [|lia]. intros ->.
    unfold raw_read_result in Hr. repeat destruct Hr as [Hr | Hr]; discriminate.
Qed.


(** ** Properties of [dhtInitialize] and [dhtCleanup] *)

Lemma load_chars_eq w s buf :
  mem w !! s = Some (BChars buf) -> load_chars s w = Some (buf, w).
Proof. intros H. unfold load_chars, load, mbind, M_bind. now rewrite H. Qed.

Lemma load_char_eq w s buf x c :
  mem w !! s = Some (BChars buf) -> buf !! x = Some c ->
  load_char s (Z.of_nat x) w = Some (c, w).
Proof.
  intros Hs Hc. unfold load_char. rewrite (bind_eq _ _ _ _ _ (load_chars_eq _ _ _ Hs)).
  rewrite Nat2Z.id, Hc.
  now replace (0 <=? Z.of_nat x) with true by (symmetry; apply Z.leb_le; lia).
Qed.

(** The scan finds no terminator where there is none. *)
Lemma scan_name_unterminated w s buf n : forall x,
  mem w !! s = Some (BChars buf) ->
  (x + n <= length buf)%nat ->
  (forall i c, (x <= i < x + n)%nat -> buf !! i = Some c -> c <> 0) ->
  scan_name s n (Z.of_nat x) w = Some (false, w).
Proof.
  induction n as [|n IH]; intros x Hs Hlen Hnz; cbn [scan_name]; [reflexivity|].
  destruct (lookup_lt_is_Some_2 buf x ltac:(lia)) as [c Hc].
  rewrite (bind_eq _ _ _ _ _ (load_char_eq _ _ _ _ _ Hs Hc)).
  replace (c =? 0) with false
    by (symmetry; apply Z.eqb_neq; apply (Hnz x c); [lia | exact Hc]).
  replace (Z.of_nat x + 1) with (Z.of_nat (S x)) by lia.
  apply IH; [exact Hs | lia |]. intros i c' Hi. apply Hnz. lia.
Qed.

(** The scan stops at a terminator at index [k]. *)
Lemma scan_name_terminated w s buf k n : forall x,
  mem w !! s = Some (BChars buf) ->
  buf !! k = Some 0 -> (x <= k < x + n)%nat ->
  scan_name s n (Z.of_nat x) w = Some (true, w).
Proof.
  induction n as [|n IH]; intros x Hs Hk Hx; [lia|]. cbn [scan_name].
  assert (Hlt : (k < length buf)%nat) by (apply lookup_lt_is_Some; eauto).
  destruct (lookup_lt_is_Some_2 buf x ltac:(lia)) as [c Hc].
  rewrite (bind_eq _ _ _ _ _ (load_char_eq _ _ _ _ _ Hs Hc)).
  destruct (c =? 0) eqn:Hc0; [reflexivity|].
  apply Z.eqb_neq in Hc0.
  replace (Z.of_nat x + 1) with (Z.of_nat (S x)) by lia.
  apply IH; [exact Hs | exact Hk |].
  destruct (decide (x = k)) as [-> | Hne]; [congruence | lia].
Qed.

Lemma unterminated_spec buf :
  unterminated buf = true ->
  (32 <= length buf)%nat /\
  (forall i c, (i < 32)%nat -> buf !! i = Some c -> c <> 0).
Proof.
  unfold unterminated. intros H. apply andb_prop in H as [Hlen Hall].
  apply Nat.leb_le in Hlen. split; [exact Hlen|].
  intros i c Hi Hc. rewrite forallb_forall in Hall.
  assert (Hin : In c (take 32 buf)).
  { apply list_elem_of_In, elem_of_take. eauto. }
  specialize (Hall c Hin). apply negb_true_iff, Z.eqb_neq in Hall. exact Hall.
Qed.

Lemma load_pvt_eq w a v : mem w !! a = Some (BPvt v) -> load_pvt a w = Some (v, w).
Proof. intros H. unfold load_pvt, load, mbind, M_bind. now rewrite H. Qed.

Lemma load_ptr_eq w a p : mem w !! a = Some (BPtr p) -> load_ptr a w = Some (p, w).
Proof. intros H. unfold load_ptr, load, mbind, M_bind. now rewrite H. Qed.

Lemma free_eq w a blk :
  mem w !! a = Some blk -> free a w = Some (tt, set_mem (delete a) w).
Proof. intros H. unfold free, load, release, mbind, M_bind. now rewrite H. Qed.

Lemma malloc_eq junk w rest :
  malloc_ok w = true :: rest ->
  malloc junk w
  = Some (next_block w,
          mk_world (<[next_block w := junk w]> (mem w)) (next_block w + 1) rest
                   (junk_dht w) (junk_pvt w) (tick w) (gpio_ret w) (gpio_calls w)
                   (line w) (samples w)).
Proof. intros H. unfold malloc. now rewrite H. Qed.

(** A successful [dhtInitialize]: the heap it leaves.  The private
    context sits in the first fresh block [a], the handle in the next; the
    handle's [name] is what the allocator left there. *)
Lemma dhtInitialize_ok (valid : Z -> bool) pinId s buf c0 k ppDht q rest w :
  valid pinId = true -> s <> NULL -> ppDht <> NULL ->
  mem w !! s = Some (BChars buf) ->
  buf !! 0%nat = Some c0 -> c0 <> 0 ->
  buf !! k = Some 0 -> (k < 32)%nat ->
  mem w !! ppDht = Some (BPtr q) ->
  malloc_ok w = true :: true :: rest ->
  gpio_ret w (gpio_calls w) = ESP_OK ->
  0 < next_block w ->
  mem w !! next_block w = None ->
  mem w !! (next_block w + 1) = None ->
  exists w',
    dhtInitialize valid pinId s ppDht w = Some (DHT_OK, w') /\
    mem w' =
      <[ppDht := BPtr (next_block w + 1)]>
        (<[next_block w + 1 := BDht (mk_dht (name (junk_dht w)) pinId (next_block w) 0)]>
           (<[next_block w := BPvt (set_pDhtAddress (next_block w + 1) (junk_pvt w))]>
              (mem w))) /\
    tick w' = tick w /\ line w' = line w /\ samples w' = samples w /\
    gpio_ret w' = gpio_ret w.
Proof.
  intros Hvalid Hs Hpp Hbuf Hc0 Hnz Hk Hk32 Hcell Hok Hgpio Hpos Hfresh Hfresh1.
  set (a := next_block w) in *.
  assert (Hne1 : ppDht <> a) by congruence.
  assert (Hne2 : ppDht <> a + 1) by congruence.
  unfold dhtInitialize. rewrite Hvalid. cbn [negb].
  replace (s =? NULL) with false by (symmetry; now apply Z.eqb_neq).
  rewrite (bind_eq _ _ _ _ _ (load_char_eq _ _ _ 0 _ Hbuf Hc0)).
  replace (c0 =? 0) with false by (symmetry; now apply Z.eqb_neq).
  change (Z.to_nat DHT_MAX_SENSOR_NAME) with 32%nat.
  rewrite (bind_eq _ _ _ _ _
             (scan_name_terminated w s buf k 32 0 Hbuf Hk ltac:(lia))).
  cbn [negb]. rewrite (bind_eq _ _ w tt w eq_refl).
  replace (ppDht =? NULL) with false by (symmetry; now apply Z.eqb_neq).
  eexists. split.
  - erewrite bind_eq by (apply malloc_eq; exact Hok). fold a.
    replace (a =? NULL) with false by (symmetry; apply Z.eqb_neq; unfold NULL; lia).
    erewrite bind_eq by (apply malloc_eq; reflexivity).
    cbn [next_block mem junk_dht junk_pvt tick gpio_ret gpio_calls line samples].
    replace (a + 1 =? NULL) with false by (symmetry; apply Z.eqb_neq; unfold NULL; lia).
    unfold gpio_set_pull_mode.
    erewrite bind_eq by reflexivity.
    cbn [next_block mem junk_dht junk_pvt tick gpio_ret gpio_calls line samples].
    rewrite Hgpio. cbn [negb Z.eqb ESP_OK].
    erewrite bind_eq
      by (apply load_pvt_eq; cbn [mem];
          rewrite lookup_insert_ne by lia; apply lookup_insert_eq).
    erewrite bind_eq by reflexivity.
    erewrite bind_eq
      by (apply load_dht_eq; cbn [mem set_mem];
          rewrite lookup_insert_ne by lia; apply lookup_insert_eq).
    erewrite bind_eq by reflexivity.
    erewrite bind_eq by (apply load_dht_eq; cbn [mem set_mem]; apply lookup_insert_eq).
    erewrite bind_eq by reflexivity.
    erewrite bind_eq by (apply load_dht_eq; cbn [mem set_mem]; apply lookup_insert_eq).
    erewrite bind_eq by reflexivity.
    erewrite bind_eq
      by (apply load_ptr_eq; cbn [mem set_mem];
          rewrite !lookup_insert_ne by (lia || congruence); exact Hcell).
    erewrite bind_eq by reflexivity.
    reflexivity.
  - cbn [mem set_mem tick line samples gpio_ret]. repeat split.
    apply map_eq. intros i. rewrite !lookup_insert.
    repeat case_decide; subst; try lia; reflexivity.
Qed.

(** [dhtCleanup] when the private context does not point back at the
    handle: refused, nothing freed, nothing written. *)
Lemma dhtCleanup_mismatch ppDht p d v w :
  ppDht <> NULL -> p <> NULL ->
  mem w !! ppDht = Some (BPtr p) ->
  mem w !! p = Some (BDht d) ->
  mem w !! opaque d = Some (BPvt v) ->
  pDhtAddress v <> p ->
  dhtCleanup ppDht w = Some (DHT_INVALID_INPUT, w).
Proof.
  intros Hpp Hp Hcell Hd Hv Hne. unfold dhtCleanup.
  replace (ppDht =? NULL) with false by (symmetry; now apply Z.eqb_neq).
  rewrite (bind_eq _ _ _ _ _ (load_ptr_eq _ _ _ Hcell)).
  replace (p =? NULL) with false by (symmetry; now apply Z.eqb_neq).
  rewrite (bind_eq _ _ _ _ _ (load_dht_eq _ _ _ Hd)).
  rewrite (bind_eq _ _ _ _ _ (load_pvt_eq _ _ _ Hv)).
  replace (pDhtAddress v =? p) with false by (symmetry; now apply Z.eqb_neq).
  reflexivity.
Qed.

(** [dhtCleanup] when it does: the handle is freed and the caller's pointer
    cleared, and the block of the private context stays allocated. *)
Lemma dhtCleanup_ok ppDht p d v w :
  ppDht <> NULL -> p <> NULL ->
  mem w !! ppDht = Some (BPtr p) ->
  mem w !! p = Some (BDht d) ->
  mem w !! opaque d = Some (BPvt v) ->
  pDhtAddress v = p ->
  exists w',
    dhtCleanup ppDht w = Some (DHT_OK, w') /\
    mem w' = <[ppDht := BPtr NULL]> (delete p (mem w)) /\
    mem w' !! p = None /\
    mem w' !! ppDht = Some (BPtr NULL) /\
    mem w' !! opaque d = Some (BPvt v).
Proof.
  intros Hpp Hp Hcell Hd Hv Heq.
  assert (Hne : ppDht <> p) by congruence.
  assert (Hne2 : opaque d <> p) by congruence.
  assert (Hne3 : opaque d <> ppDht) by congruence.
  eexists. split.
  - unfold dhtCleanup.
    replace (ppDht =? NULL) with false by (symmetry; now apply Z.eqb_neq).
    rewrite (bind_eq _ _ _ _ _ (load_ptr_eq _ _ _ Hcell)).
    replace (p =? NULL) with false by (symmetry; now apply Z.eqb_neq).
    rewrite (bind_eq _ _ _ _ _ (load_dht_eq _ _ _ Hd)).
    rewrite (bind_eq _ _ _ _ _ (load_pvt_eq _ _ _ Hv)).
    replace (pDhtAddress v =? p) with true by (symmetry; now apply Z.eqb_eq).
    cbn [negb].
    rewrite (bind_eq _ _ _ _ _ (free_eq _ _ _ Hd)).
    erewrite bind_eq
      by (apply load_ptr_eq; cbn [mem set_mem];
          rewrite lookup_delete_ne by congruence; exact Hcell).
    erewrite bind_eq by reflexivity.
    reflexivity.
  - cbn [mem set_mem]. split; [reflexivity|]. split; [|split].
    + rewrite lookup_insert_ne by congruence. apply lookup_delete_eq.
    + apply lookup_insert_eq.
    + rewrite lookup_insert_ne, lookup_delete_ne by congruence. exact Hv.
Qed.

(** A create and then a destroy, on any heap: both succeed, the caller's
    pointer ends NULL, the handle's block is gone and the block of the
    private context is still there. *)
Lemma create_then_destroy (valid : Z -> bool) pinId s buf c0 k ppDht q rest w :
  valid pinId = true -> s <> NULL -> ppDht <> NULL ->
  mem w !! s = Some (BChars buf) ->
  buf !! 0%nat = Some c0 -> c0 <> 0 ->
  buf !! k = Some 0 -> (k < 32)%nat ->
  mem w !! ppDht = Some (BPtr q) ->
  malloc_ok w = true :: true :: rest ->
  gpio_ret w (gpio_calls w) = ESP_OK ->
  0 < next_block w ->
  mem w !! next_block w = None ->
  mem w !! (next_block w + 1) = None ->
  exists w1 w2,
    dhtInitialize valid pinId s ppDht w = Some (DHT_OK, w1) /\
    dhtCleanup ppDht w1 = Some (DHT_OK, w2) /\
    mem w2 !! ppDht = Some (BPtr NULL) /\
    mem w2 !! (next_block w + 1) = None /\
    mem w2 !! next_block w
      = Some (BPvt (set_pDhtAddress (next_block w + 1) (junk_pvt w))).
Proof.
  intros Hvalid Hs Hpp Hbuf Hc0 Hnz Hk Hk32 Hcell Hok Hgpio Hpos Hfresh Hfresh1.
  destruct (dhtInitialize_ok valid pinId s buf c0 k ppDht q rest w
              Hvalid Hs Hpp Hbuf Hc0 Hnz Hk Hk32 Hcell Hok Hgpio Hpos Hfresh Hfresh1)
    as (w1 & Hinit & Hmem & _).
  set (a := next_block w) in *.
  assert (Hne1 : ppDht <> a) by congruence.
  assert (Hne2 : ppDht <> a + 1) by congruence.
  set (d := mk_dht (name (junk_dht w)) pinId a 0) in *.
  set (v := set_pDhtAddress (a + 1) (junk_pvt w)) in *.
  assert (H1 : mem w1 !! ppDht = Some (BPtr (a + 1)))
    by (rewrite Hmem; apply lookup_insert_eq).
  assert (H2 : mem w1 !! (a + 1) = Some (BDht d))
    by (rewrite Hmem, lookup_insert_ne by congruence; apply lookup_insert_eq).
  assert (H3 : mem w1 !! opaque d = Some (BPvt v)).
  { rewrite Hmem. cbn [opaque d].
    rewrite !lookup_insert_ne by (lia || congruence). apply lookup_insert_eq. }
  destruct (dhtCleanup_ok ppDht (a + 1) d v w1 Hpp ltac:(unfold NULL; lia) H1 H2 H3 eq_refl)
    as (w2 & Hclean & _ & Hgone & Hnull & Hleft).
  exists w1, w2. repeat split; assumption.
Qed.

(** ** The bench runs as the driver is written *)

Example bench_initialize l t :
  dhtInitialize esp8266_valid_gpio GPIO_NUM_5 name_at pDht_at (bench DHT_SENSOR_NAME l t)
  = Some (DHT_OK, ready l t).
Proof. vm_compute. reflexivity. Qed.

(** The engine recovers the counts the sensor sent. *)
Example engine_recovers_frame :
  result_of (dhtReadRawData esp8266_tick_rate 1001 (replicate 40 0))
            (ready (sensor_wave scenario_frame) 200)
  = Some (DHT_OK, scenario_frame).
Proof. vm_compute. reflexivity. Qed.

(** The outcomes of a read. *)
Example read_success :
  result_of (dhtRead esp8266_tick_rate 1001 dhtData_at)
            (ready (sensor_wave scenario_frame) 200) = Some DHT_OK.
Proof. vm_compute. reflexivity. Qed.

Example read_too_frequent :
  result_of (dhtRead esp8266_tick_rate 1001 dhtData_at)
            (ready (sensor_wave scenario_frame) 199) = Some DHT_READ_QUERY_TOO_FREQUENT.
Proof. vm_compute. reflexivity. Qed.

Example read_timing_error :
  result_of (dhtRead esp8266_tick_rate 1001 dhtData_at) (ready [] 200)
  = Some DHT_SENSOR_DID_NOT_SWITCH_TO_LOW.
Proof. vm_compute. reflexivity. Qed.

Example read_checksum_error :
  result_of (dhtRead esp8266_tick_rate 1001 dhtData_at)
            (ready (sensor_wave (frame_of 10 30 653 231 119)) 200)
  = Some DHT_INVALID_CHECKSUM.
Proof. vm_compute. reflexivity. Qed.

(** ** The claims of the specification *)

(** C1, on the code.  [ReadSensorTask]'s handle at 100 Hz: a read at
    tick 0, right after the create, is turned away, and [pc], 0 since the
    create, is the tick of that attempt.  After the task's wait of 2000 ms
    two reads in a row, at ticks 200 and 201 (10 ms apart), both pass the
    rate check and return [DHT_OK]: the check compares the tick with [pc],
    and no read writes [pc]. *)
Theorem back_to_back_reads_not_throttled :
  pdMS_TO_TICKS esp8266_tick_rate 2000 = 200 /\
  result_of read_twice
    (bench DHT_SENSOR_NAME (sensor_wave scenario_frame ++ sensor_wave scenario_frame) 0)
  = Some (DHT_OK, DHT_READ_QUERY_TOO_FREQUENT, (200, DHT_OK), (201, DHT_OK)).
Proof. split; vm_compute; reflexivity. Qed.

(** C2, on the code.  A frame for -10.0 °C (sign bit set, magnitude 100),
    with the checksum the sensor sends for it, is rejected with
    [DHT_INVALID_CHECKSUM]: the decoder sums the bytes of the negated
    32-bit value, not of the field.  With the checksum the decoder expects
    instead the frame is accepted, and Celsius whole is 39311, not -10 (in
    16 bits 65526): the division is unsigned. *)
Theorem negative_temperature_not_decoded :
  let t := 0x8000 + 100 in
  let sent := frame_of 10 30 653 t (transmitted_checksum 653 t) in
  let fitted := frame_of 10 30 653 t 0x2A in
  threshold_rule sent 653 t (transmitted_checksum 653 t) = true /\
  dhtProcessRawData sent zero_data = (DHT_INVALID_CHECKSUM, zero_data) /\
  fst (dhtProcessRawData fitted zero_data) = DHT_OK /\
  csTempWhole (snd (dhtProcessRawData fitted zero_data)) = 39311 /\
  uint16 (Z.quot (- 100) 10) = 65526.
Proof. repeat split; vm_compute; reflexivity. Qed.

(** C3, on the code.  With the sign bit set the checksum test is not the
    one over the fields as sent: a frame whose checksum is the byte sum of
    its fields is rejected, and one whose checksum is not is accepted. *)
Theorem checksum_test_not_over_sent_bytes :
  let t := 0x8000 + 1 in
  transmitted_checksum 653 t = 0x10 /\
  dhtProcessRawData (frame_of 10 30 653 t 0x10) zero_data
    = (DHT_INVALID_CHECKSUM, zero_data) /\
  fst (dhtProcessRawData (frame_of 10 30 653 t 0x8D) zero_data) = DHT_OK.
Proof. repeat split; vm_compute; reflexivity. Qed.

(** C4, on the code.  The triple humidity 653, temperature field
    0x8000 + 231 (-23.1 °C) and its checksum is not recovered: the frame
    written from it by the threshold rule is rejected. *)
Theorem negative_triple_not_recovered :
  let t := 0x8000 + 231 in
  let c := transmitted_checksum 653 t in
  threshold_rule (frame_of 10 30 653 t c) 653 t c = true /\
  dhtProcessRawData (frame_of 10 30 653 t c) zero_data
    = (DHT_INVALID_CHECKSUM, zero_data).
Proof. repeat split; vm_compute; reflexivity. Qed.

(** C5, on the code.  After a create and a successful destroy the
    caller's pointer is NULL and the handle is gone (a use of it is
    undefined), and the block of the private context is still allocated:
    [dhtCleanup] frees the handle only. *)
Theorem dhtCleanup_keeps_private_context :
  result_of create_and_destroy (bench DHT_SENSOR_NAME [] 0)
  = Some (DHT_OK, DHT_OK, NULL, BPvt (mk_dhtpvt 1001 0xA5A5A5A5 0xA5A5A5A5)) /\
  result_of create_destroy_and_use (bench DHT_SENSOR_NAME [] 0) = None.
Proof. split; vm_compute; reflexivity. Qed.

(** C6, as the decoder has it.  Every frame that encodes humidity 653,
    temperature 231 and checksum 0x76 by the threshold rule decodes with
    [DHT_OK] to humidity 65 / 3, Celsius 23 / 10 (the fraction field holds
    [(temperature * 10) mod 100], two digits) and Fahrenheit 73 / 58. *)
Theorem scenario_653_231_decodes (b : list Z) (o : dht_data_t) :
  threshold_rule b 653 231 118 = true ->
  dhtProcessRawData b o =
    (DHT_OK, {| faTempWhole := 73; faTempFraction := 58;
                csTempWhole := 23; csTempFraction := 10;
                rhWhole := 65; rhFraction := 3 |}).
Proof.
  intros Hb. rewrite (decode_nonneg b 653 231 118 o Hb) by lia. reflexivity.
Qed.

Lemma scenario_653_231_decodes_witness :
  threshold_rule scenario_frame 653 231 118 = true /\
  dhtProcessRawData scenario_frame zero_data =
    (DHT_OK, {| faTempWhole := 73; faTempFraction := 58;
                csTempWhole := 23; csTempFraction := 10;
                rhWhole := 65; rhFraction := 3 |}).
Proof.
  assert (H : threshold_rule scenario_frame 653 231 118 = true) by (vm_compute; reflexivity).
  split; [exact H|].
  exact (scenario_653_231_decodes scenario_frame zero_data H).
Defined.

(** C6 as stated does not hold: on the frame of the scenario the decoder
    does not yield a Celsius fraction of 1. *)
Lemma scenario_celsius_fraction_not_1 :
  118 = (0x02 + 0x8D + 0x00 + 0xE7) mod 256 /\
  threshold_rule scenario_frame 653 231 118 = true /\
  ~ (exists o,
       dhtProcessRawData scenario_frame zero_data = (DHT_OK, o) /\
       rhWhole o = 65 /\ rhFraction o = 3 /\
       csTempWhole o = 23 /\ csTempFraction o = 1 /\
       faTempWhole o = 73).
Proof.
  split; [reflexivity|]. split; [vm_compute; reflexivity|].
  intros (o & Hdec & _ & _ & _ & Hfrac & _).
  vm_compute in Hdec. injection Hdec as <-. discriminate Hfrac.
Qed.

(** C7. The bit loop of the engine, for every stream of sampled levels:
    in each of the 40 bit periods, 50 samples at low end the read with
    [DHT_SENSOR_DID_NOT_SWITCH_TO_HIGH], 70 samples at high after that end
    it with [DHT_SENSOR_DID_NOT_SWITCH_TO_LOW], and otherwise the count of
    the high phase of the [i]-th bit received goes to index [39 - i].  The
    loop returns, and its result and frame are the only ones the stream
    allows. *)
Theorem bit_acquisition (pDht : Z) (d : dht_t) (prevState : Z) (b : list Z) (w : world) :
  mem w !! pDht = Some (BDht d) ->
  length b = 40%nat ->
  exists r b' m,
    read_bits pDht 40 0 prevState b w = Some ((r, b'), advance m w) /\
    length b' = 40%nat /\
    acquisition (line w) 0 (samples w) b r b' /\
    (forall r2 b2, acquisition (line w) 0 (samples w) b r2 b2 -> r2 = r /\ b2 = b').
Proof.
  intros Hd Hlen.
  destruct (read_bits_spec pDht d 40 prevState b w Hd ltac:(lia) Hlen)
    as (r & b' & m & Hrun & Hacq & Hlen').
  exists r, b', m. split; [exact Hrun|]. split; [exact Hlen'|]. split; [exact Hacq|].
  intros r2 b2 H2. exact (acquisition_functional _ _ _ _ _ _ Hacq r2 b2 H2).
Qed.

Lemma bit_acquisition_witness :
  let w := advance 7 (ready (sensor_wave scenario_frame) 200) in
  mem w !! 1001 = Some (BDht bench_handle) /\
  length (replicate 40 0) = 40%nat /\
  exists r b' m,
    read_bits 1001 40 0 0 (replicate 40 0) w = Some ((r, b'), advance m w) /\
    length b' = 40%nat /\
    acquisition (line w) 0 (samples w) (replicate 40 0) r b' /\
    (forall r2 b2, acquisition (line w) 0 (samples w) (replicate 40 0) r2 b2 ->
                   r2 = r /\ b2 = b').
Proof.
  intros w.
  assert (H : mem w !! 1001 = Some (BDht bench_handle)) by (vm_compute; reflexivity).
  split; [exact H|]. split; [reflexivity|].
  exact (bit_acquisition 1001 bench_handle 0 (replicate 40 0) w H eq_refl).
Defined.

(** C8, on the code.  A successful create with [user_main.c]'s name, or
    with the name "A", leaves in the handle's [name] what the allocator
    had there: [dhtInitialize] never writes the field. *)
Theorem dhtInitialize_does_not_record_name :
  result_of create_and_get_name (bench DHT_SENSOR_NAME [] 0)
  = Some (DHT_OK, name stale_dht) /\
  result_of create_and_get_name (bench (c_string "A") [] 0)
  = Some (DHT_OK, name stale_dht) /\
  name stale_dht <> take 31 DHT_SENSOR_NAME ++ [0] /\
  name stale_dht <> c_string "A".
Proof. repeat split; try (vm_compute; reflexivity); vm_compute; discriminate. Qed.

(** C9. [dhtInitialize] with a valid pin, a name with no terminator in its
    first 32 bytes and a NULL [ppDht] returns [DHT_INVALID_INPUT], and by
    then it has written a null byte at index 31 of the caller's buffer. *)
Theorem dhtInitialize_truncates_before_rejecting
    (valid : Z -> bool) (pinId name : Z) (buf : list Z) (w : world) :
  valid pinId = true ->
  name <> NULL ->
  mem w !! name = Some (BChars buf) ->
  unterminated buf = true ->
  dhtInitialize valid pinId name NULL w
  = Some (DHT_INVALID_INPUT, set_mem (insert name (BChars (<[31%nat := 0]> buf))) w)
  /\ <[31%nat := 0]> buf !! 31%nat = Some 0
  /\ buf !! 31%nat <> Some 0.
Proof.
  intros Hvalid Hname Hbuf Hunt.
  destruct (unterminated_spec buf Hunt) as [Hlen Hnz]. split; [|split].
  - unfold dhtInitialize. rewrite Hvalid. cbn [negb].
    replace (name =? NULL) with false by (symmetry; now apply Z.eqb_neq).
    destruct (lookup_lt_is_Some_2 buf 0 ltac:(lia)) as [c0 Hc0].
    rewrite (bind_eq _ _ _ _ _ (load_char_eq _ _ _ 0 _ Hbuf Hc0)).
    replace (c0 =? 0) with false
      by (symmetry; apply Z.eqb_neq; apply (Hnz 0%nat c0); [lia | exact Hc0]).
    change (Z.to_nat DHT_MAX_SENSOR_NAME) with 32%nat.
    rewrite (bind_eq _ _ _ _ _
               (scan_name_unterminated w name buf 32 0 Hbuf ltac:(lia)
                  ltac:(intros i c Hi; apply Hnz; lia))).
    cbn [negb].
    assert (Hst : store_char name (DHT_MAX_SENSOR_NAME - 1) 0 w
                  = Some (tt, set_mem (insert name (BChars (<[31%nat := 0]> buf))) w)).
    { unfold store_char. rewrite (bind_eq _ _ _ _ _ (load_chars_eq _ _ _ Hbuf)).
      change (DHT_MAX_SENSOR_NAME - 1) with 31.
      replace (31 <? Z.of_nat (length buf)) with true
        by (symmetry; apply Z.ltb_lt; lia).
      reflexivity. }
    rewrite (bind_eq _ _ _ _ _ Hst). reflexivity.
  - apply list_lookup_insert_eq. lia.
  - intros H31. now apply (Hnz 31%nat 0 ltac:(lia) H31).
Qed.

Lemma dhtInitialize_truncates_before_rejecting_witness :
  esp8266_valid_gpio GPIO_NUM_5 = true /\
  name_at <> NULL /\
  mem (bench DHT_SENSOR_NAME [] 0) !! name_at = Some (BChars DHT_SENSOR_NAME) /\
  unterminated DHT_SENSOR_NAME = true /\
  (dhtInitialize esp8266_valid_gpio GPIO_NUM_5 name_at NULL (bench DHT_SENSOR_NAME [] 0)
   = Some (DHT_INVALID_INPUT,
           set_mem (insert name_at (BChars (<[31%nat := 0]> DHT_SENSOR_NAME)))
                   (bench DHT_SENSOR_NAME [] 0))
   /\ <[31%nat := 0]> DHT_SENSOR_NAME !! 31%nat = Some 0
   /\ DHT_SENSOR_NAME !! 31%nat <> Some 0).
Proof.
  assert (H1 : esp8266_valid_gpio GPIO_NUM_5 = true) by reflexivity.
  assert (H2 : name_at <> NULL) by (unfold name_at, NULL; lia).
  assert (H3 : mem (bench DHT_SENSOR_NAME [] 0) !! name_at = Some (BChars DHT_SENSOR_NAME))
    by (vm_compute; reflexivity).
  assert (H4 : unterminated DHT_SENSOR_NAME = true) by (vm_compute; reflexivity).
  repeat (split; [assumption|]).
  exact (dhtInitialize_truncates_before_rejecting
           esp8266_valid_gpio GPIO_NUM_5 name_at DHT_SENSOR_NAME
           (bench DHT_SENSOR_NAME [] 0) H1 H2 H3 H4).
Defined.

(** C10. [dhtRead] on a live handle returns, whatever the outcome, and
    leaves the handle as it was, field for field -- [pc] too; the only
    object it may write is the measurement at [outdata]. *)
Theorem dhtRead_leaves_handle (hz pDht outdata : Z) (d : dht_t) (o : dht_data_t) (w : world) :
  mem w !! pDht = Some (BDht d) ->
  mem w !! outdata = Some (BData o) ->
  exists r w',
    dhtRead hz pDht outdata w = Some (r, w') /\
    mem w' !! pDht = Some (BDht d) /\
    (forall a, a <> outdata -> mem w' !! a = mem w !! a).
Proof.
  intros Hd Hout.
  destruct (decide (pDht = NULL)) as [Hp | Hp].
  { exists DHT_INVALID_INPUT, w. unfold dhtRead.
    replace (pDht =? NULL) with true by (symmetry; now apply Z.eqb_eq). auto. }
  destruct (decide (outdata = NULL)) as [Ho | Ho].
  { exists DHT_INVALID_INPUT, w. unfold dhtRead.
    replace (pDht =? NULL) with false by (symmetry; now apply Z.eqb_neq).
    replace (outdata =? NULL) with true by (symmetry; now apply Z.eqb_eq). auto. }
  destruct (dhtRead_spec hz pDht outdata d o w Hp Ho Hd Hout)
    as (r & w' & Hrun & _ & _ & o' & Hmem).
  exists r, w'. split; [exact Hrun|]. rewrite Hmem. split.
  - rewrite lookup_insert_ne by congruence. exact Hd.
  - intros a Ha. now rewrite lookup_insert_ne by congruence.
Qed.

Lemma dhtRead_leaves_handle_witness :
  let w := ready (sensor_wave scenario_frame) 200 in
  mem w !! 1001 = Some (BDht bench_handle) /\
  mem w !! dhtData_at = Some (BData zero_data) /\
  exists r w',
    dhtRead esp8266_tick_rate 1001 dhtData_at w = Some (r, w') /\
    mem w' !! 1001 = Some (BDht bench_handle) /\
    (forall a, a <> dhtData_at -> mem w' !! a = mem w !! a).
Proof.
  intros w.
  assert (H1 : mem w !! 1001 = Some (BDht bench_handle)) by (vm_compute; reflexivity).
  assert (H2 : mem w !! dhtData_at = Some (BData zero_data)) by (vm_compute; reflexivity).
  split; [exact H1|]. split; [exact H2|].
  exact (dhtRead_leaves_handle esp8266_tick_rate 1001 dhtData_at bench_handle zero_data w H1 H2).
Defined.

(** ** Further properties of the decoder *)

Lemma same_bits_pointwise (b b' : list Z) :
  resolve_bit <$> b = resolve_bit <$> b' ->
  forall i, resolve_bit (b !!! i) = resolve_bit (b' !!! i).
Proof.
  intros H i. rewrite !list_lookup_total_alt.
  assert (Hi : resolve_bit <$> (b !! i) = resolve_bit <$> (b' !! i))
    by now rewrite <- !list_lookup_fmap, H.
  destruct (b !! i), (b' !! i); cbn in Hi |- *; congruence.
Qed.

Lemma field_value_ext b b' lo n :
  (forall i, resolve_bit (b !!! i) = resolve_bit (b' !!! i)) ->
  field_value b lo n = field_value b' lo n.
Proof.
  intros H. induction n as [|n IH]; [reflexivity|].
  cbn [field_value]. now rewrite IH, H.
Qed.

Lemma sign_flag_resolve d : (19 <? d) = (resolve_bit d =? 1).
Proof. unfold resolve_bit. now destruct (19 <? d). Qed.

(** The decoder in terms of the values of the three fields and the sign
    flag. *)
Lemma decode_by_fields b b' o :
  (forall i, resolve_bit (b !!! i) = resolve_bit (b' !!! i)) ->
  dhtProcessRawData b o = dhtProcessRawData b' o.
Proof.
  intros H. unfold dhtProcessRawData.
  change (accumulate b 24 16 39 0)
    with (accumulate b (Z.of_nat 24) 16 (Z.of_nat 24 + Z.of_nat 15) 0).
  change (accumulate b 8 15 22 0)
    with (accumulate b (Z.of_nat 8) 15 (Z.of_nat 8 + Z.of_nat 14) 0).
  change (accumulate b 0 8 7 0)
    with (accumulate b (Z.of_nat 0) 8 (Z.of_nat 0 + Z.of_nat 7) 0).
  change (accumulate b' 24 16 39 0)
    with (accumulate b' (Z.of_nat 24) 16 (Z.of_nat 24 + Z.of_nat 15) 0).
  change (accumulate b' 8 15 22 0)
    with (accumulate b' (Z.of_nat 8) 15 (Z.of_nat 8 + Z.of_nat 14) 0).
  change (accumulate b' 0 8 7 0)
    with (accumulate b' (Z.of_nat 0) 8 (Z.of_nat 0 + Z.of_nat 7) 0).
  rewrite !accumulate_value by lia.
  rewrite !(field_value_ext b b') by exact H.
  rewrite (sign_flag_resolve (b !!! 23%nat)), (sign_flag_resolve (b' !!! 23%nat)), H.
  reflexivity.
Qed.

(** X1. Round trip for temperatures at or above zero: a frame written by
    the threshold rule from a 16-bit humidity, a 15-bit temperature and a
    checksum byte decodes with [DHT_OK] to §4.4's measurement if the
    checksum is the low byte of the sum of the four field bytes, and is
    rejected, the caller's measurement untouched, if it is not. *)
Theorem decode_round_trip (b : list Z) (h t c : Z) (o : dht_data_t) :
  threshold_rule b h t c = true ->
  0 <= h < 2 ^ 16 -> 0 <= t < 2 ^ 15 -> 0 <= c < 2 ^ 8 ->
  dhtProcessRawData b o =
    if c =? transmitted_checksum h t then (DHT_OK, measurement_of h t)
    else (DHT_INVALID_CHECKSUM, o).
Proof. apply decode_nonneg. Qed.

Lemma decode_round_trip_witness :
  threshold_rule (frame_of 5 40 997 805 (transmitted_checksum 997 805)) 997 805
                 (transmitted_checksum 997 805) = true /\
  0 <= 997 < 2 ^ 16 /\ 0 <= 805 < 2 ^ 15 /\
  0 <= transmitted_checksum 997 805 < 2 ^ 8 /\
  dhtProcessRawData (frame_of 5 40 997 805 (transmitted_checksum 997 805)) zero_data =
    if transmitted_checksum 997 805 =? transmitted_checksum 997 805
    then (DHT_OK, measurement_of 997 805)
    else (DHT_INVALID_CHECKSUM, zero_data).
Proof.
  assert (H1 : threshold_rule (frame_of 5 40 997 805 (transmitted_checksum 997 805))
                 997 805 (transmitted_checksum 997 805) = true) by (vm_compute; reflexivity).
  assert (H2 : 0 <= 997 < 2 ^ 16) by lia.
  assert (H3 : 0 <= 805 < 2 ^ 15) by lia.
  assert (H4 : 0 <= transmitted_checksum 997 805 < 2 ^ 8) by (vm_compute; split; congruence).
  repeat (split; [assumption|]).
  exact (decode_round_trip _ 997 805 _ zero_data H1 H2 H3 H4).
Defined.

(** X2. What an accepted frame with the sign bit clear says: the
    measurement gives back the raw values, humidity as
    [10 * whole + fraction], the temperature in hundredths of a degree
    Celsius, and Fahrenheit exactly, [18 * t + 3200] hundredths. *)
Theorem decode_gives_back_raw_values (b : list Z) (h t : Z) (o : dht_data_t) :
  threshold_rule b h t (transmitted_checksum h t) = true ->
  0 <= h < 2 ^ 16 -> 0 <= t < 2 ^ 15 ->
  exists o',
    dhtProcessRawData b o = (DHT_OK, o') /\
    10 * rhWhole o' + rhFraction o' = h /\ 0 <= rhFraction o' < 10 /\
    100 * csTempWhole o' + csTempFraction o' = 10 * t /\ 0 <= csTempFraction o' < 100 /\
    100 * faTempWhole o' + faTempFraction o' = 18 * t + 3200 /\
    0 <= faTempFraction o' < 100.
Proof.
  intros Hb Hh Ht.
  assert (Hc : 0 <= transmitted_checksum h t < 2 ^ 8)
    by (unfold transmitted_checksum; apply Z.mod_pos_bound; lia).
  rewrite (decode_nonneg b h t _ o Hb Hh Ht Hc), Z.eqb_refl.
  eexists. split; [reflexivity|]. unfold measurement_of.
  cbn [rhWhole rhFraction csTempWhole csTempFraction faTempWhole faTempFraction].
  replace (Z.quot (t * 100) 50) with (2 * t)
    by (apply Z.quot_unique_exact; lia).
  rewrite !Z.quot_div_nonneg, !Z.rem_mod_nonneg by lia.
  pose proof (Z.div_mod h 10 ltac:(lia)).
  pose proof (Z.mod_pos_bound h 10 ltac:(lia)).
  pose proof (Z.div_mod t 10 ltac:(lia)).
  pose proof (Z.mod_pos_bound t 10 ltac:(lia)).
  pose proof (Z.div_mod (t * 10) 100 ltac:(lia)).
  pose proof (Z.mod_pos_bound (t * 10) 100 ltac:(lia)).
  pose proof (Z.div_mod (2 * t * 9) 100 ltac:(lia)).
  pose proof (Z.mod_pos_bound (2 * t * 9) 100 ltac:(lia)).
  repeat split; try lia.
Qed.

Lemma decode_gives_back_raw_values_witness :
  threshold_rule (frame_of 5 40 997 805 (transmitted_checksum 997 805)) 997 805
                 (transmitted_checksum 997 805) = true /\
  0 <= 997 < 2 ^ 16 /\ 0 <= 805 < 2 ^ 15 /\
  exists o',
    dhtProcessRawData (frame_of 5 40 997 805 (transmitted_checksum 997 805)) zero_data
      = (DHT_OK, o') /\
    10 * rhWhole o' + rhFraction o' = 997 /\ 0 <= rhFraction o' < 10 /\
    100 * csTempWhole o' + csTempFraction o' = 10 * 805 /\ 0 <= csTempFraction o' < 100 /\
    100 * faTempWhole o' + faTempFraction o' = 18 * 805 + 3200 /\
    0 <= faTempFraction o' < 100.
Proof.
  assert (H1 : threshold_rule (frame_of 5 40 997 805 (transmitted_checksum 997 805))
                 997 805 (transmitted_checksum 997 805) = true) by (vm_compute; reflexivity).
  assert (H2 : 0 <= 997 < 2 ^ 16) by lia.
  assert (H3 : 0 <= 805 < 2 ^ 15) by lia.
  repeat (split; [assumption|]).
  exact (decode_gives_back_raw_values _ 997 805 zero_data H1 H2 H3).
Defined.

(** The checksum test on a frame with the sign bit clear. *)
Lemma checksum_test_sign_clear (b : list Z) (o : dht_data_t) :
  length b = 40%nat ->
  (19 <? b !!! 23%nat) = false ->
  (fst (dhtProcessRawData b o) = DHT_INVALID_CHECKSUM <->
     field_value b 0 8 <> byte_sum (field_value b 24 16) (field_value b 8 16)) /\
  (fst (dhtProcessRawData b o) = DHT_OK <->
     field_value b 0 8 = byte_sum (field_value b 24 16) (field_value b 8 16)).
Proof.
  intros _ Hs. pose proof (decode_checksum_test_sign_clear b o Hs) as Hiff.
  split; [exact Hiff|].
  destruct (decode_results b o) as [Hok | Hbad]; rewrite ?Hok, ?Hbad in *.
  - split; [|reflexivity]. intros _.
    destruct (decide (field_value b 0 8
                      = byte_sum (field_value b 24 16) (field_value b 8 16)))
      as [He | Hne]; [exact He|].
    apply Hiff in Hne. discriminate Hne.
  - split; [discriminate|]. intros He. exfalso.
    destruct Hiff as [Hiff _]. now apply Hiff.
Qed.

(** X3. With the sign bit clear the checksum test is the sensor's: a
    frame of 40 counts is rejected exactly when its checksum field differs
    from the low byte of the sum of the four bytes of its humidity and
    temperature fields, and accepted otherwise. *)
Theorem checksum_test_when_sign_clear (b : list Z) (o : dht_data_t) :
  length b = 40%nat ->
  (19 <? b !!! 23%nat) = false ->
  (fst (dhtProcessRawData b o) = DHT_INVALID_CHECKSUM <->
     field_value b 0 8 <> byte_sum (field_value b 24 16) (field_value b 8 16)) /\
  (fst (dhtProcessRawData b o) = DHT_OK <->
     field_value b 0 8 = byte_sum (field_value b 24 16) (field_value b 8 16)).
Proof. apply checksum_test_sign_clear. Qed.

Lemma checksum_test_when_sign_clear_witness :
  length scenario_frame = 40%nat /\
  (19 <? scenario_frame !!! 23%nat) = false /\
  (fst (dhtProcessRawData scenario_frame zero_data) = DHT_INVALID_CHECKSUM <->
     field_value scenario_frame 0 8
     <> byte_sum (field_value scenario_frame 24 16) (field_value scenario_frame 8 16)) /\
  (fst (dhtProcessRawData scenario_frame zero_data) = DHT_OK <->
     field_value scenario_frame 0 8
     = byte_sum (field_value scenario_frame 24 16) (field_value scenario_frame 8 16)).
Proof.
  assert (H1 : length scenario_frame = 40%nat) by reflexivity.
  assert (H2 : (19 <? scenario_frame !!! 23%nat) = false) by reflexivity.
  split; [exact H1|]. split; [exact H2|].
  exact (checksum_test_when_sign_clear scenario_frame zero_data H1 H2).
Defined.

(** X4. The decoder sees a count only through the threshold: two frames
    of 40 counts with the same counts above 19 decode alike. *)
Theorem decode_sees_threshold_only (b b' : list Z) (o : dht_data_t) :
  length b = 40%nat ->
  resolve_bit <$> b = resolve_bit <$> b' ->
  dhtProcessRawData b o = dhtProcessRawData b' o.
Proof. intros _ H. apply decode_by_fields, same_bits_pointwise, H. Qed.

Lemma decode_sees_threshold_only_witness :
  length (frame_of 10 30 653 231 118) = 40%nat /\
  resolve_bit <$> frame_of 10 30 653 231 118 = resolve_bit <$> frame_of 19 20 653 231 118 /\
  dhtProcessRawData (frame_of 10 30 653 231 118) zero_data
  = dhtProcessRawData (frame_of 19 20 653 231 118) zero_data.
Proof.
  assert (H1 : length (frame_of 10 30 653 231 118) = 40%nat) by reflexivity.
  assert (H2 : resolve_bit <$> frame_of 10 30 653 231 118
               = resolve_bit <$> frame_of 19 20 653 231 118) by (vm_compute; reflexivity).
  split; [exact H1|]. split; [exact H2|].
  exact (decode_sees_threshold_only _ _ zero_data H1 H2).
Defined.

Lemma all_low_bits (b : list Z) :
  forallb (fun d => d <=? 19) b = true ->
  resolve_bit <$> b = replicate (length b) 0.
Proof.
  induction b as [|d b IH]; [reflexivity|]. cbn [forallb]. intros H.
  apply andb_prop in H as [Hd Hb]. cbn [fmap list_fmap length replicate].
  rewrite <- IH by exact Hb. f_equal.
  unfold resolve_bit. apply Z.leb_le in Hd.
  now replace (19 <? d) with false by (symmetry; apply Z.ltb_ge; lia).
Qed.

(** X5. A frame of 40 counts none of which is above 19, the engine's
    cleared buffer for one, is accepted and decodes to humidity 0.0,
    0.0 °C and 32.0 °F. *)
Theorem all_low_frame_decodes (b : list Z) (o : dht_data_t) :
  length b = 40%nat ->
  forallb (fun d => d <=? 19) b = true ->
  dhtProcessRawData b o =
    (DHT_OK, {| faTempWhole := 32; faTempFraction := 0;
                csTempWhole := 0; csTempFraction := 0;
                rhWhole := 0; rhFraction := 0 |}).
Proof.
  intros Hlen Hlow.
  rewrite (decode_by_fields b (replicate 40 0) o).
  - vm_compute. reflexivity.
  - apply same_bits_pointwise. rewrite (all_low_bits b Hlow), Hlen.
    vm_compute. reflexivity.
Qed.

Lemma all_low_frame_decodes_witness :
  length (replicate 40 0) = 40%nat /\
  forallb (fun d => d <=? 19) (replicate 40 0) = true /\
  dhtProcessRawData (replicate 40 0) zero_data =
    (DHT_OK, {| faTempWhole := 32; faTempFraction := 0;
                csTempWhole := 0; csTempFraction := 0;
                rhWhole := 0; rhFraction := 0 |}).
Proof.
  assert (H1 : length (replicate 40 0) = 40%nat) by reflexivity.
  assert (H2 : forallb (fun d => d <=? 19) (replicate 40 0) = true) by reflexivity.
  split; [exact H1|]. split; [exact H2|].
  exact (all_low_frame_decodes _ zero_data H1 H2).
Defined.

(** X6. With the sign bit set the decoder turns down what the sensor
    sends: a frame of 40 counts whose checksum field is the byte sum of its
    fields is rejected, whatever the humidity, for every magnitude but
    16384. *)
Theorem sign_set_frames_rejected (b : list Z) (o : dht_data_t) :
  length b = 40%nat ->
  (19 <? b !!! 23%nat) = true ->
  field_value b 8 15 <> 16384 ->
  field_value b 0 8 = byte_sum (field_value b 24 16) (field_value b 8 16) ->
  dhtProcessRawData b o = (DHT_INVALID_CHECKSUM, o).
Proof.
  intros _ Hs Hm Hsum.
  pose proof (negative_frames_rejected b o Hs Hm Hsum) as Hr.
  destruct (dhtProcessRawData b o) as [r o'] eqn:Hdec. cbn in Hr. subst r.
  f_equal. apply (decode_rejected_untouched b o _ _ Hdec). discriminate.
Qed.

Lemma sign_set_frames_rejected_witness :
  let b := frame_of 10 30 420 (0x8000 + 55) (transmitted_checksum 420 (0x8000 + 55)) in
  length b = 40%nat /\
  (19 <? b !!! 23%nat) = true /\
  field_value b 8 15 <> 16384 /\
  field_value b 0 8 = byte_sum (field_value b 24 16) (field_value b 8 16) /\
  dhtProcessRawData b zero_data = (DHT_INVALID_CHECKSUM, zero_data).
Proof.
  intros b.
  assert (H1 : length b = 40%nat) by reflexivity.
  assert (H2 : (19 <? b !!! 23%nat) = true) by reflexivity.
  assert (H3 : field_value b 8 15 <> 16384) by (vm_compute; discriminate).
  assert (H4 : field_value b 0 8 = byte_sum (field_value b 24 16) (field_value b 8 16))
    by (vm_compute; reflexivity).
  repeat (split; [assumption|]).
  exact (sign_set_frames_rejected b zero_data H1 H2 H3 H4).
Defined.

Lemma field_value_split b lo n m :
  field_value b lo (n + m)
  = field_value b lo n + 2 ^ Z.of_nat n * field_value b (lo + n) m.
Proof.
  induction m as [|m IH].
  - rewrite Nat.add_0_r. cbn [field_value]. lia.
  - rewrite Nat.add_succ_r. cbn [field_value]. rewrite IH.
    rewrite Nat2Z.inj_add, Z.pow_add_r by lia.
    rewrite (Nat.add_assoc lo n m). lia.
Qed.

(** The byte sum of the two 16-bit fields is the sum of the four bytes of
    the frame. *)
Lemma byte_sum_of_fields b :
  byte_sum (field_value b 24 16) (field_value b 8 16)
  = (field_value b 32 8 + field_value b 24 8 + field_value b 16 8 + field_value b 8 8)
    mod 256.
Proof.
  unfold byte_sum.
  pose proof (field_value_split b 24 8 8) as S1.
  pose proof (field_value_split b 8 8 8) as S2.
  change (8 + 8)%nat with 16%nat in S1, S2. rewrite S1, S2. clear S1 S2.
  change (2 ^ Z.of_nat 8) with 256. change (24 + 8)%nat with 32%nat.
  pose proof (field_value_bounds b 32 8) as H1.
  pose proof (field_value_bounds b 24 8) as H2.
  pose proof (field_value_bounds b 16 8) as H3.
  pose proof (field_value_bounds b 8 8) as H4.
  change (2 ^ Z.of_nat 8) with 256 in *.
  set (a := field_value b 32 8) in *. set (c := field_value b 24 8) in *.
  set (e := field_value b 16 8) in *. set (f := field_value b 8 8) in *.
  assert (Hd1 : (c + 256 * a) / 256 = a) by (symmetry; apply (Z.div_unique _ _ _ c); lia).
  assert (Hm1 : (c + 256 * a) mod 256 = c) by (symmetry; apply (Z.mod_unique _ _ a); lia).
  assert (Hd2 : (f + 256 * e) / 256 = e) by (symmetry; apply (Z.div_unique _ _ _ f); lia).
  assert (Hm2 : (f + 256 * e) mod 256 = f) by (symmetry; apply (Z.mod_unique _ _ e); lia).
  rewrite Hd1, Hm1, Hd2, Hm2.
  rewrite (Z.mod_small a), (Z.mod_small e) by lia. reflexivity.
Qed.

(** Writing one count moves the value of a field by that bit, up or
    down, if the count lies in the field. *)
Lemma field_value_insert (b : list Z) i d lo n :
  (i < length b)%nat ->
  field_value (<[i := d]> b) lo n
  = field_value b lo n
    + (if decide (lo <= i < lo + n)%nat
       then (resolve_bit d - resolve_bit (b !!! i)) * 2 ^ Z.of_nat (i - lo)
       else 0).
Proof.
  intros Hi. induction n as [|n IH].
  - cbn [field_value]. case_decide; lia.
  - cbn [field_value]. rewrite IH.
    destruct (decide (i = lo + n)%nat) as [-> | Hne].
    + rewrite list_lookup_total_insert_eq by exact Hi.
      replace (lo + n - lo)%nat with n by lia.
      repeat case_decide; lia.
    + rewrite list_lookup_total_insert_ne by congruence.
      repeat case_decide; lia.
Qed.

Lemma pow2_byte_bit (j : nat) : (j < 8)%nat -> 1 <= 2 ^ Z.of_nat j <= 128.
Proof.
  intros Hj. split.
  - assert (0 < 2 ^ Z.of_nat j) by (apply Z.pow_pos_nonneg; lia). lia.
  - change 128 with (2 ^ 7). apply Z.pow_le_mono_r; lia.
Qed.

(** X7. Error detection: in an accepted frame of 40 counts with the sign
    bit clear, one count taken across the threshold, at any index but the
    sign bit's, gets the frame rejected. *)
Theorem single_bit_error_detected (b : list Z) (o : dht_data_t) (i : nat) (d : Z) :
  length b = 40%nat ->
  (i < 40)%nat -> i <> 23%nat ->
  (19 <? b !!! 23%nat) = false ->
  fst (dhtProcessRawData b o) = DHT_OK ->
  (19 <? d) <> (19 <? b !!! i) ->
  dhtProcessRawData (<[i := d]> b) o = (DHT_INVALID_CHECKSUM, o).
Proof.
  intros Hlen Hi H23 Hs Hok Hflip.
  assert (Hs' : (19 <? <[i := d]> b !!! 23%nat) = false)
    by (rewrite list_lookup_total_insert_ne by exact H23; exact Hs).
  assert (Hlen' : length (<[i := d]> b) = 40%nat) by now rewrite length_insert.
  destruct (checksum_test_sign_clear b o Hlen Hs) as [_ [Hsum _]].
  specialize (Hsum Hok).
  assert (Hrej : fst (dhtProcessRawData (<[i := d]> b) o) = DHT_INVALID_CHECKSUM).
  { apply (checksum_test_sign_clear _ o Hlen' Hs').
    rewrite byte_sum_of_fields in *.
    rewrite !(field_value_insert b i d) by lia.
    assert (Hdelta : resolve_bit d - resolve_bit (b !!! i) = 1
                     \/ resolve_bit d - resolve_bit (b !!! i) = -1).
    { unfold resolve_bit. destruct (19 <? d), (19 <? b !!! i); try congruence; lia. }
    pose proof (field_value_bounds (<[i := d]> b) 0 8) as B0.
    pose proof (field_value_bounds (<[i := d]> b) 8 8) as B1.
    pose proof (field_value_bounds (<[i := d]> b) 16 8) as B2.
    pose proof (field_value_bounds (<[i := d]> b) 24 8) as B3.
    pose proof (field_value_bounds (<[i := d]> b) 32 8) as B4.
    rewrite !(field_value_insert b i d) in B0, B1, B2, B3, B4 by lia.
    pose proof (field_value_bounds b 0 8) as C0.
    change (2 ^ Z.of_nat 8) with 256 in *.
    revert Hsum B0 B1 B2 B3 B4 C0.
    generalize (field_value b 0 8), (field_value b 8 8), (field_value b 16 8),
               (field_value b 24 8), (field_value b 32 8).
    intros c f e g a Hsum B0 B1 B2 B3 B4 C0.
    assert (Hcase : (i < 8 \/ 8 <= i < 16 \/ 16 <= i < 24 \/ 24 <= i < 32 \/ 32 <= i < 40)%nat)
      by lia.
    destruct Hcase as [Hc | [Hc | [Hc | [Hc | Hc]]]];
      repeat case_decide; try lia;
      match goal with
      | |- context [2 ^ Z.of_nat ?j] =>
          pose proof (pow2_byte_bit j ltac:(lia)) as Hp;
          revert Hp; generalize (2 ^ Z.of_nat j); intros p Hp
      end;
      subst c;
      destruct Hdelta as [-> | ->]; intros Heq;
      apply (f_equal (fun z => z mod 256)) in Heq || idtac;
      revert Heq; rewrite ?Z.add_0_r in *;
      Z.div_mod_to_equations; lia. }
  destruct (dhtProcessRawData (<[i := d]> b) o) as [r o'] eqn:Hdec.
  cbn in Hrej. subst r. f_equal.
  apply (decode_rejected_untouched _ o _ _ Hdec). discriminate.
Qed.

Lemma single_bit_error_detected_witness :
  length scenario_frame = 40%nat /\
  (30 < 40)%nat /\ 30%nat <> 23%nat /\
  (19 <? scenario_frame !!! 23%nat) = false /\
  fst (dhtProcessRawData scenario_frame zero_data) = DHT_OK /\
  (19 <? 25) <> (19 <? scenario_frame !!! 30%nat) /\
  dhtProcessRawData (<[30%nat := 25]> scenario_frame) zero_data
  = (DHT_INVALID_CHECKSUM, zero_data).
Proof.
  assert (H1 : length scenario_frame = 40%nat) by reflexivity.
  assert (H2 : (30 < 40)%nat) by lia.
  assert (H3 : 30%nat <> 23%nat) by lia.
  assert (H4 : (19 <? scenario_frame !!! 23%nat) = false) by reflexivity.
  assert (H5 : fst (dhtProcessRawData scenario_frame zero_data) = DHT_OK)
    by (vm_compute; reflexivity).
  assert (H6 : (19 <? 25) <> (19 <? scenario_frame !!! 30%nat))
    by (vm_compute; discriminate).
  repeat (split; [assumption|]).
  exact (single_bit_error_detected scenario_frame zero_data 30 25 H1 H2 H3 H4 H5 H6).
Defined.

Lemma accumulate_bounds b lo n :
  (Z.of_nat (S n) <= 32) ->
  0 <= accumulate b (Z.of_nat lo) (S n) (Z.of_nat lo + Z.of_nat n) 0 < 2 ^ 32.
Proof.
  intros Hn. rewrite accumulate_value by exact Hn.
  pose proof (field_value_bounds b lo (S n)) as Hb.
  assert (2 ^ Z.of_nat (S n) <= 2 ^ 32) by (apply Z.pow_le_mono_r; lia). lia.
Qed.

(** X8. What an accepted frame leaves in the measurement, for every
    frame of 40 counts, sign bit set or not: six 16-bit values, the
    humidity fraction one digit, the two temperature fractions below
    100. *)
Theorem accepted_measurement_ranges (b : list Z) (o : dht_data_t) :
  length b = 40%nat ->
  fst (dhtProcessRawData b o) = DHT_OK ->
  let m := snd (dhtProcessRawData b o) in
  0 <= rhFraction m < 10 /\ 0 <= csTempFraction m < 100 /\ 0 <= faTempFraction m < 100 /\
  0 <= rhWhole m < 2 ^ 16 /\ 0 <= csTempWhole m < 2 ^ 16 /\ 0 <= faTempWhole m < 2 ^ 16.
Proof.
  intros _. unfold dhtProcessRawData.
  change (accumulate b 24 16 39 0)
    with (accumulate b (Z.of_nat 24) 16 (Z.of_nat 24 + Z.of_nat 15) 0).
  change (accumulate b 8 15 22 0)
    with (accumulate b (Z.of_nat 8) 15 (Z.of_nat 8 + Z.of_nat 14) 0).
  change (accumulate b 0 8 7 0)
    with (accumulate b (Z.of_nat 0) 8 (Z.of_nat 0 + Z.of_nat 7) 0).
  pose proof (accumulate_bounds b 24 15 ltac:(lia)) as Hrh.
  pose proof (accumulate_bounds b 8 14 ltac:(lia)) as Hmag.
  revert Hrh Hmag.
  generalize (accumulate b (Z.of_nat 24) 16 (Z.of_nat 24 + Z.of_nat 15) 0),
             (accumulate b (Z.of_nat 8) 15 (Z.of_nat 8 + Z.of_nat 14) 0),
             (accumulate b (Z.of_nat 0) 8 (Z.of_nat 0 + Z.of_nat 7) 0).
  intros rh mag checksum Hrh Hmag. cbv zeta.
  set (temp := if 19 <? b !!! 23%nat then uint32 (mag * uint32 (-1)) else mag).
  assert (Htemp : 0 <= temp < 2 ^ 32).
  { unfold temp. destruct (19 <? b !!! 23%nat); [|exact Hmag].
    unfold uint32 at 1. apply Z.mod_pos_bound. lia. }
  match goal with |- context [negb ?t] => destruct (negb t) end;
    cbn [fst snd]; [discriminate|]. intros _.
  cbn [rhWhole rhFraction csTempWhole csTempFraction faTempWhole faTempFraction].
  assert (H16 : forall z, 0 <= uint16 z < 2 ^ 16)
    by (intros z; unfold uint16; apply Z.mod_pos_bound; lia).
  assert (H32 : forall z, 0 <= uint32 z < 2 ^ 32)
    by (intros z; unfold uint32; apply Z.mod_pos_bound; lia).
  assert (Hrem : forall z k, 0 <= z -> 0 < k <= 100 -> 0 <= uint16 (Z.rem z k) < k).
  { intros z k Hz Hk. rewrite Z.rem_mod_nonneg by lia.
    pose proof (Z.mod_pos_bound z k ltac:(lia)).
    unfold uint16. rewrite Z.mod_small; lia. }
  repeat split; try apply H16; try (apply Hrem; [|lia]); try lia;
    try (apply H32).
Qed.

Lemma accepted_measurement_ranges_witness :
  let b := frame_of 10 30 653 (0x8000 + 1) 0x8D in
  length b = 40%nat /\
  fst (dhtProcessRawData b zero_data) = DHT_OK /\
  let m := snd (dhtProcessRawData b zero_data) in
  0 <= rhFraction m < 10 /\ 0 <= csTempFraction m < 100 /\ 0 <= faTempFraction m < 100 /\
  0 <= rhWhole m < 2 ^ 16 /\ 0 <= csTempWhole m < 2 ^ 16 /\ 0 <= faTempWhole m < 2 ^ 16.
Proof.
  intros b.
  assert (H1 : length b = 40%nat) by reflexivity.
  assert (H2 : fst (dhtProcessRawData b zero_data) = DHT_OK) by (vm_compute; reflexivity).
  split; [exact H1|]. split; [exact H2|].
  exact (accepted_measurement_ranges b zero_data H1 H2).
Defined.

(** ** Further properties of the protocol engine *)

Lemma staysb_spec l level n : forall pos,
  staysb l level pos n = true -> stays l level pos n.
Proof.
  induction n as [|n IH]; intros pos H; [apply stays_0|].
  cbn [staysb] in H. apply andb_prop in H as [H0 Hn].
  apply stays_S; [now apply Z.eqb_eq | now apply IH].
Qed.

Lemma stays_tail l level pos n :
  stays l level pos (S n) -> stays l level (S pos) n.
Proof. intros H k Hk. rewrite Nat.add_succ_comm. apply H. lia. Qed.

Lemma stays_first l level pos n : (1 <= n)%nat -> stays l level pos n -> l pos = level.
Proof. intros Hn H. rewrite <- (Nat.add_0_r pos). apply H. lia. Qed.

Lemma data_wave_low l pos runs : data_wave l pos runs = true -> l pos = DHT_LOW.
Proof.
  destruct runs as [|[lo hi] rest]; cbn [data_wave]; intros H.
  - now apply Z.eqb_eq.
  - repeat (apply andb_prop in H as [H ?]).
    apply (stays_first l DHT_LOW pos lo); [now apply Nat.leb_le | now apply staysb_spec].
Qed.

(** From the sample after the first low one of a bit, a phase of [n]
    samples at [level] that another level ends is left after [n - 1]. *)
Lemma phase_leaves l level pos n :
  (1 <= n)%nat -> stays l level pos n -> l (pos + n)%nat <> level ->
  leaves_at l level (S pos) (n - 1).
Proof.
  intros Hn Hs Hend. destruct n as [|n]; [lia|].
  replace (S n - 1)%nat with n by lia. split.
  - now apply stays_tail.
  - now replace (S pos + n)%nat with (pos + S n)%nat by lia.
Qed.

(** The bit loop on a data wave stores the lengths of the high phases. *)
Lemma data_wave_acquisition l : forall runs i p b,
  data_wave l p runs = true -> length runs = (40 - i)%nat -> (i <= 40)%nat ->
  acquisition l i (S p) b DHT_OK (store_counts b i runs).
Proof.
  induction runs as [|[lo hi] rest IH]; intros i p b Hw Hlen Hi.
  - cbn [length] in Hlen. replace i with 40%nat by lia. apply acq_done.
  - cbn [length] in Hlen. cbn [data_wave] in Hw.
    apply andb_prop in Hw as [Hw Hrest]. apply andb_prop in Hw as [Hw Hhigh].
    apply andb_prop in Hw as [Hw Hlow]. apply andb_prop in Hw as [Hw Hhi70].
    apply andb_prop in Hw as [Hw Hhi1]. apply andb_prop in Hw as [Hlo1 Hlo50].
    apply Nat.leb_le in Hlo1, Hlo50, Hhi1, Hhi70.
    apply staysb_spec in Hlow, Hhigh.
    pose proof (data_wave_low _ _ _ Hrest) as Hend.
    assert (Hup : l (p + lo)%nat = DHT_HIGH) by (apply (stays_first _ _ _ hi); assumption).
    cbn [store_counts].
    apply (acq_bit l i (S p) b (lo - 1) (hi - 1)); [lia | lia | | lia | |].
    + apply phase_leaves; [lia | exact Hlow |]. rewrite Hup. discriminate.
    + replace (S p + (lo - 1) + 1)%nat with (S (p + lo)) by lia.
      apply phase_leaves; [lia | exact Hhigh |].
      replace (p + lo + hi)%nat with (p + lo + hi)%nat by lia.
      rewrite Hend. discriminate.
    + replace (hi - 1 + 1)%nat with hi by lia.
      replace (S p + (lo - 1) + 1 + (hi - 1) + 1)%nat with (S (p + lo + hi)) by lia.
      apply IH; [exact Hrest | lia | lia].
Qed.

Lemma store_counts_rev : forall runs i b,
  length b = 40%nat -> length runs = (40 - i)%nat -> (i <= 40)%nat ->
  store_counts b i runs = counts_of runs ++ drop (40 - i) b.
Proof.
  unfold counts_of.
  induction runs as [|[lo hi] rest IH]; intros i b Hb Hlen Hi; cbn [length] in Hlen.
  - cbn. replace (40 - i)%nat with 0%nat by lia. reflexivity.
  - cbn [store_counts map rev snd].
    rewrite IH by (rewrite ?length_insert; lia).
    rewrite <- app_assoc. f_equal. cbn [app].
    replace (40 - S i)%nat with (39 - i)%nat by lia.
    rewrite (drop_S (<[(39 - i)%nat := Z.of_nat hi]> b) (Z.of_nat hi) (39 - i))
      by (apply list_lookup_insert_eq; lia).
    rewrite drop_insert_lt by lia.
    now replace (S (39 - i)) with (40 - i)%nat by lia.
Qed.

(** With its four driver calls answered [ESP_OK] the engine comes to the
    sampling part, one 10 ms delay later. *)
Lemma dhtReadRawData_start hz pDht d b w :
  mem w !! pDht = Some (BDht d) ->
  (forall k, (k < 4)%nat -> gpio_ret w (k + gpio_calls w)%nat = ESP_OK) ->
  dhtReadRawData hz pDht b w = sample_line pDht b (after_start hz w).
Proof.
  intros Hd Hok.
  pose proof (Hok 0%nat ltac:(lia)) as H0. pose proof (Hok 1%nat ltac:(lia)) as H1.
  pose proof (Hok 2%nat ltac:(lia)) as H2. pose proof (Hok 3%nat ltac:(lia)) as H3.
  cbn [Nat.add] in H0, H1, H2, H3.
  unfold dhtReadRawData, gpio_set_direction, gpio_set_level.
  rewrite (bind_eq _ _ _ _ _ (load_dht_eq _ _ _ Hd)).
  erewrite bind_eq by reflexivity. rewrite H0. cbn [negb Z.eqb ESP_OK].
  erewrite bind_eq by (apply load_dht_eq; exact Hd).
  erewrite bind_eq by reflexivity. cbn [gpio_ret gpio_calls]. rewrite H1.
  cbn [negb Z.eqb ESP_OK].
  erewrite bind_eq by reflexivity.
  erewrite bind_eq by (apply load_dht_eq; exact Hd).
  erewrite bind_eq by reflexivity. cbn [gpio_ret gpio_calls set_tick]. rewrite H2.
  cbn [negb Z.eqb ESP_OK].
  erewrite bind_eq by reflexivity.
  erewrite bind_eq by (apply load_dht_eq; exact Hd).
  erewrite bind_eq by reflexivity. cbn [gpio_ret gpio_calls set_tick]. rewrite H3.
  cbn [negb Z.eqb ESP_OK].
  reflexivity.
Qed.

(** The sampling part on every line. *)
Lemma sample_line_spec pDht d b w :
  mem w !! pDht = Some (BDht d) -> length b = 40%nat ->
  exists r b' m,
    sample_line pDht b w = Some ((r, b'), advance m w) /\
    length b' = 40%nat /\
    sampling (line w) (samples w) b r b'.
Proof.
  intros Hd Hlen. unfold sample_line, wait_while, sampling.
  change (Z.to_nat BEGIN_READ_CYCLE_DHT_LOW) with 80%nat.
  change (Z.to_nat BEGIN_READ_CYCLE_DHT_HIGH) with 80%nat.
  destruct (poll_spec pDht d DHT_LOW 80 0 0 w Hd)
    as [[Hst Heq] | (k & Hk & Hlv & Heq)];
    rewrite (bind_eq _ _ _ _ _ Heq); cbv beta iota.
  { rewrite Z.eqb_refl. exists DHT_SENSOR_DID_NOT_SWITCH_TO_HIGH, b, 80%nat.
    split; [reflexivity|]. split; [exact Hlen|]. left. auto. }
  replace (line w (samples w + k)%nat =? DHT_LOW) with false
    by (symmetry; apply Z.eqb_neq; apply Hlv).
  set (w1 := advance (S k) w).
  assert (Hd1 : mem w1 !! pDht = Some (BDht d)) by exact Hd.
  destruct (poll_spec pDht d DHT_HIGH 80 0 (line w (samples w + k)%nat) w1 Hd1)
    as [[Hst2 Heq2] | (j & Hj & Hlv2 & Heq2)];
    rewrite (bind_eq _ _ _ _ _ Heq2); cbv beta iota.
  { rewrite Z.eqb_refl.
    exists DHT_SENSOR_DID_NOT_SWITCH_TO_LOW, b, (80 + S k)%nat.
    unfold w1. rewrite advance_advance. split; [reflexivity|]. split; [exact Hlen|].
    right. left. exists k. repeat split; try assumption; try apply Hlv.
    apply (stays_shift _ _ (samples w1)); [cbn; lia | exact Hst2]. }
  replace (line w1 (samples w1 + j)%nat =? DHT_HIGH) with false
    by (symmetry; apply Z.eqb_neq; apply Hlv2).
  set (w2 := advance (S j) w1).
  assert (Hd2 : mem w2 !! pDht = Some (BDht d)) by exact Hd.
  destruct (read_bits_spec pDht d 40 (line w1 (samples w1 + j)%nat) b w2 Hd2
              ltac:(lia) Hlen) as (r & b' & m & Hrun & Hacq & Hlen').
  change (Z.of_nat (40 - 40)) with 0 in Hrun. change (40 - 40)%nat with 0%nat in Hacq.
  exists r, b', (m + S j + S k)%nat. split; [|split; [exact Hlen'|]].
  - rewrite Hrun. unfold w2, w1. now rewrite !advance_advance.
  - right. right. exists k, j. repeat split; try assumption; try apply Hlv.
    + apply (stays_shift _ _ (samples w1)); [cbn; lia | apply Hlv2].
    + replace (samples w + k + 1 + j)%nat with (samples w1 + j)%nat by (cbn; lia).
      apply Hlv2.
    + replace (samples w + k + 1 + j + 1)%nat with (samples w2) by (cbn; lia).
      exact Hacq.
Qed.

Lemma sampling_functional l pos b r1 b1 r2 b2 :
  sampling l pos b r1 b1 -> sampling l pos b r2 b2 -> r2 = r1 /\ b2 = b1.
Proof.
  unfold sampling.
  intros [(S1 & -> & ->) | [(k1 & Hk1 & L1 & S1 & -> & ->)
                           | (k1 & j1 & Hk1 & L1 & Hj1 & M1 & A1)]]
         [(S2 & -> & ->) | [(k2 & Hk2 & L2 & S2 & -> & ->)
                           | (k2 & j2 & Hk2 & L2 & Hj2 & M2 & A2)]];
    try (split; reflexivity).
  all: repeat match goal with
       | H1 : leaves_at ?f ?lv ?p ?k1, H2 : leaves_at ?f ?lv ?p ?k2 |- _ =>
           tryif constr_eq k1 k2 then fail
           else (pose proof (leaves_at_unique _ _ _ _ _ H1 H2); subst k2)
       end.
  all: try match goal with
       | H1 : leaves_at ?f ?lv ?p ?k, Hk : (?k < ?n)%nat, Hs : stays ?f ?lv ?p ?n |- _ =>
           exfalso; exact (leaves_at_not_stays _ _ _ _ _ H1 Hk Hs)
       end.
  exact (acquisition_functional _ _ _ _ _ _ A1 _ _ A2).
Qed.

(** The engine when its [k]-th driver call is the first to fail. *)
Lemma gpio_failure_run hz pDht d b w k :
  mem w !! pDht = Some (BDht d) ->
  (k < 4)%nat ->
  (forall k', (k' < k)%nat -> gpio_ret w (k' + gpio_calls w)%nat = ESP_OK) ->
  gpio_ret w (k + gpio_calls w)%nat <> ESP_OK ->
  exists w',
    dhtReadRawData hz pDht b w = Some ((gpio_failure_result k, b), w') /\
    samples w' = samples w /\ mem w' = mem w /\
    gpio_calls w' = (S k + gpio_calls w)%nat.
Proof.
  intros Hd Hk Hok Hbad.
  assert (Hne : forall e, e <> ESP_OK -> negb (e =? ESP_OK) = true)
    by (intros e He; apply negb_true_iff, Z.eqb_neq, He).
  unfold dhtReadRawData, gpio_set_direction, gpio_set_level.
  rewrite (bind_eq _ _ _ _ _ (load_dht_eq _ _ _ Hd)).
  erewrite bind_eq by reflexivity.
  destruct k as [|k].
  { cbn [Nat.add] in Hbad. rewrite (Hne _ Hbad). eexists. split; [reflexivity|]. auto. }
  pose proof (Hok 0%nat ltac:(lia)) as H0. cbn [Nat.add] in H0.
  rewrite H0. cbn [negb Z.eqb ESP_OK].
  erewrite bind_eq by (apply load_dht_eq; exact Hd).
  erewrite bind_eq by reflexivity. cbn [gpio_ret gpio_calls].
  destruct k as [|k].
  { cbn [Nat.add] in Hbad. rewrite (Hne _ Hbad). eexists. split; [reflexivity|]. auto. }
  pose proof (Hok 1%nat ltac:(lia)) as H1. cbn [Nat.add] in H1.
  rewrite H1. cbn [negb Z.eqb ESP_OK].
  erewrite bind_eq by reflexivity.
  erewrite bind_eq by (apply load_dht_eq; exact Hd).
  erewrite bind_eq by reflexivity. cbn [gpio_ret gpio_calls set_tick].
  destruct k as [|k].
  { cbn [Nat.add] in Hbad. rewrite (Hne _ Hbad). eexists. split; [reflexivity|]. auto. }
  pose proof (Hok 2%nat ltac:(lia)) as H2. cbn [Nat.add] in H2.
  rewrite H2. cbn [negb Z.eqb ESP_OK].
  erewrite bind_eq by reflexivity.
  erewrite bind_eq by (apply load_dht_eq; exact Hd).
  erewrite bind_eq by reflexivity. cbn [gpio_ret gpio_calls set_tick].
  destruct k as [|k]; [|lia].
  cbn [Nat.add] in Hbad. rewrite (Hne _ Hbad). eexists. split; [reflexivity|]. auto.
Qed.

Lemma first_gpio_failure (g : nat -> Z) (c : nat) :
  (forall k, (k < 4)%nat -> g (k + c)%nat = ESP_OK)
  \/ exists k, (k < 4)%nat /\ (forall k', (k' < k)%nat -> g (k' + c)%nat = ESP_OK)
               /\ g (k + c)%nat <> ESP_OK.
Proof.
  destruct (decide (g (0 + c)%nat = ESP_OK)) as [H0|H0];
    [|right; exists 0%nat; repeat split; [lia | intros; lia | exact H0]].
  destruct (decide (g (1 + c)%nat = ESP_OK)) as [H1|H1];
    [|right; exists 1%nat; repeat split; [lia | | exact H1];
      intros k' Hk'; replace k' with 0%nat by lia; exact H0].
  destruct (decide (g (2 + c)%nat = ESP_OK)) as [H2|H2];
    [|right; exists 2%nat; repeat split; [lia | | exact H2];
      intros k' Hk'; destruct k' as [|[|k']]; [exact H0 | exact H1 | lia]].
  destruct (decide (g (3 + c)%nat = ESP_OK)) as [H3|H3];
    [|right; exists 3%nat; repeat split; [lia | | exact H3];
      intros k' Hk'; destruct k' as [|[|[|k']]]; [exact H0 | exact H1 | exact H2 | lia]].
  left. intros k Hk. destruct k as [|[|[|[|k]]]]; [assumption.. | lia].
Qed.

(** The counts of a frame the bit loop completes. *)
Lemma acquisition_counts l i pos b r b' :
  acquisition l i pos b r b' -> r = DHT_OK -> length b = 40%nat ->
  forall idx, (idx < 40)%nat ->
    ((idx + i < 40)%nat -> 1 <= b' !!! idx <= 70) /\
    ((40 <= idx + i)%nat -> b' !!! idx = b !!! idx).
Proof.
  induction 1 as [pos b | i pos b Hi Hst | i pos b k Hi Hk Hlv Hst
                  | i pos b k j r b' Hi Hk Hlv Hj Hlv2 Hrest IH];
    intros Hr Hlen idx Hidx; try discriminate.
  - split; [lia | reflexivity].
  - specialize (IH Hr ltac:(now rewrite length_insert) idx Hidx) as [IHin IHout].
    split.
    + intros Hin. destruct (decide (idx + S i < 40)%nat) as [Hlt | Hge];
        [now apply IHin|].
      rewrite IHout by lia. replace idx with (39 - i)%nat by lia.
      rewrite list_lookup_total_insert_eq by lia. lia.
    + intros Hout. rewrite IHout by lia.
      apply list_lookup_total_insert_ne. lia.
Qed.

Lemma driver_ok_spec w n :
  driver_ok w n = true ->
  forall k, (k < n)%nat -> gpio_ret w (k + gpio_calls w)%nat = ESP_OK.
Proof.
  unfold driver_ok. intros H k Hk. rewrite forallb_forall in H.
  apply Z.eqb_eq, H, in_seq. lia.
Qed.

(** X9. The GPIO driver failing: when the [k]-th of the engine's four
    driver calls is the first not to return [ESP_OK], the read ends with
    [DHT_FAILED_TO_SET_PIN_DIRECTION] (k = 0 or 3) or
    [DHT_FAILED_TO_SET_PIN_LEVEL] (k = 1 or 2) after [k + 1] driver calls;
    the line is never sampled, and the buffer and the heap are as before. *)
Theorem raw_read_gpio_failure (hz pDht : Z) (d : dht_t) (b : list Z) (w : world) (k : nat) :
  mem w !! pDht = Some (BDht d) ->
  (k < 4)%nat ->
  driver_ok w k = true ->
  gpio_ret w (k + gpio_calls w)%nat <> ESP_OK ->
  exists w',
    dhtReadRawData hz pDht b w = Some ((gpio_failure_result k, b), w') /\
    samples w' = samples w /\ mem w' = mem w /\
    gpio_calls w' = (S k + gpio_calls w)%nat.
Proof.
  intros Hd Hk Hok Hbad.
  exact (gpio_failure_run hz pDht d b w k Hd Hk (driver_ok_spec w k Hok) Hbad).
Qed.

Lemma raw_read_gpio_failure_witness :
  let w := ready_with (gpio_failing_at 3) (sensor_wave scenario_frame) 200 in
  mem w !! 1001 = Some (BDht bench_handle) /\
  (2 < 4)%nat /\
  driver_ok w 2 = true /\
  gpio_ret w (2 + gpio_calls w)%nat <> ESP_OK /\
  exists w',
    dhtReadRawData esp8266_tick_rate 1001 (replicate 40 0) w
    = Some ((gpio_failure_result 2, replicate 40 0), w') /\
    samples w' = samples w /\ mem w' = mem w /\
    gpio_calls w' = (3 + gpio_calls w)%nat.
Proof.
  intros w.
  assert (H1 : mem w !! 1001 = Some (BDht bench_handle)) by (vm_compute; reflexivity).
  assert (H2 : (2 < 4)%nat) by lia.
  assert (H3 : driver_ok w 2 = true) by (vm_compute; reflexivity).
  assert (H4 : gpio_ret w (2 + gpio_calls w)%nat <> ESP_OK) by (vm_compute; discriminate).
  repeat (split; [assumption|]).
  exact (raw_read_gpio_failure esp8266_tick_rate 1001 bench_handle (replicate 40 0) w 2
           H1 H2 H3 H4).
Defined.

(** The engine on every line, the driver calls answered [ESP_OK]. *)
Lemma raw_read_sampling (hz pDht : Z) (d : dht_t) (b : list Z) (w : world) :
  mem w !! pDht = Some (BDht d) ->
  length b = 40%nat ->
  driver_ok w 4 = true ->
  exists r b' w',
    dhtReadRawData hz pDht b w = Some ((r, b'), w') /\
    mem w' = mem w /\ length b' = 40%nat /\
    sampling (line w) (samples w) b r b' /\
    (forall r2 b2, sampling (line w) (samples w) b r2 b2 -> r2 = r /\ b2 = b').
Proof.
  intros Hd Hlen Hok.
  rewrite (dhtReadRawData_start hz pDht d b w Hd (driver_ok_spec w 4 Hok)).
  destruct (sample_line_spec pDht d b (after_start hz w) Hd Hlen)
    as (r & b' & m & Hrun & Hlen' & Hs).
  exists r, b', (advance m (after_start hz w)).
  split; [exact Hrun|]. split; [reflexivity|]. split; [exact Hlen'|].
  split; [exact Hs|]. intros r2 b2 H2. exact (sampling_functional _ _ _ _ _ _ _ Hs H2).
Qed.

(** X10. The engine on every line, the driver calls answered [ESP_OK]:
    80 samples at low end the read with
    [DHT_SENSOR_DID_NOT_SWITCH_TO_HIGH], 80 samples at high after that with
    [DHT_SENSOR_DID_NOT_SWITCH_TO_LOW], both with the buffer as it was;
    otherwise the result and the frame are the bit loop's, from the sample
    after the one that ended the response.  The read returns, the heap is
    as before, and no other result or frame fits the line. *)
Theorem raw_read_on_every_line (hz pDht : Z) (d : dht_t) (b : list Z) (w : world) :
  mem w !! pDht = Some (BDht d) ->
  length b = 40%nat ->
  driver_ok w 4 = true ->
  exists r b' w',
    dhtReadRawData hz pDht b w = Some ((r, b'), w') /\
    mem w' = mem w /\ length b' = 40%nat /\
    sampling (line w) (samples w) b r b' /\
    (forall r2 b2, sampling (line w) (samples w) b r2 b2 -> r2 = r /\ b2 = b').
Proof. apply raw_read_sampling. Qed.

Lemma raw_read_on_every_line_witness :
  let w := ready [] 200 in
  mem w !! 1001 = Some (BDht bench_handle) /\
  length (replicate 40 0) = 40%nat /\
  driver_ok w 4 = true /\
  exists r b' w',
    dhtReadRawData esp8266_tick_rate 1001 (replicate 40 0) w = Some ((r, b'), w') /\
    mem w' = mem w /\ length b' = 40%nat /\
    sampling (line w) (samples w) (replicate 40 0) r b' /\
    (forall r2 b2, sampling (line w) (samples w) (replicate 40 0) r2 b2 ->
                   r2 = r /\ b2 = b').
Proof.
  intros w.
  assert (H1 : mem w !! 1001 = Some (BDht bench_handle)) by (vm_compute; reflexivity).
  assert (H2 : length (replicate 40 0) = 40%nat) by reflexivity.
  assert (H3 : driver_ok w 4 = true) by (vm_compute; reflexivity).
  repeat (split; [assumption|]).
  exact (raw_read_on_every_line esp8266_tick_rate 1001 bench_handle (replicate 40 0) w
           H1 H2 H3).
Defined.


(** The engine on an answer of the sensor. *)
Lemma raw_read_answer (hz pDht : Z) (d : dht_t) (b : list Z) (w : world)
    (rl rh : nat) (runs : list (nat * nat)) :
  mem w !! pDht = Some (BDht d) ->
  length b = 40%nat ->
  driver_ok w 4 = true ->
  length runs = 40%nat ->
  sensor_answer (line w) (samples w) rl rh runs = true ->
  exists w',
    dhtReadRawData hz pDht b w = Some ((DHT_OK, counts_of runs), w') /\
    mem w' = mem w.
Proof.
  intros Hd Hlen Hok Hruns Hans.
  destruct (raw_read_sampling hz pDht d b w Hd Hlen Hok)
    as (r & b' & w' & Hrun & Hmem & _ & _ & Huniq).
  unfold sensor_answer in Hans.
  apply andb_prop in Hans as [Hans Hwave]. apply andb_prop in Hans as [Hans Hhigh].
  apply andb_prop in Hans as [Hans Hlow]. apply andb_prop in Hans as [Hans Hrh80].
  apply andb_prop in Hans as [Hrl Hrh1].
  apply Nat.ltb_lt in Hrl. apply Nat.leb_le in Hrh1, Hrh80.
  apply staysb_spec in Hlow, Hhigh.
  pose proof (data_wave_low _ _ _ Hwave) as Hend.
  set (l := line w) in *. set (pos := samples w) in *.
  assert (Hup : l (pos + rl)%nat = DHT_HIGH) by (apply (stays_first _ _ _ rh); assumption).
  assert (Hs : sampling l pos b DHT_OK (counts_of runs)).
  { right. right. exists rl, (rh - 1)%nat. split; [exact Hrl|]. split.
    - split; [exact Hlow|]. rewrite Hup. discriminate.
    - split; [lia|]. split.
      + replace (pos + rl + 1)%nat with (S (pos + rl)) by lia.
        apply phase_leaves; [lia | exact Hhigh |]. rewrite Hend. discriminate.
      + replace (pos + rl + 1 + (rh - 1) + 1)%nat with (S (pos + rl + rh)) by lia.
        pose proof (data_wave_acquisition l runs 0 (pos + rl + rh) b Hwave
                      ltac:(rewrite Hruns; reflexivity) ltac:(lia)) as Hacq.
        rewrite (store_counts_rev runs 0 b Hlen ltac:(rewrite Hruns; reflexivity)
                   ltac:(lia)) in Hacq.
        rewrite drop_ge, app_nil_r in Hacq by (cbn; lia). exact Hacq. }
  destruct (Huniq _ _ Hs) as [-> ->]. exists w'. auto.
Qed.




(** X12. A frame the engine hands back with [DHT_OK] holds 40 counts,
    each from 1 to 70: every index was written, and no count wraps in its
    byte. *)
Theorem raw_read_counts_in_range (hz pDht : Z) (d : dht_t) (b b' : list Z) (w : world) :
  mem w !! pDht = Some (BDht d) ->
  length b = 40%nat ->
  result_of (dhtReadRawData hz pDht b) w = Some (DHT_OK, b') ->
  length b' = 40%nat /\
  forall idx, (idx < 40)%nat -> 1 <= b' !!! idx <= 70.
Proof.
  intros Hd Hlen Hres. unfold result_of in Hres.
  destruct (dhtReadRawData hz pDht b w) as [[[r0 b0] w']|] eqn:Hrun; [|discriminate].
  cbn in Hres. injection Hres as -> ->.
  destruct (first_gpio_failure (gpio_ret w) (gpio_calls w))
    as [Hok | (k & Hk & Hok & Hbad)].
  - destruct (sample_line_spec pDht d b (after_start hz w) Hd Hlen)
      as (r & b1 & m & Hrun1 & Hlen1 & Hs).
    rewrite <- (dhtReadRawData_start hz pDht d b w Hd Hok) in Hrun1.
    rewrite Hrun in Hrun1. injection Hrun1 as <- <- _.
    split; [exact Hlen1|]. intros idx Hidx.
    destruct Hs as [(_ & Hr & _) | [(k & _ & _ & _ & Hr & _)
                                   | (k & j & _ & _ & _ & _ & Hacq)]];
      try discriminate.
    apply (acquisition_counts _ _ _ _ _ _ Hacq eq_refl Hlen idx Hidx); lia.
  - destruct (gpio_failure_run hz pDht d b w k Hd Hk Hok Hbad) as (w1 & Hrun1 & _).
    rewrite Hrun in Hrun1. exfalso.
    destruct k as [|[|[|[|k]]]]; cbn in Hrun1; discriminate.
Qed.

Lemma raw_read_counts_in_range_witness :
  let w := ready (sensor_wave scenario_frame) 200 in
  mem w !! 1001 = Some (BDht bench_handle) /\
  length (replicate 40 0) = 40%nat /\
  result_of (dhtReadRawData esp8266_tick_rate 1001 (replicate 40 0)) w
  = Some (DHT_OK, scenario_frame) /\
  (length scenario_frame = 40%nat /\
   forall idx, (idx < 40)%nat -> 1 <= scenario_frame !!! idx <= 70).
Proof.
  intros w.
  assert (H1 : mem w !! 1001 = Some (BDht bench_handle)) by (vm_compute; reflexivity).
  assert (H2 : length (replicate 40 0) = 40%nat) by reflexivity.
  assert (H3 : result_of (dhtReadRawData esp8266_tick_rate 1001 (replicate 40 0)) w
               = Some (DHT_OK, scenario_frame)) by (vm_compute; reflexivity).
  do 3 (split; [assumption|]).
  exact (raw_read_counts_in_range esp8266_tick_rate 1001 bench_handle (replicate 40 0)
           scenario_frame w H1 H2 H3).
Defined.

(** ** Further properties of [dhtRead] *)

(** Past the rate check [dhtRead] is the engine, and on [DHT_OK] the
    decoder on the caller's measurement. *)
Lemma dhtRead_open hz pDht outdata d w :
  pDht <> NULL -> outdata <> NULL ->
  mem w !! pDht = Some (BDht d) ->
  pdMS_TO_TICKS hz 2000 <= uint32 (tick w - pc d) ->
  dhtRead hz pDht outdata w =
    ('(result, b) ← dhtReadRawData hz pDht (replicate 40 0);
     if decide (result = DHT_OK) then
       o ← load_data outdata;
       let '(result, o) := dhtProcessRawData b o in
       _ ← store outdata (BData o);
       mret result
     else mret result) w.
Proof.
  intros Hp Ho Hd Hgate. unfold dhtRead.
  replace (pDht =? NULL) with false by (symmetry; now apply Z.eqb_neq).
  replace (outdata =? NULL) with false by (symmetry; now apply Z.eqb_neq).
  rewrite (bind_eq _ _ w (tick w) w eq_refl).
  rewrite (bind_eq _ _ w d w (load_dht_eq _ _ _ Hd)).
  replace (uint32 (tick w - pc d) <? pdMS_TO_TICKS hz 2000) with false
    by (symmetry; apply Z.ltb_ge; exact Hgate).
  reflexivity.
Qed.

(** Before the rate check lets a read through, nothing happens. *)
Lemma dhtRead_closed hz pDht outdata d w :
  pDht <> NULL -> outdata <> NULL ->
  mem w !! pDht = Some (BDht d) ->
  uint32 (tick w - pc d) < pdMS_TO_TICKS hz 2000 ->
  dhtRead hz pDht outdata w = Some (DHT_READ_QUERY_TOO_FREQUENT, w).
Proof.
  intros Hp Ho Hd Hgate. unfold dhtRead.
  replace (pDht =? NULL) with false by (symmetry; now apply Z.eqb_neq).
  replace (outdata =? NULL) with false by (symmetry; now apply Z.eqb_neq).
  rewrite (bind_eq _ _ w (tick w) w eq_refl).
  rewrite (bind_eq _ _ w d w (load_dht_eq _ _ _ Hd)).
  replace (uint32 (tick w - pc d) <? pdMS_TO_TICKS hz 2000) with true
    by (symmetry; apply Z.ltb_lt; exact Hgate).
  reflexivity.
Qed.

Lemma load_data_eq w a o : mem w !! a = Some (BData o) -> load_data a w = Some (o, w).
Proof. intros H. unfold load_data, load, mbind, M_bind. now rewrite H. Qed.

(** When the engine fails, [dhtRead] returns its result and its world. *)
Lemma dhtRead_engine_failed hz pDht outdata d w r b w1 :
  pDht <> NULL -> outdata <> NULL ->
  mem w !! pDht = Some (BDht d) ->
  pdMS_TO_TICKS hz 2000 <= uint32 (tick w - pc d) ->
  dhtReadRawData hz pDht (replicate 40 0) w = Some ((r, b), w1) ->
  r <> DHT_OK ->
  dhtRead hz pDht outdata w = Some (r, w1).
Proof.
  intros Hp Ho Hd Hgate Hraw Hr.
  rewrite (dhtRead_open hz pDht outdata d w Hp Ho Hd Hgate).
  rewrite (bind_eq _ _ _ _ _ Hraw). cbv beta iota.
  destruct (decide (r = DHT_OK)); [contradiction | reflexivity].
Qed.

(** When the engine returns a frame, [dhtRead] returns the decoder's result
    and stores the decoder's measurement. *)
Lemma dhtRead_engine_ok hz pDht outdata d o w b w1 :
  pDht <> NULL -> outdata <> NULL ->
  mem w !! pDht = Some (BDht d) ->
  mem w !! outdata = Some (BData o) ->
  pdMS_TO_TICKS hz 2000 <= uint32 (tick w - pc d) ->
  dhtReadRawData hz pDht (replicate 40 0) w = Some ((DHT_OK, b), w1) ->
  mem w1 = mem w ->
  dhtRead hz pDht outdata w
  = Some (fst (dhtProcessRawData b o),
          set_mem (insert outdata (BData (snd (dhtProcessRawData b o)))) w1).
Proof.
  intros Hp Ho Hd Hout Hgate Hraw Hmem.
  rewrite (dhtRead_open hz pDht outdata d w Hp Ho Hd Hgate).
  rewrite (bind_eq _ _ _ _ _ Hraw). cbv beta iota.
  destruct (decide (DHT_OK = DHT_OK)) as [_|Hne]; [|contradiction].
  assert (Hl : load_data outdata w1 = Some (o, w1))
    by (apply load_data_eq; rewrite Hmem; exact Hout).
  rewrite (bind_eq _ _ _ _ _ Hl).
  destruct (dhtProcessRawData b o) as [r2 o2]. reflexivity.
Qed.

Lemma transmitted_checksum_byte h t : 0 <= transmitted_checksum h t < 2 ^ 8.
Proof. unfold transmitted_checksum. apply Z.mod_pos_bound. lia. Qed.



(** X13. The rate check of [dhtRead] on a live handle: when fewer than
    2000 ms of ticks have passed since [pc] (the difference taken in 32
    bits) the result is [DHT_READ_QUERY_TOO_FREQUENT] and nothing at all has
    happened -- no driver call, no sample, no write; otherwise the read
    returns, and with another result. *)
Theorem dhtRead_rate_check (hz pDht outdata : Z) (d : dht_t) (o : dht_data_t) (w : world) :
  pDht <> NULL -> outdata <> NULL ->
  mem w !! pDht = Some (BDht d) ->
  mem w !! outdata = Some (BData o) ->
  (uint32 (tick w - pc d) < pdMS_TO_TICKS hz 2000 ->
   dhtRead hz pDht outdata w = Some (DHT_READ_QUERY_TOO_FREQUENT, w)) /\
  (pdMS_TO_TICKS hz 2000 <= uint32 (tick w - pc d) ->
   exists r w', dhtRead hz pDht outdata w = Some (r, w') /\
                r <> DHT_READ_QUERY_TOO_FREQUENT).
Proof.
  intros Hp Ho Hd Hout. split.
  - intros Hgate. exact (dhtRead_closed hz pDht outdata d w Hp Ho Hd Hgate).
  - intros Hgate.
    destruct (dhtRead_spec hz pDht outdata d o w Hp Ho Hd Hout)
      as (r & w' & Hrun & Hiff & _).
    exists r, w'. split; [exact Hrun|]. intros Hr. apply Hiff in Hr. lia.
Qed.

Lemma dhtRead_rate_check_witness :
  let w := ready (sensor_wave scenario_frame) 150 in
  1001 <> NULL /\ dhtData_at <> NULL /\
  mem w !! 1001 = Some (BDht bench_handle) /\
  mem w !! dhtData_at = Some (BData zero_data) /\
  (uint32 (tick w - pc bench_handle) < pdMS_TO_TICKS esp8266_tick_rate 2000 ->
   dhtRead esp8266_tick_rate 1001 dhtData_at w = Some (DHT_READ_QUERY_TOO_FREQUENT, w)) /\
  (pdMS_TO_TICKS esp8266_tick_rate 2000 <= uint32 (tick w - pc bench_handle) ->
   exists r w', dhtRead esp8266_tick_rate 1001 dhtData_at w = Some (r, w') /\
                r <> DHT_READ_QUERY_TOO_FREQUENT).
Proof.
  intros w.
  assert (H1 : 1001 <> NULL) by (vm_compute; discriminate).
  assert (H2 : dhtData_at <> NULL) by (vm_compute; discriminate).
  assert (H3 : mem w !! 1001 = Some (BDht bench_handle)) by (vm_compute; reflexivity).
  assert (H4 : mem w !! dhtData_at = Some (BData zero_data)) by (vm_compute; reflexivity).
  do 4 (split; [assumption|]).
  exact (dhtRead_rate_check esp8266_tick_rate 1001 dhtData_at bench_handle zero_data w
           H1 H2 H3 H4).
Defined.

(** X14. What [dhtRead] does to the caller's measurement: on every result
    other than [DHT_OK] the heap is as it was found, the measurement with
    it; on [DHT_OK] the measurement is one the decoder accepted, and the
    rest of the heap is as it was found. *)
Theorem dhtRead_writes_only_on_success
    (hz pDht outdata : Z) (d : dht_t) (o : dht_data_t) (w : world) :
  pDht <> NULL -> outdata <> NULL ->
  mem w !! pDht = Some (BDht d) ->
  mem w !! outdata = Some (BData o) ->
  exists r w',
    dhtRead hz pDht outdata w = Some (r, w') /\
    (r <> DHT_OK -> mem w' = mem w) /\
    (r = DHT_OK ->
     exists b, fst (dhtProcessRawData b o) = DHT_OK /\
               mem w' = <[outdata := BData (snd (dhtProcessRawData b o))]> (mem w)).
Proof.
  intros Hp Ho Hd Hout.
  destruct (Z.lt_ge_cases (uint32 (tick w - pc d)) (pdMS_TO_TICKS hz 2000)) as [Hgate|Hgate].
  { exists DHT_READ_QUERY_TOO_FREQUENT, w.
    split; [exact (dhtRead_closed hz pDht outdata d w Hp Ho Hd Hgate)|].
    split; [reflexivity | discriminate]. }
  destruct (steady_dhtReadRawData pDht d hz (replicate 40 0) eq_refl w Hd)
    as ([r b] & w1 & Hraw & Hmem & _).
  destruct (decide (r = DHT_OK)) as [-> | Hne].
  - rewrite (dhtRead_engine_ok hz pDht outdata d o w b w1 Hp Ho Hd Hout Hgate Hraw Hmem).
    eexists _, _. split; [reflexivity|]. cbn [mem set_mem]. rewrite Hmem. split.
    + intros Hr.
      destruct (dhtProcessRawData b o) as [r2 o2] eqn:Hdec. cbn [fst snd] in *.
      rewrite (decode_rejected_untouched _ _ _ _ Hdec Hr). now apply insert_id.
    + intros Hr. exists b. split; [exact Hr | reflexivity].
  - rewrite (dhtRead_engine_failed hz pDht outdata d w r b w1 Hp Ho Hd Hgate Hraw Hne).
    exists r, w1. split; [reflexivity|]. split; [intros _; exact Hmem | contradiction].
Qed.

Lemma dhtRead_writes_only_on_success_witness :
  let w := ready (sensor_wave scenario_frame) 200 in
  1001 <> NULL /\ dhtData_at <> NULL /\
  mem w !! 1001 = Some (BDht bench_handle) /\
  mem w !! dhtData_at = Some (BData zero_data) /\
  exists r w',
    dhtRead esp8266_tick_rate 1001 dhtData_at w = Some (r, w') /\
    (r <> DHT_OK -> mem w' = mem w) /\
    (r = DHT_OK ->
     exists b, fst (dhtProcessRawData b zero_data) = DHT_OK /\
               mem w' = <[dhtData_at := BData (snd (dhtProcessRawData b zero_data))]> (mem w)).
Proof.
  intros w.
  assert (H1 : 1001 <> NULL) by (vm_compute; discriminate).
  assert (H2 : dhtData_at <> NULL) by (vm_compute; discriminate).
  assert (H3 : mem w !! 1001 = Some (BDht bench_handle)) by (vm_compute; reflexivity).
  assert (H4 : mem w !! dhtData_at = Some (BData zero_data)) by (vm_compute; reflexivity).
  do 4 (split; [assumption|]).
  exact (dhtRead_writes_only_on_success esp8266_tick_rate 1001 dhtData_at bench_handle
           zero_data w H1 H2 H3 H4).
Defined.

(** X15. A read, end to end.  The rate check passed and the driver
    calls answered [ESP_OK], a sensor answer on the line whose 40
    high-phase lengths encode humidity [h] and a temperature [t] at or
    above zero with their checksum makes [dhtRead] return [DHT_OK] and
    leaves §4.4's measurement of [h] and [t] at [outdata], and the rest of
    the heap as it was. *)
Theorem dhtRead_round_trip
    (hz pDht outdata : Z) (d : dht_t) (o : dht_data_t) (w : world)
    (rl rh : nat) (runs : list (nat * nat)) (h t : Z) :
  pDht <> NULL -> outdata <> NULL ->
  mem w !! pDht = Some (BDht d) ->
  mem w !! outdata = Some (BData o) ->
  pdMS_TO_TICKS hz 2000 <= uint32 (tick w - pc d) ->
  driver_ok w 4 = true ->
  length runs = 40%nat ->
  sensor_answer (line w) (samples w) rl rh runs = true ->
  threshold_rule (counts_of runs) h t (transmitted_checksum h t) = true ->
  0 <= h < 2 ^ 16 -> 0 <= t < 2 ^ 15 ->
  exists w',
    dhtRead hz pDht outdata w = Some (DHT_OK, w') /\
    mem w' = <[outdata := BData (measurement_of h t)]> (mem w).
Proof.
  intros Hp Ho Hd Hout Hgate Hok Hruns Hans Hrule Hh Ht.
  destruct (raw_read_answer hz pDht d (replicate 40 0) w rl rh runs Hd eq_refl Hok Hruns Hans)
    as (w1 & Hraw & Hmem).
  rewrite (dhtRead_engine_ok hz pDht outdata d o w _ w1 Hp Ho Hd Hout Hgate Hraw Hmem).
  rewrite (decode_nonneg _ h t _ o Hrule Hh Ht (transmitted_checksum_byte h t)).
  rewrite Z.eqb_refl. cbn [fst snd].
  eexists. split; [reflexivity|]. cbn [mem set_mem]. now rewrite Hmem.
Qed.

Lemma dhtRead_round_trip_witness :
  let w := ready (sensor_wave scenario_frame) 200 in
  1001 <> NULL /\ dhtData_at <> NULL /\
  mem w !! 1001 = Some (BDht bench_handle) /\
  mem w !! dhtData_at = Some (BData zero_data) /\
  pdMS_TO_TICKS esp8266_tick_rate 2000 <= uint32 (tick w - pc bench_handle) /\
  driver_ok w 4 = true /\
  length (runs_of scenario_frame) = 40%nat /\
  sensor_answer (line w) (samples w) 3 3 (runs_of scenario_frame) = true /\
  threshold_rule (counts_of (runs_of scenario_frame)) 653 231
                 (transmitted_checksum 653 231) = true /\
  0 <= 653 < 2 ^ 16 /\ 0 <= 231 < 2 ^ 15 /\
  exists w',
    dhtRead esp8266_tick_rate 1001 dhtData_at w = Some (DHT_OK, w') /\
    mem w' = <[dhtData_at := BData (measurement_of 653 231)]> (mem w).
Proof.
  intros w.
  assert (H1 : 1001 <> NULL) by (vm_compute; discriminate).
  assert (H2 : dhtData_at <> NULL) by (vm_compute; discriminate).
  assert (H3 : mem w !! 1001 = Some (BDht bench_handle)) by (vm_compute; reflexivity).
  assert (H4 : mem w !! dhtData_at = Some (BData zero_data)) by (vm_compute; reflexivity).
  assert (H5 : pdMS_TO_TICKS esp8266_tick_rate 2000 <= uint32 (tick w - pc bench_handle))
    by (vm_compute; discriminate).
  assert (H6 : driver_ok w 4 = true) by (vm_compute; reflexivity).
  assert (H7 : length (runs_of scenario_frame) = 40%nat) by reflexivity.
  assert (H8 : sensor_answer (line w) (samples w) 3 3 (runs_of scenario_frame) = true)
    by (vm_compute; reflexivity).
  assert (H9 : threshold_rule (counts_of (runs_of scenario_frame)) 653 231
                              (transmitted_checksum 653 231) = true)
    by (vm_compute; reflexivity).
  assert (H10 : 0 <= 653 < 2 ^ 16) by lia.
  assert (H11 : 0 <= 231 < 2 ^ 15) by lia.
  do 11 (split; [assumption|]).
  exact (dhtRead_round_trip esp8266_tick_rate 1001 dhtData_at bench_handle zero_data w
           3 3 (runs_of scenario_frame) 653 231 H1 H2 H3 H4 H5 H6 H7 H8 H9 H10 H11).
Defined.





(** X18. The results of [dhtRead] on live arguments: the rate check's,
    the engine's four failures, or the decoder's two -- never
    [DHT_INVALID_INPUT], [DHT_MALLOC_FAILED] or
    [DHT_FAILED_TO_SET_PIN_MODE]. *)
Theorem dhtRead_results (hz pDht outdata : Z) (d : dht_t) (o : dht_data_t) (w : world) :
  pDht <> NULL -> outdata <> NULL ->
  mem w !! pDht = Some (BDht d) ->
  mem w !! outdata = Some (BData o) ->
  exists r w',
    dhtRead hz pDht outdata w = Some (r, w') /\
    r <> DHT_INVALID_INPUT /\ r <> DHT_MALLOC_FAILED /\ r <> DHT_FAILED_TO_SET_PIN_MODE.
Proof.
  intros Hp Ho Hd Hout.
  destruct (Z.lt_ge_cases (uint32 (tick w - pc d)) (pdMS_TO_TICKS hz 2000)) as [Hgate|Hgate].
  { exists DHT_READ_QUERY_TOO_FREQUENT, w.
    split; [exact (dhtRead_closed hz pDht outdata d w Hp Ho Hd Hgate)|].
    repeat split; discriminate. }
  destruct (steady_dhtReadRawData pDht d hz (replicate 40 0) eq_refl w Hd)
    as ([r b] & w1 & Hraw & Hmem & Hr). cbn [fst] in Hr.
  destruct (decide (r = DHT_OK)) as [-> | Hne].
  - rewrite (dhtRead_engine_ok hz pDht outdata d o w b w1 Hp Ho Hd Hout Hgate Hraw Hmem).
    eexists _, _. split; [reflexivity|].
    destruct (decode_results b o) as [-> | ->]; repeat split; discriminate.
  - rewrite (dhtRead_engine_failed hz pDht outdata d w r b w1 Hp Ho Hd Hgate Hraw Hne).
    exists r, w1. split; [reflexivity|].
    unfold raw_read_result in Hr.
    repeat destruct Hr as [Hr | Hr]; subst r; repeat split; discriminate.
Qed.

Lemma dhtRead_results_witness :
  let w := ready (sensor_wave scenario_frame) 200 in
  1001 <> NULL /\ dhtData_at <> NULL /\
  mem w !! 1001 = Some (BDht bench_handle) /\
  mem w !! dhtData_at = Some (BData zero_data) /\
  exists r w',
    dhtRead esp8266_tick_rate 1001 dhtData_at w = Some (r, w') /\
    r <> DHT_INVALID_INPUT /\ r <> DHT_MALLOC_FAILED /\ r <> DHT_FAILED_TO_SET_PIN_MODE.
Proof.
  intros w.
  assert (H1 : 1001 <> NULL) by (vm_compute; discriminate).
  assert (H2 : dhtData_at <> NULL) by (vm_compute; discriminate).
  assert (H3 : mem w !! 1001 = Some (BDht bench_handle)) by (vm_compute; reflexivity).
  assert (H4 : mem w !! dhtData_at = Some (BData zero_data)) by (vm_compute; reflexivity).
  do 4 (split; [assumption|]).
  exact (dhtRead_results esp8266_tick_rate 1001 dhtData_at bench_handle zero_data w
           H1 H2 H3 H4).
Defined.

(** ** Further properties of [dhtInitialize] and [dhtCleanup] *)

(** A name with a terminator in its first 32 bytes is left alone. *)
Lemma dhtInitialize_terminated_name (valid : Z -> bool) pinId s buf c0 k ppDht w :
  valid pinId = true -> s <> NULL ->
  mem w !! s = Some (BChars buf) ->
  buf !! 0%nat = Some c0 -> c0 <> 0 ->
  buf !! k = Some 0 -> (k < 32)%nat ->
  dhtInitialize valid pinId s ppDht w = allocate_handle pinId ppDht w.
Proof.
  intros Hvalid Hs Hbuf Hc0 Hnz Hk Hk32.
  unfold dhtInitialize. rewrite Hvalid. cbn [negb].
  replace (s =? NULL) with false by (symmetry; now apply Z.eqb_neq).
  rewrite (bind_eq _ _ _ _ _ (load_char_eq _ _ _ 0 _ Hbuf Hc0)).
  replace (c0 =? 0) with false by (symmetry; now apply Z.eqb_neq).
  change (Z.to_nat DHT_MAX_SENSOR_NAME) with 32%nat.
  rewrite (bind_eq _ _ _ _ _
             (scan_name_terminated w s buf k 32 0 Hbuf Hk ltac:(lia))).
  cbn [negb]. rewrite (bind_eq _ _ w tt w eq_refl). reflexivity.
Qed.

(** A name without one is clipped at index 31 first. *)
Lemma dhtInitialize_unterminated_name (valid : Z -> bool) pinId s buf ppDht w :
  valid pinId = true -> s <> NULL ->
  mem w !! s = Some (BChars buf) ->
  unterminated buf = true ->
  dhtInitialize valid pinId s ppDht w = allocate_handle pinId ppDht (clip_name s buf w).
Proof.
  intros Hvalid Hs Hbuf Hunt.
  destruct (unterminated_spec buf Hunt) as [Hlen Hnz].
  unfold dhtInitialize. rewrite Hvalid. cbn [negb].
  replace (s =? NULL) with false by (symmetry; now apply Z.eqb_neq).
  destruct (lookup_lt_is_Some_2 buf 0 ltac:(lia)) as [c0 Hc0].
  rewrite (bind_eq _ _ _ _ _ (load_char_eq _ _ _ 0 _ Hbuf Hc0)).
  replace (c0 =? 0) with false
    by (symmetry; apply Z.eqb_neq; apply (Hnz 0%nat c0); [lia | exact Hc0]).
  change (Z.to_nat DHT_MAX_SENSOR_NAME) with 32%nat.
  rewrite (bind_eq _ _ _ _ _
             (scan_name_unterminated w s buf 32 0 Hbuf ltac:(lia)
                ltac:(intros i c Hi; apply Hnz; lia))).
  cbn [negb].
  assert (Hst : store_char s (DHT_MAX_SENSOR_NAME - 1) 0 w = Some (tt, clip_name s buf w)).
  { unfold store_char. rewrite (bind_eq _ _ _ _ _ (load_chars_eq _ _ _ Hbuf)).
    change (DHT_MAX_SENSOR_NAME - 1) with 31.
    replace (31 <? Z.of_nat (length buf)) with true by (symmetry; apply Z.ltb_lt; lia).
    reflexivity. }
  rewrite (bind_eq _ _ _ _ _ Hst). reflexivity.
Qed.

(** The outcomes of the allocation part. *)
Lemma allocate_handle_outcome pinId ppDht q w :
  ppDht <> NULL ->
  mem w !! ppDht = Some (BPtr q) ->
  0 < next_block w ->
  mem w !! next_block w = None ->
  mem w !! (next_block w + 1) = None ->
  exists w',
    allocate_handle pinId ppDht w = Some (create_outcome w, w') /\
    (create_outcome w <> DHT_OK -> mem w' = mem w) /\
    (create_outcome w = DHT_OK ->
     mem w' =
       <[ppDht := BPtr (next_block w + 1)]>
         (<[next_block w + 1 := BDht (mk_dht (name (junk_dht w)) pinId (next_block w) 0)]>
            (<[next_block w := BPvt (set_pDhtAddress (next_block w + 1) (junk_pvt w))]>
               (mem w)))).
Proof.
  intros Hpp Hcell Hpos Hfresh Hfresh1.
  set (a := next_block w) in *.
  assert (Hne1 : ppDht <> a) by congruence.
  assert (Hne2 : ppDht <> a + 1) by congruence.
  unfold allocate_handle, create_outcome.
  replace (ppDht =? NULL) with false by (symmetry; now apply Z.eqb_neq).
  destruct (malloc_ok w) as [|[|] rest] eqn:Hm.
  - (* the allocator has nothing *)
    erewrite bind_eq by (unfold malloc; rewrite Hm; reflexivity).
    exists w. split; [reflexivity|]. split; [reflexivity | discriminate].
  - erewrite bind_eq by (apply malloc_eq; exact Hm). fold a.
    replace (a =? NULL) with false by (symmetry; apply Z.eqb_neq; unfold NULL; lia).
    destruct rest as [|[|] rest'].
    + (* the second allocation finds nothing *)
      erewrite bind_eq by reflexivity. cbv beta iota. rewrite Z.eqb_refl.
      erewrite bind_eq by (eapply free_eq; cbn [mem]; apply lookup_insert_eq).
      eexists. split; [reflexivity|]. split; [|discriminate].
      intros _. cbn [mem set_mem]. now apply delete_insert_id.
    + erewrite bind_eq by (apply malloc_eq; reflexivity).
      cbn [next_block mem junk_dht junk_pvt tick gpio_ret gpio_calls line samples].
      replace (a + 1 =? NULL) with false by (symmetry; apply Z.eqb_neq; unfold NULL; lia).
      unfold gpio_set_pull_mode.
      erewrite bind_eq by reflexivity.
      cbn [next_block mem junk_dht junk_pvt tick gpio_ret gpio_calls line samples].
      destruct (gpio_ret w (gpio_calls w) =? ESP_OK) eqn:Hgpio; cbn [negb].
      * erewrite bind_eq
          by (apply load_pvt_eq; cbn [mem];
              rewrite lookup_insert_ne by lia; apply lookup_insert_eq).
        erewrite bind_eq by reflexivity.
        erewrite bind_eq
          by (apply load_dht_eq; cbn [mem set_mem];
              rewrite lookup_insert_ne by lia; apply lookup_insert_eq).
        erewrite bind_eq by reflexivity.
        erewrite bind_eq by (apply load_dht_eq; cbn [mem set_mem]; apply lookup_insert_eq).
        erewrite bind_eq by reflexivity.
        erewrite bind_eq by (apply load_dht_eq; cbn [mem set_mem]; apply lookup_insert_eq).
        erewrite bind_eq by reflexivity.
        erewrite bind_eq
          by (apply load_ptr_eq; cbn [mem set_mem];
              rewrite !lookup_insert_ne by (lia || congruence); exact Hcell).
        erewrite bind_eq by reflexivity.
        eexists. split; [reflexivity|]. split; [intros H; now contradiction H|].
        intros _. cbn [mem set_mem].
        apply map_eq. intros i. rewrite !lookup_insert.
        repeat case_decide; subst; try lia; reflexivity.
      * (* the pull-up is refused *)
        erewrite bind_eq
          by (eapply free_eq; cbn [mem];
              rewrite lookup_insert_ne by lia; apply lookup_insert_eq).
        erewrite bind_eq
          by (eapply free_eq; cbn [mem set_mem];
              rewrite lookup_delete_ne by lia; apply lookup_insert_eq).
        eexists. split; [reflexivity|]. split; [|discriminate].
        intros _. cbn [mem set_mem].
        apply map_eq. intros i. rewrite !lookup_delete, !lookup_insert.
        repeat case_decide; subst; try lia; congruence.
    + (* the second allocation fails *)
      erewrite bind_eq by reflexivity. cbv beta iota. rewrite Z.eqb_refl.
      erewrite bind_eq by (eapply free_eq; cbn [mem]; apply lookup_insert_eq).
      eexists. split; [reflexivity|]. split; [|discriminate].
      intros _. cbn [mem set_mem]. now apply delete_insert_id.
  - (* the first allocation fails *)
    erewrite bind_eq by (unfold malloc; rewrite Hm; reflexivity).
    eexists. split; [reflexivity|]. split; [reflexivity | discriminate].
Qed.

Lemma dhtCleanup_null ppDht w :
  ppDht = NULL \/ mem w !! ppDht = Some (BPtr NULL) ->
  dhtCleanup ppDht w = Some (DHT_INVALID_INPUT, w).
Proof.
  intros [-> | Hcell]; [reflexivity|]. unfold dhtCleanup.
  destruct (ppDht =? NULL); [reflexivity|].
  rewrite (bind_eq _ _ _ _ _ (load_ptr_eq _ _ _ Hcell)). reflexivity.
Qed.

(** X19. The argument checks of [dhtInitialize] come before everything
    else: an invalid pin, a NULL name, an empty name, or a terminated name
    with a NULL [ppDht] gives [DHT_INVALID_INPUT] with nothing allocated,
    no driver call made and nothing written. *)
Theorem dhtInitialize_rejects_bad_arguments
    (valid : Z -> bool) (pinId s ppDht : Z) (buf : list Z) (w : world) :
  valid pinId = false
  \/ s = NULL
  \/ (mem w !! s = Some (BChars buf) /\ buf !! 0%nat = Some 0)
  \/ (mem w !! s = Some (BChars buf) /\ ppDht = NULL /\
      exists k, (k < 32)%nat /\ buf !! k = Some 0) ->
  dhtInitialize valid pinId s ppDht w = Some (DHT_INVALID_INPUT, w).
Proof.
  intros H. unfold dhtInitialize.
  destruct (valid pinId) eqn:Hvalid; cbn [negb]; [|reflexivity].
  destruct (s =? NULL) eqn:Hs; [reflexivity|].
  apply Z.eqb_neq in Hs.
  destruct H as [H | [H | [[Hbuf H0] | (Hbuf & -> & k & Hk32 & Hk)]]];
    [discriminate | contradiction | |].
  - rewrite (bind_eq _ _ _ _ _ (load_char_eq _ _ _ 0 _ Hbuf H0)). reflexivity.
  - assert (Hlt : (k < length buf)%nat) by (apply lookup_lt_is_Some; eauto).
    destruct (lookup_lt_is_Some_2 buf 0 ltac:(lia)) as [c0 Hc0].
    rewrite (bind_eq _ _ _ _ _ (load_char_eq _ _ _ 0 _ Hbuf Hc0)).
    destruct (c0 =? 0); [reflexivity|].
    change (Z.to_nat DHT_MAX_SENSOR_NAME) with 32%nat.
    rewrite (bind_eq _ _ _ _ _
               (scan_name_terminated w s buf k 32 0 Hbuf Hk ltac:(lia))).
    cbn [negb]. rewrite (bind_eq _ _ w tt w eq_refl). reflexivity.
Qed.

Lemma dhtInitialize_rejects_bad_arguments_witness :
  let w := bench (c_string "A") [] 0 in
  (esp8266_valid_gpio GPIO_NUM_5 = false
   \/ name_at = NULL
   \/ (mem w !! name_at = Some (BChars (c_string "A")) /\
       c_string "A" !! 0%nat = Some 0)
   \/ (mem w !! name_at = Some (BChars (c_string "A")) /\ NULL = NULL /\
       exists k, (k < 32)%nat /\ c_string "A" !! k = Some 0)) /\
  dhtInitialize esp8266_valid_gpio GPIO_NUM_5 name_at NULL w = Some (DHT_INVALID_INPUT, w).
Proof.
  intros w.
  assert (H : esp8266_valid_gpio GPIO_NUM_5 = false
              \/ name_at = NULL
              \/ (mem w !! name_at = Some (BChars (c_string "A")) /\
                  c_string "A" !! 0%nat = Some 0)
              \/ (mem w !! name_at = Some (BChars (c_string "A")) /\ NULL = NULL /\
                  exists k, (k < 32)%nat /\ c_string "A" !! k = Some 0)).
  { right. right. right. split; [vm_compute; reflexivity|]. split; [reflexivity|].
    exists 1%nat. split; [lia | reflexivity]. }
  split; [exact H|].
  exact (dhtInitialize_rejects_bad_arguments esp8266_valid_gpio GPIO_NUM_5 name_at NULL
           (c_string "A") w H).
Defined.

(** X20. A create whose arguments are in order: the allocator and the
    GPIO driver decide the result -- [DHT_MALLOC_FAILED] when one of the two
    allocations fails, [DHT_FAILED_TO_SET_PIN_MODE] when the pull-up is
    refused, [DHT_OK] otherwise -- and every failure leaves the heap as it
    was found: what was allocated is freed again, and the caller's pointer
    is not written. *)
Theorem dhtInitialize_outcome
    (valid : Z -> bool) (pinId s : Z) (buf : list Z) (c0 : Z) (k : nat)
    (ppDht q : Z) (w : world) :
  valid pinId = true -> s <> NULL -> ppDht <> NULL ->
  mem w !! s = Some (BChars buf) ->
  buf !! 0%nat = Some c0 -> c0 <> 0 ->
  buf !! k = Some 0 -> (k < 32)%nat ->
  mem w !! ppDht = Some (BPtr q) ->
  0 < next_block w ->
  mem w !! next_block w = None ->
  mem w !! (next_block w + 1) = None ->
  exists w',
    dhtInitialize valid pinId s ppDht w = Some (create_outcome w, w') /\
    (create_outcome w <> DHT_OK -> mem w' = mem w).
Proof.
  intros Hvalid Hs Hpp Hbuf Hc0 Hnz Hk Hk32 Hcell Hpos Hfresh Hfresh1.
  rewrite (dhtInitialize_terminated_name valid pinId s buf c0 k ppDht w
             Hvalid Hs Hbuf Hc0 Hnz Hk Hk32).
  destruct (allocate_handle_outcome pinId ppDht q w Hpp Hcell Hpos Hfresh Hfresh1)
    as (w' & Hrun & Hfail & _).
  exists w'. split; assumption.
Qed.

Lemma dhtInitialize_outcome_witness :
  let w := bench_with [true; false] (fun _ => ESP_OK) (c_string "A") [] 0 in
  esp8266_valid_gpio GPIO_NUM_5 = true /\ name_at <> NULL /\ pDht_at <> NULL /\
  mem w !! name_at = Some (BChars (c_string "A")) /\
  c_string "A" !! 0%nat = Some 65 /\ 65 <> 0 /\
  c_string "A" !! 1%nat = Some 0 /\ (1 < 32)%nat /\
  mem w !! pDht_at = Some (BPtr NULL) /\
  0 < next_block w /\
  mem w !! next_block w = None /\
  mem w !! (next_block w + 1) = None /\
  exists w',
    dhtInitialize esp8266_valid_gpio GPIO_NUM_5 name_at pDht_at w
    = Some (create_outcome w, w') /\
    (create_outcome w <> DHT_OK -> mem w' = mem w).
Proof.
  intros w.
  assert (H1 : esp8266_valid_gpio GPIO_NUM_5 = true) by reflexivity.
  assert (H2 : name_at <> NULL) by (vm_compute; discriminate).
  assert (H3 : pDht_at <> NULL) by (vm_compute; discriminate).
  assert (H4 : mem w !! name_at = Some (BChars (c_string "A"))) by (vm_compute; reflexivity).
  assert (H5 : c_string "A" !! 0%nat = Some 65) by reflexivity.
  assert (H6 : 65 <> 0) by lia.
  assert (H7 : c_string "A" !! 1%nat = Some 0) by reflexivity.
  assert (H8 : (1 < 32)%nat) by lia.
  assert (H9 : mem w !! pDht_at = Some (BPtr NULL)) by (vm_compute; reflexivity).
  assert (H10 : 0 < next_block w) by (vm_compute; reflexivity).
  assert (H11 : mem w !! next_block w = None) by (vm_compute; reflexivity).
  assert (H12 : mem w !! (next_block w + 1) = None) by (vm_compute; reflexivity).
  do 12 (split; [assumption|]).
  exact (dhtInitialize_outcome esp8266_valid_gpio GPIO_NUM_5 name_at (c_string "A") 65 1
           pDht_at NULL w H1 H2 H3 H4 H5 H6 H7 H8 H9 H10 H11 H12).
Defined.



(** X22. A read of a handle as created ([pc] at 0) while the tick
    count is below 2000 ms -- right after boot, or right after the 32-bit
    tick count has wrapped -- is turned away with
    [DHT_READ_QUERY_TOO_FREQUENT], the bus untouched. *)
Theorem fresh_handle_read_too_early (hz pDht outdata : Z) (d : dht_t) (w : world) :
  pDht <> NULL -> outdata <> NULL ->
  mem w !! pDht = Some (BDht d) ->
  pc d = 0 ->
  0 <= tick w < pdMS_TO_TICKS hz 2000 ->
  dhtRead hz pDht outdata w = Some (DHT_READ_QUERY_TOO_FREQUENT, w).
Proof.
  intros Hp Ho Hd Hpc Ht.
  apply (dhtRead_closed hz pDht outdata d w Hp Ho Hd).
  rewrite Hpc, Z.sub_0_r.
  assert (Hlt : pdMS_TO_TICKS hz 2000 < 2 ^ 32)
    by (unfold pdMS_TO_TICKS, uint32 at 1; apply Z.mod_pos_bound; lia).
  unfold uint32 at 1. rewrite Z.mod_small by lia. lia.
Qed.

Lemma fresh_handle_read_too_early_witness :
  let w := ready (sensor_wave scenario_frame) 199 in
  1001 <> NULL /\ dhtData_at <> NULL /\
  mem w !! 1001 = Some (BDht bench_handle) /\
  pc bench_handle = 0 /\
  0 <= tick w < pdMS_TO_TICKS esp8266_tick_rate 2000 /\
  dhtRead esp8266_tick_rate 1001 dhtData_at w = Some (DHT_READ_QUERY_TOO_FREQUENT, w).
Proof.
  intros w.
  assert (H1 : 1001 <> NULL) by (vm_compute; discriminate).
  assert (H2 : dhtData_at <> NULL) by (vm_compute; discriminate).
  assert (H3 : mem w !! 1001 = Some (BDht bench_handle)) by (vm_compute; reflexivity).
  assert (H4 : pc bench_handle = 0) by reflexivity.
  assert (H5 : 0 <= tick w < pdMS_TO_TICKS esp8266_tick_rate 2000)
    by (vm_compute; split; [discriminate | reflexivity]).
  do 5 (split; [assumption|]).
  exact (fresh_handle_read_too_early esp8266_tick_rate 1001 dhtData_at bench_handle w
           H1 H2 H3 H4 H5).
Defined.

(** X23. A name with no terminator in its first 32 bytes: the create
    is the create on the heap in which the caller's buffer has been clipped
    at index 31 -- the same result and the same final state as if the caller
    had passed the clipped name. *)
Theorem dhtInitialize_clips_then_creates
    (valid : Z -> bool) (pinId s ppDht : Z) (buf : list Z) (w : world) :
  valid pinId = true -> s <> NULL ->
  mem w !! s = Some (BChars buf) ->
  unterminated buf = true ->
  dhtInitialize valid pinId s ppDht w
  = dhtInitialize valid pinId s ppDht (clip_name s buf w).
Proof.
  intros Hvalid Hs Hbuf Hunt.
  destruct (unterminated_spec buf Hunt) as [Hlen Hnz].
  destruct (lookup_lt_is_Some_2 buf 0 ltac:(lia)) as [c0 Hc0].
  rewrite (dhtInitialize_unterminated_name valid pinId s buf ppDht w Hvalid Hs Hbuf Hunt).
  symmetry.
  apply (dhtInitialize_terminated_name valid pinId s (<[31%nat := 0]> buf) c0 31 ppDht
           (clip_name s buf w) Hvalid Hs).
  - cbn [clip_name mem set_mem]. apply lookup_insert_eq.
  - rewrite list_lookup_insert_ne by lia. exact Hc0.
  - apply (Hnz 0%nat c0); [lia | exact Hc0].
  - apply list_lookup_insert_eq. lia.
  - lia.
Qed.

Lemma dhtInitialize_clips_then_creates_witness :
  let w := bench DHT_SENSOR_NAME [] 0 in
  esp8266_valid_gpio GPIO_NUM_5 = true /\ name_at <> NULL /\
  mem w !! name_at = Some (BChars DHT_SENSOR_NAME) /\
  unterminated DHT_SENSOR_NAME = true /\
  dhtInitialize esp8266_valid_gpio GPIO_NUM_5 name_at pDht_at w
  = dhtInitialize esp8266_valid_gpio GPIO_NUM_5 name_at pDht_at
      (clip_name name_at DHT_SENSOR_NAME w).
Proof.
  intros w.
  assert (H1 : esp8266_valid_gpio GPIO_NUM_5 = true) by reflexivity.
  assert (H2 : name_at <> NULL) by (vm_compute; discriminate).
  assert (H3 : mem w !! name_at = Some (BChars DHT_SENSOR_NAME)) by (vm_compute; reflexivity).
  assert (H4 : unterminated DHT_SENSOR_NAME = true) by (vm_compute; reflexivity).
  do 4 (split; [assumption|]).
  exact (dhtInitialize_clips_then_creates esp8266_valid_gpio GPIO_NUM_5 name_at pDht_at
           DHT_SENSOR_NAME w H1 H2 H3 H4).
Defined.

(** X24. [dhtCleanup] of a handle whose private context does not point
    back at it is refused with [DHT_INVALID_INPUT]: nothing is freed and
    the caller's pointer keeps the handle. *)
Theorem dhtCleanup_refuses_foreign_handle
    (ppDht p : Z) (d : dht_t) (v : dhtpvt_t) (w : world) :
  ppDht <> NULL -> p <> NULL ->
  mem w !! ppDht = Some (BPtr p) ->
  mem w !! p = Some (BDht d) ->
  mem w !! opaque d = Some (BPvt v) ->
  pDhtAddress v <> p ->
  dhtCleanup ppDht w = Some (DHT_INVALID_INPUT, w).
Proof. apply dhtCleanup_mismatch. Qed.

Lemma dhtCleanup_refuses_foreign_handle_witness :
  let w := set_mem (insert 1000 (BPvt (mk_dhtpvt 77 0 0))) (ready [] 0) in
  pDht_at <> NULL /\ 1001 <> NULL /\
  mem w !! pDht_at = Some (BPtr 1001) /\
  mem w !! 1001 = Some (BDht bench_handle) /\
  mem w !! opaque bench_handle = Some (BPvt (mk_dhtpvt 77 0 0)) /\
  pDhtAddress (mk_dhtpvt 77 0 0) <> 1001 /\
  dhtCleanup pDht_at w = Some (DHT_INVALID_INPUT, w).
Proof.
  intros w.
  assert (H1 : pDht_at <> NULL) by (vm_compute; discriminate).
  assert (H2 : 1001 <> NULL) by (vm_compute; discriminate).
  assert (H3 : mem w !! pDht_at = Some (BPtr 1001)) by (vm_compute; reflexivity).
  assert (H4 : mem w !! 1001 = Some (BDht bench_handle)) by (vm_compute; reflexivity).
  assert (H5 : mem w !! opaque bench_handle = Some (BPvt (mk_dhtpvt 77 0 0)))
    by (vm_compute; reflexivity).
  assert (H6 : pDhtAddress (mk_dhtpvt 77 0 0) <> 1001) by (vm_compute; discriminate).
  do 6 (split; [assumption|]).
  exact (dhtCleanup_refuses_foreign_handle pDht_at 1001 bench_handle (mk_dhtpvt 77 0 0) w
           H1 H2 H3 H4 H5 H6).
Defined.

(** X25. A second [dhtCleanup] through the same pointer variable is
    harmless: the first one cleared it, so the second returns
    [DHT_INVALID_INPUT] and does nothing -- no double free. *)
Theorem dhtCleanup_twice (ppDht p : Z) (d : dht_t) (v : dhtpvt_t) (w : world) :
  ppDht <> NULL -> p <> NULL ->
  mem w !! ppDht = Some (BPtr p) ->
  mem w !! p = Some (BDht d) ->
  mem w !! opaque d = Some (BPvt v) ->
  pDhtAddress v = p ->
  exists w',
    dhtCleanup ppDht w = Some (DHT_OK, w') /\
    dhtCleanup ppDht w' = Some (DHT_INVALID_INPUT, w').
Proof.
  intros Hpp Hp Hcell Hd Hv Heq.
  destruct (dhtCleanup_ok ppDht p d v w Hpp Hp Hcell Hd Hv Heq)
    as (w' & Hrun & _ & _ & Hnull & _).
  exists w'. split; [exact Hrun|]. apply dhtCleanup_null. now right.
Qed.

Lemma dhtCleanup_twice_witness :
  let w := ready [] 0 in
  pDht_at <> NULL /\ 1001 <> NULL /\
  mem w !! pDht_at = Some (BPtr 1001) /\
  mem w !! 1001 = Some (BDht bench_handle) /\
  mem w !! opaque bench_handle = Some (BPvt (mk_dhtpvt 1001 0xA5A5A5A5 0xA5A5A5A5)) /\
  pDhtAddress (mk_dhtpvt 1001 0xA5A5A5A5 0xA5A5A5A5) = 1001 /\
  exists w',
    dhtCleanup pDht_at w = Some (DHT_OK, w') /\
    dhtCleanup pDht_at w' = Some (DHT_INVALID_INPUT, w').
Proof.
  intros w.
  assert (H1 : pDht_at <> NULL) by (vm_compute; discriminate).
  assert (H2 : 1001 <> NULL) by (vm_compute; discriminate).
  assert (H3 : mem w !! pDht_at = Some (BPtr 1001)) by (vm_compute; reflexivity).
  assert (H4 : mem w !! 1001 = Some (BDht bench_handle)) by (vm_compute; reflexivity).
  assert (H5 : mem w !! opaque bench_handle
               = Some (BPvt (mk_dhtpvt 1001 0xA5A5A5A5 0xA5A5A5A5)))
    by (vm_compute; reflexivity).
  assert (H6 : pDhtAddress (mk_dhtpvt 1001 0xA5A5A5A5 0xA5A5A5A5) = 1001) by reflexivity.
  do 6 (split; [assumption|]).
  exact (dhtCleanup_twice pDht_at 1001 bench_handle (mk_dhtpvt 1001 0xA5A5A5A5 0xA5A5A5A5) w
           H1 H2 H3 H4 H5 H6).
Defined.



(** ** The duration of a raw read, and the first read of the task *)

Section Within.

Variable pDht : Z.
Variable d : dht_t.

Lemma samples_within_ret {A} (P : A -> Prop) (a : A) n :
  P a -> samples_within pDht d n P (mret a).
Proof.
  intros HP w _. exists a, 0%nat. rewrite advance_0.
  split; [reflexivity|]. split; [lia | exact HP].
Qed.

Lemma samples_within_bind {A B} n1 n2 n (Q : A -> Prop) (P : B -> Prop)
    (m : M A) (f : A -> M B) :
  samples_within pDht d n1 Q m ->
  (forall a, Q a -> samples_within pDht d n2 P (f a)) ->
  (n1 + n2 <= n)%nat ->
  samples_within pDht d n P (m ≫= f).
Proof.
  intros Hm Hf Hn w Hw. destruct (Hm w Hw) as (a & k1 & Heq & Hk1 & HQ).
  destruct (Hf a HQ (advance k1 w) Hw) as (c & k2 & Heq2 & Hk2 & HP).
  exists c, (k2 + k1)%nat. rewrite (bind_eq _ _ _ _ _ Heq), Heq2, advance_advance.
  split; [reflexivity|]. split; [lia | exact HP].
Qed.

Lemma samples_within_poll level budget counter prev :
  samples_within pDht d budget (fun _ => True) (poll pDht level budget counter prev).
Proof.
  intros w Hw.
  destruct (poll_spec pDht d level budget counter prev w Hw)
    as [[_ Heq] | (k & Hk & _ & Heq)]; rewrite Heq; eexists _, _;
    (split; [reflexivity|]; split; [lia | exact I]).
Qed.

Lemma samples_within_array_store b i v :
  0 <= i < Z.of_nat (length b) ->
  samples_within pDht d 0 (fun b' => length b' = length b) (array_store b i v).
Proof.
  intros Hi. unfold array_store.
  replace (0 <=? i) with true by (symmetry; apply Z.leb_le; lia).
  replace (i <? Z.of_nat (length b)) with true by (symmetry; apply Z.ltb_lt; lia).
  apply samples_within_ret. apply length_insert.
Qed.

Lemma samples_within_read_bits n : forall prev b,
  (n <= 40)%nat -> length b = 40%nat ->
  samples_within pDht d (120 * n) (fun _ => True)
                 (read_bits pDht n (Z.of_nat (40 - n)) prev b).
Proof.
  induction n as [|n IH]; intros prev b Hn Hlen; cbn [read_bits].
  - now apply samples_within_ret.
  - unfold wait_while.
    change (Z.to_nat BEGIN_DATA_READ_DHT_ATTENTION) with 50%nat.
    change (Z.to_nat BEGIN_DATA_RECEIVE_DHT_DATA) with 70%nat.
    eapply (samples_within_bind 50 (70 + 120 * n));
      [apply samples_within_poll | | lia].
    intros [counter p1] _. destruct (p1 =? DHT_LOW); [now apply samples_within_ret|].
    eapply (samples_within_bind 70 (120 * n));
      [apply samples_within_poll | | lia].
    intros [counter2 p2] _. destruct (p2 =? DHT_HIGH); [now apply samples_within_ret|].
    eapply (samples_within_bind 0 (120 * n));
      [apply samples_within_array_store; rewrite Hlen; lia | | lia].
    intros b' Hb'. cbv beta in Hb'.
    replace (Z.of_nat (40 - S n) + 1) with (Z.of_nat (40 - n)) by lia.
    apply IH; [lia | congruence].
Qed.

Lemma samples_within_sample_line b :
  length b = 40%nat ->
  samples_within pDht d 4960 (fun _ => True) (sample_line pDht b).
Proof.
  intros Hlen. unfold sample_line, wait_while.
  change (Z.to_nat BEGIN_READ_CYCLE_DHT_LOW) with 80%nat.
  change (Z.to_nat BEGIN_READ_CYCLE_DHT_HIGH) with 80%nat.
  eapply (samples_within_bind 80 4880); [apply samples_within_poll | | lia].
  intros [counter p1] _. destruct (p1 =? DHT_LOW); [now apply samples_within_ret|].
  eapply (samples_within_bind 80 4800); [apply samples_within_poll | | lia].
  intros [counter2 p2] _. destruct (p2 =? DHT_HIGH); [now apply samples_within_ret|].
  apply (samples_within_read_bits 40); [lia | exact Hlen].
Qed.

End Within.

(** X27. The engine is a bounded busy-wait.  On a live handle
    [dhtReadRawData] returns whatever the line and the driver do, after
    at most 4960 samples of the line (80 + 80 for the response and 50 + 70
    for each of the 40 bits) and one to four driver calls, with the heap as
    it found it. *)
Theorem raw_read_is_bounded (hz pDht : Z) (d : dht_t) (b : list Z) (w : world) :
  mem w !! pDht = Some (BDht d) ->
  length b = 40%nat ->
  exists r b' w',
    dhtReadRawData hz pDht b w = Some ((r, b'), w') /\
    mem w' = mem w /\
    (samples w <= samples w' <= samples w + 4960)%nat /\
    (gpio_calls w < gpio_calls w' <= gpio_calls w + 4)%nat.
Proof.
  intros Hd Hlen.
  destruct (first_gpio_failure (gpio_ret w) (gpio_calls w))
    as [Hok | (k & Hk & Hok & Hbad)].
  - rewrite (dhtReadRawData_start hz pDht d b w Hd Hok).
    destruct (samples_within_sample_line pDht d b Hlen (after_start hz w) Hd)
      as ([r b'] & k & Hrun & Hk & _).
    exists r, b', (advance k (after_start hz w)).
    split; [exact Hrun|]. cbn [advance after_start mem samples gpio_calls].
    split; [reflexivity | lia].
  - destruct (gpio_failure_run hz pDht d b w k Hd Hk Hok Hbad)
      as (w' & Hrun & Hs & Hmem & Hcalls).
    exists (gpio_failure_result k), b, w'.
    split; [exact Hrun|]. split; [exact Hmem | lia].
Qed.

Lemma raw_read_is_bounded_witness :
  let w := ready (sensor_wave scenario_frame) 200 in
  mem w !! 1001 = Some (BDht bench_handle) /\
  length (replicate 40 0) = 40%nat /\
  exists r b' w',
    dhtReadRawData esp8266_tick_rate 1001 (replicate 40 0) w = Some ((r, b'), w') /\
    mem w' = mem w /\
    (samples w <= samples w' <= samples w + 4960)%nat /\
    (gpio_calls w < gpio_calls w' <= gpio_calls w + 4)%nat.
Proof.
  intros w.
  assert (H1 : mem w !! 1001 = Some (BDht bench_handle)) by (vm_compute; reflexivity).
  assert (H2 : length (replicate 40 0) = 40%nat) by reflexivity.
  do 2 (split; [assumption|]).
  exact (raw_read_is_bounded esp8266_tick_rate 1001 bench_handle (replicate 40 0) w H1 H2).
Defined.


